(** * Two-pass Reddit cohort tracking: a shallow embedding and its properties

    The development embeds [reddit/collect_data.py] (Pass 1: cohort capture
    with the user-info cache) and [reddit/collect_data_2.py] (Pass 2: batch
    status re-check and cohort join) and proves the properties the
    specification states about them.

    Conventions of the embedding.
    - A Python object whose attributes are loaded lazily is a record of
      attribute reads; a read that can raise has type [attr A], where [None]
      stands for "the access raises".  A Python [None] value is an inner
      [option].
    - A [datetime] is a count of microseconds since the epoch (Python's
      [datetime] has exactly this resolution), a [timedelta] a difference of
      such counts, and [total_seconds()] the exact rational it denotes.
    - Effects are explicit: every function takes and returns a [world] that
      holds the mutable globals, the number of clock reads and of bulk calls
      made so far, and the chronological trace of observable events (external
      fetches, bulk calls, sleeps, printed lines).  The clock and the
      platform are oracles, section variables of the functions that use
      them. *)

From Stdlib Require Import ZArith QArith Lia List.
From stdpp Require Import gmap strings list fin_maps.

(** ** Python and PRAW values *)

(** An attribute read that may raise. *)
Definition attr (A : Type) : Type := option A.

(** Exception classes the handlers of [collect_user_info] tell apart.
    [OtherException] is any [Exception] that is none of the first three
    (for example the [TypeError] of [None + 1]). *)
Inductive exn : Type :=
| NotFound
| Forbidden
| AttributeError
| OtherException.

(** What a profile attribute looks like once the profile is loaded: not
    there at all ([hasattr] is false, a read raises [AttributeError]),
    there with value [None], or there with a value. *)
Inductive field (A : Type) : Type :=
| Absent
| PyNone
| Has (a : A).
Arguments Absent {A}.
Arguments PyNone {A}.
Arguments Has {A} a.

Module Redditor.
(** The attributes of a loaded profile that [collect_user_info] reads. *)
Record profile : Type := Profile {
  created_utc : field Z;      (* microseconds since the epoch *)
  link_karma : field Z;
  comment_karma : field Z;
  is_verified : field bool
}.

(** A [praw.models.Redditor]: [str(author)] either raises or gives the
    name; the first read of a profile attribute triggers the external
    fetch, which either raises or loads the profile. *)
Record t : Type := Make {
  str : exn + string;
  fetch : exn + profile
}.
End Redditor.

Module Submission.
(** A [praw.models.Submission] as the two passes read it.  [id] and
    [fullname] are set when the object is built from a listing; [selftext]
    is read through [getattr(post, "selftext", None)], so [None] covers
    both an absent attribute and the value [None]. *)
Record t : Type := Make {
  id : string;
  fullname : string;
  author : attr (option Redditor.t);
  selftext : option string;
  created_utc : attr Z;       (* microseconds since the epoch *)
  subreddit : attr string;    (* str(post.subreddit) *)
  title : attr string;
  domain : attr string;
  score : attr Z;
  num_comments : attr Z;
  upvote_ratio : attr Q;
  link_flair_text : attr (option string);
  removed_by_category : attr (option string);
  locked : attr bool;
  archived : attr bool;
  is_robot_indexable : field bool
}.
End Submission.

(** ** Time *)

Definition datetime : Type := Z.
Definition timedelta : Type := Z.

Definition MICROSECONDS_PER_SECOND : Z := 1000000.
Definition MICROSECONDS_PER_DAY : Z := 86400 * MICROSECONDS_PER_SECOND.

(** [datetime.min] and [datetime.max] in UTC, as microseconds. *)
Definition DATETIME_MIN : Z := -62135596800 * MICROSECONDS_PER_SECOND.
Definition DATETIME_MAX : Z := 253402300800 * MICROSECONDS_PER_SECOND - 1.

(** [datetime.fromtimestamp(ts, tz=timezone.utc)]: raises outside the years
    1..9999. *)
Definition fromtimestamp (ts : Z) : attr datetime :=
  if (DATETIME_MIN <=? ts)%Z && (ts <=? DATETIME_MAX)%Z then Some ts else None.

(** [timedelta.days]: Python normalises a timedelta so that the seconds and
    microseconds are non-negative, hence the floor. *)
Definition timedelta_days (d : timedelta) : Z := (d / MICROSECONDS_PER_DAY)%Z.

(** [timedelta.total_seconds()]. *)
Definition total_seconds (d : timedelta) : Q := Qmake d 1000000.

(** ** Observable events *)

Inductive message : Type :=
| UserUnavailable (username : option string) (e : exn)
| UserUnexpected (username : option string) (e : exn)
| PostError (post_id : string)
| Pass1Collecting (subreddit_name : string)
| Pass1Progress (i : nat)
| Pass1Collected (n : nat) (subreddit_name : string)
| Pass2Fetching (n : nat)
| Pass2BatchError (lo hi : nat)
| Pass2Found (n : nat).

Inductive event : Type :=
| Fetch (username : string)          (* the first profile read of an author *)
| BulkInfo (fullnames : list string) (* one reddit.info request *)
| Sleep (seconds : Q)
| Print (m : message).

Definition is_sleep (e : event) : bool :=
  match e with Sleep _ => true | _ => false end.

Definition is_bulk_info (e : event) : bool :=
  match e with BulkInfo _ => true | _ => false end.

(** The usernames whose profile was fetched, in order. *)
Fixpoint fetched (tr : list event) : list string :=
  match tr with
  | [] => []
  | Fetch u :: tr' => u :: fetched tr'
  | _ :: tr' => fetched tr'
  end.

(** ** Pass 1: [reddit/collect_data.py] *)

Module UserInfo.
(** The dict [collect_user_info] returns (an Author Snapshot). *)
Record t : Type := Make {
  username : string;
  account_age_days : option Z;
  link_karma : option Z;
  comment_karma : option Z;
  total_karma : option Z;
  is_verified : option bool;
  author_unavailable : bool
}.

(** The dict of the [except] branches and of the two early returns. *)
Definition unavailable (name : string) : t :=
  Make name None None None None None true.
End UserInfo.

Module PostData.
(** The dict [collect_post_data] returns (a Post Record). *)
Record t : Type := Make {
  post_fullname : string;
  created_utc : datetime;
  captured_at_utc : datetime;
  post_age_seconds_at_capture : Q;
  subreddit : string;
  title : string;
  selftext : string;
  domain : string;
  initial_score : Z;
  initial_num_comments : Z;
  initial_upvote_ratio : Q;
  link_flair_text : option string;
  author_username : string;
  author_account_age_days : option Z;
  author_total_karma : option Z;
  author_link_karma : option Z;
  author_comment_karma : option Z;
  author_is_verified : option bool;
  author_unavailable : bool
}.
End PostData.

Module collect_data.

(** The module's mutable state and what it has done so far. *)
Record world : Type := World {
  user_info_cache : gmap (option string) UserInfo.t;
  clock_reads : nat;
  trace : list event
}.

(** State at import time: [user_info_cache = {}]. *)
Definition initial : world := World ∅ 0 [].

Definition emit (e : event) (w : world) : world :=
  World (user_info_cache w) (clock_reads w) (trace w ++ [e]).

Definition cache_store (k : option string) (v : UserInfo.t) (w : world) : world :=
  World (<[k := v]> (user_info_cache w)) (clock_reads w) (trace w).

(** How the [try] block of [collect_user_info] ends: with a [return], or
    with an exception, in which case the handlers see the value the local
    [username] had at that point. *)
Inductive outcome : Type :=
| Returned (user_data : UserInfo.t)
| Raised (username : option string) (e : exn).

Definition USER_PACING : Q := 6 # 10.

Section with_clock.
(** [clock n] is what the [n]-th call of [datetime.now(timezone.utc)]
    returns. *)
Variable clock : nat -> datetime.

Definition now (w : world) : datetime * world :=
  (clock (clock_reads w),
   World (user_info_cache w) (S (clock_reads w)) (trace w)).

(** Lines 56-74, entered on a cache miss for [username]. *)
Definition fresh_lookup (author : Redditor.t) (username : string)
    (w : world) : outcome * world :=
  let w := emit (Fetch username) w in
  match Redditor.fetch author with
  | inl e => (Raised (Some username) e, w)
  | inr p =>
    match Redditor.created_utc p with
    | Absent | PyNone => (Raised (Some username) AttributeError, w)
    | Has created =>
      let '(t, w) := now w in
      match fromtimestamp created with
      | None => (Raised (Some username) OtherException, w)
      | Some created_dt =>
        let account_age_days := timedelta_days (t - created_dt)%Z in
        match Redditor.link_karma p, Redditor.comment_karma p with
        | Absent, _ | _, Absent =>
          (Raised (Some username) AttributeError, w)
        | PyNone, _ | _, PyNone =>
          (Raised (Some username) OtherException, w)
        | Has lk, Has ck =>
          let user_data :=
            UserInfo.Make username (Some account_age_days) (Some lk)
              (Some ck) (Some (lk + ck)%Z)
              match Redditor.is_verified p with
              | Absent => Some false
              | PyNone => None
              | Has b => Some b
              end
              false in
          let w := emit (Sleep USER_PACING) w in
          let w := cache_store (Some username) user_data w in
          (Returned user_data, w)
        end
      end
    end
  end.

(** Lines 40-74: the body of the [try]. *)
Definition try_lookup (author : Redditor.t) (w : world) : outcome * world :=
  match Redditor.str author with
  | inl e => (Raised None e, w)
  | inr username =>
    if String.eqb username "[deleted]" then
      (Returned (UserInfo.unavailable "[deleted]"), w)
    else
      match user_info_cache w !! Some username with
      | Some cached => (Returned cached, w)
      | None => fresh_lookup author username w
      end
  end.

(** [username if username else '[error]']: [None] and the empty string
    are falsy. *)
Definition username_or_error (username : option string) : string :=
  match username with
  | None | Some "" => "[error]"
  | Some u => u
  end.

Definition collect_user_info (author : option Redditor.t) (w : world)
    : UserInfo.t * world :=
  match author with
  | None => (UserInfo.unavailable "[deleted]", w)
  | Some a =>
    match try_lookup a w with
    | (Returned user_data, w) => (user_data, w)
    | (Raised username e, w) =>
      match e with
      | NotFound | Forbidden | AttributeError =>
        let w := emit (Print (UserUnavailable username e)) w in
        let failure := UserInfo.unavailable (username_or_error username) in
        (failure, cache_store username failure w)
      | OtherException =>
        let w := emit (Print (UserUnexpected username e)) w in
        let failure := UserInfo.unavailable "[error]" in
        (failure, cache_store username failure w)
      end
    end
  end.

(** [body[:500] if body else '']. *)
Definition truncate_body (body : option string) : string :=
  match body with
  | None => ""
  | Some b => String.substring 0 500 b
  end.

(** Lines 109-132: the dict literal, whose attribute reads may raise. *)
Definition post_record (post : Submission.t) (author_info : UserInfo.t)
    (body : option string) (created_dt captured_at_utc : datetime)
    : attr PostData.t :=
  subreddit ← Submission.subreddit post;
  title ← Submission.title post;
  domain ← Submission.domain post;
  score ← Submission.score post;
  num_comments ← Submission.num_comments post;
  upvote_ratio ← Submission.upvote_ratio post;
  link_flair_text ← Submission.link_flair_text post;
  Some {|
    PostData.post_fullname := Submission.fullname post;
    PostData.created_utc := created_dt;
    PostData.captured_at_utc := captured_at_utc;
    PostData.post_age_seconds_at_capture :=
      total_seconds (captured_at_utc - created_dt)%Z;
    PostData.subreddit := subreddit;
    PostData.title := title;
    PostData.selftext := truncate_body body;
    PostData.domain := domain;
    PostData.initial_score := score;
    PostData.initial_num_comments := num_comments;
    PostData.initial_upvote_ratio := upvote_ratio;
    PostData.link_flair_text := link_flair_text;
    PostData.author_username := UserInfo.username author_info;
    PostData.author_account_age_days := UserInfo.account_age_days author_info;
    PostData.author_total_karma := UserInfo.total_karma author_info;
    PostData.author_link_karma := UserInfo.link_karma author_info;
    PostData.author_comment_karma := UserInfo.comment_karma author_info;
    PostData.author_is_verified := UserInfo.is_verified author_info;
    PostData.author_unavailable := UserInfo.author_unavailable author_info
  |}.

(** The [except Exception] branch of [collect_post_data]. *)
Definition post_failed (post : Submission.t) (w : world)
    : option PostData.t * world :=
  (None, emit (Print (PostError (Submission.id post))) w).

Definition collect_post_data (post : Submission.t) (w : world)
    : option PostData.t * world :=
  match Submission.author post with
  | None => post_failed post w
  | Some author =>
    let '(author_info, w) := collect_user_info author w in
    let body := Submission.selftext post in
    match Submission.created_utc post ≫= fromtimestamp with
    | None => post_failed post w
    | Some created_dt =>
      let '(captured_at_utc, w) := now w in
      match post_record post author_info body created_dt captured_at_utc with
      | None => post_failed post w
      | Some post_data => (Some post_data, w)
      end
    end
  end.

(** The [for] loop of [collect_initial_cohort]; [i] is the counter of
    [enumerate(posts, 1)]. *)
Fixpoint cohort_loop (posts : list Submission.t) (i : nat)
    (posts_data : list PostData.t) (post_fullnames : list string)
    (w : world) : list PostData.t * list string * world :=
  match posts with
  | [] => (posts_data, post_fullnames, w)
  | post :: posts =>
    let w := if (i mod 100 =? 0) then emit (Print (Pass1Progress i)) w else w in
    match collect_post_data post w with
    | (Some post_data, w) =>
      cohort_loop posts (S i) (posts_data ++ [post_data])
        (post_fullnames ++ [PostData.post_fullname post_data]) w
    | (None, w) => cohort_loop posts (S i) posts_data post_fullnames w
    end
  end.

(** [subreddit_new name limit] is the finite stream that
    [reddit.subreddit(name).new(limit=limit)] yields. *)
Variable subreddit_new : string -> nat -> list Submission.t.

(** The data frame is the list of its rows. *)
Definition collect_initial_cohort (subreddit_name : string) (limit : nat)
    (w : world) : list PostData.t * list string * world :=
  let w := emit (Print (Pass1Collecting subreddit_name)) w in
  let posts := subreddit_new subreddit_name limit in
  let '(posts_data, post_fullnames, w) := cohort_loop posts 1 [] [] w in
  let w := emit (Print (Pass1Collected (length posts_data) subreddit_name)) w in
  (posts_data, post_fullnames, w).

(** A run of lookups, one after the other, on the shared cache. *)
Fixpoint lookups (authors : list (option Redditor.t)) (w : world)
    : list UserInfo.t * world :=
  match authors with
  | [] => ([], w)
  | author :: authors =>
    let '(user_data, w) := collect_user_info author w in
    let '(rest, w) := lookups authors w in
    (user_data :: rest, w)
  end.

End with_clock.
End collect_data.

(** ** Pass 2: [reddit/collect_data_2.py] *)

Module Status.
(** A value of [status_map] (a Status Record). *)
Record t : Type := Make {
  final_score : Z;
  final_num_comments : Z;
  final_upvote_ratio : Q;
  is_removed_official : bool;
  is_removed_content : bool;
  is_removed_inferred : bool;
  removed_by_category : option string;
  is_deleted : bool;
  is_deleted_author : bool;
  is_deleted_content : bool;
  is_locked : bool;
  is_archived : bool;
  rechecked_at_utc : datetime
}.
End Status.

Module Combined.
(** A row of [final_df]: the columns of the Pass 1 row and, when the right
    frame has a row for its identifier, the columns of that row; every
    final-state column is null otherwise. *)
Record t : Type := Make {
  initial : PostData.t;
  final : option Status.t
}.
End Combined.

(** [range(start, stop, step)] for a positive [step]; [fuel] bounds the
    number of elements. *)
Fixpoint range_from (fuel i stop step : nat) : list nat :=
  match fuel with
  | O => []
  | S fuel => if (i <? stop) then i :: range_from fuel (i + step) stop step else []
  end.

Definition py_range (start stop step : nat) : list nat :=
  range_from (stop - start) start stop step.

(** [ceil(n / d)]. *)
Definition ceil_div (n d : nat) : nat := (n + (d - 1)) / d.

Module collect_data_2.

Record world : Type := World {
  clock_reads : nat;
  info_calls : nat;
  trace : list event
}.

Definition initial : world := World 0 0 [].

Definition emit (e : event) (w : world) : world :=
  World (clock_reads w) (info_calls w) (trace w ++ [e]).

Definition BATCH_SIZE : nat := 100.
Definition BATCH_PACING : Q := 2 # 1.

(** [body == literal], false when [body] is [None]. *)
Definition body_is (body : option string) (literal : string) : bool :=
  match body with
  | None => false
  | Some b => String.eqb b literal
  end.

(** [hasattr(post, 'is_robot_indexable') and post.is_robot_indexable is False]. *)
Definition not_indexable (post : Submission.t) : bool :=
  match Submission.is_robot_indexable post with
  | Has false => true
  | _ => false
  end.

(** Lines 34-62: the flags and the dict stored for one post, given the
    reading of the clock; [None] when an attribute read raises. *)
Definition status_of (post : Submission.t) (rechecked_at_utc : datetime)
    : attr Status.t :=
  let body := Submission.selftext post in
  category ← Submission.removed_by_category post;
  let is_removed_official := bool_decide (category ≠ None) in
  is_removed_content ←
    (if body_is body "[removed]" then Some true
     else title ← Submission.title post; Some (String.eqb title "[removed]"));
  let is_deleted_content := body_is body "[deleted]" in
  author ← Submission.author post;
  is_deleted_author ←
    match author with
    | None => Some true
    | Some a =>
      match Redditor.str a with
      | inl _ => None
      | inr name => Some (String.eqb name "[deleted]")
      end
    end;
  let is_deleted := is_deleted_author || is_deleted_content in
  let is_removed_inferred :=
    is_removed_official || is_removed_content || not_indexable post in
  score ← Submission.score post;
  num_comments ← Submission.num_comments post;
  upvote_ratio ← Submission.upvote_ratio post;
  locked ← Submission.locked post;
  archived ← Submission.archived post;
  Some {|
    Status.final_score := score;
    Status.final_num_comments := num_comments;
    Status.final_upvote_ratio := upvote_ratio;
    Status.is_removed_official := is_removed_official;
    Status.is_removed_content := is_removed_content;
    Status.is_removed_inferred := is_removed_inferred;
    Status.removed_by_category := category;
    Status.is_deleted := is_deleted;
    Status.is_deleted_author := is_deleted_author;
    Status.is_deleted_content := is_deleted_content;
    Status.is_locked := locked;
    Status.is_archived := archived;
    Status.rechecked_at_utc := rechecked_at_utc
  |}.

Section with_platform.
(** [clock n] is what the [n]-th call of [datetime.now(timezone.utc)]
    returns; [reddit_info n fullnames] is what the [n]-th request
    [reddit.info(fullnames=...)] of the run yields, [None] when it raises. *)
Variable clock : nat -> datetime.
Variable reddit_info : nat -> list string -> attr (list Submission.t).

(** The inner [for post in reddit.info(...)] loop.  The boolean tells
    whether it ran to its end; an exception leaves the entries already
    stored in [status_map]. *)
Fixpoint record_posts (posts : list Submission.t)
    (status_map : gmap string Status.t) (w : world)
    : bool * gmap string Status.t * world :=
  match posts with
  | [] => (true, status_map, w)
  | post :: posts =>
    match status_of post (clock (clock_reads w)) with
    | None => (false, status_map, w)
    | Some status =>
      let w := World (S (clock_reads w)) (info_calls w) (trace w) in
      record_posts posts (<[Submission.fullname post := status]> status_map) w
    end
  end.

(** One iteration of the outer loop, at index [i] of [n] identifiers. *)
Definition check_batch (post_fullnames : list string) (i : nat)
    (status_map : gmap string Status.t) (w : world)
    : gmap string Status.t * world :=
  let n := length post_fullnames in
  let batch_ids := take BATCH_SIZE (drop i post_fullnames) in
  let failed w := emit (Print (Pass2BatchError i (i + BATCH_SIZE))) w in
  let call := info_calls w in
  let w := World (clock_reads w) (S call) (trace w ++ [BulkInfo batch_ids]) in
  match reddit_info call batch_ids with
  | None => (status_map, failed w)
  | Some posts =>
    match record_posts posts status_map w with
    | (true, status_map, w) =>
      (status_map,
       if (i + BATCH_SIZE <? n) then emit (Sleep BATCH_PACING) w else w)
    | (false, status_map, w) => (status_map, failed w)
    end
  end.

Fixpoint check_batches (post_fullnames : list string) (starts : list nat)
    (status_map : gmap string Status.t) (w : world)
    : gmap string Status.t * world :=
  match starts with
  | [] => (status_map, w)
  | i :: starts =>
    let '(status_map, w) := check_batch post_fullnames i status_map w in
    check_batches post_fullnames starts status_map w
  end.

Definition get_final_post_status (post_fullnames : list string) (w : world)
    : gmap string Status.t * world :=
  let w := emit (Print (Pass2Fetching (length post_fullnames))) w in
  let '(status_map, w) :=
    check_batches post_fullnames
      (py_range 0 (length post_fullnames) BATCH_SIZE) ∅ w in
  let w := emit (Print (Pass2Found (size status_map))) w in
  (status_map, w).

End with_platform.

(** A data frame is the list of its rows; a frame with an index is the list
    of its rows, each with its index label. *)

(** Line 113: [pd.DataFrame.from_dict(status_data, orient='index')], a row
    per entry of the dict, labelled by its key. *)
Definition from_dict (status_data : gmap string Status.t)
    : list (string * Status.t) :=
  map_to_list status_data.

(** [left.set_index('post_fullname').join(right)], pandas' left join on the
    index: every left row is paired with each right row that carries its
    label, and appears once with null right columns when there is none. *)
Definition left_join (left : list PostData.t)
    (right : list (string * Status.t)) : list Combined.t :=
  flat_map
    (fun row =>
       match
         List.filter
           (fun labelled => String.eqb labelled.1 (PostData.post_fullname row))
           right
       with
       | [] => [Combined.Make row None]
       | matches =>
         map (fun labelled => Combined.Make row (Some labelled.2)) matches
       end)
    left.

(** Lines 113-118. *)
Definition join (df : list PostData.t) (status_data : gmap string Status.t)
    : list Combined.t :=
  let status_df := from_dict status_data in
  left_join df status_df.

End collect_data_2.

(** ** Specification vocabulary *)

(** The invariant of Author Snapshots: unavailable exactly when all four
    quantitative fields are null. *)
Definition consistent (s : UserInfo.t) : Prop :=
  UserInfo.author_unavailable s = true <->
  UserInfo.account_age_days s = None /\ UserInfo.link_karma s = None /\
  UserInfo.comment_karma s = None /\ UserInfo.total_karma s = None.

(** An author whose lookup needs no cache at all: a null author or the
    username [[deleted]]. *)
Definition deleted_author (author : option Redditor.t) : Prop :=
  match author with
  | None => True
  | Some a => Redditor.str a = inr "[deleted]"%string
  end.

(** An author with nothing to look up: a null author, the username
    [[deleted]], a [str] that raises, or, on a cache miss, a fetch that
    raises (not found, forbidden or anything else) or a profile without a
    creation time (a suspended account). *)
Definition unreachable (author : option Redditor.t)
    (w : collect_data.world) : Prop :=
  match author with
  | None => True
  | Some a =>
    match Redditor.str a with
    | inl _ => True
    | inr u =>
      u = "[deleted]"%string \/
      (collect_data.user_info_cache w !! Some u = None /\
       match Redditor.fetch a with
       | inl _ => True
       | inr p =>
         match Redditor.created_utc p with
         | Has _ => False
         | _ => True
         end
       end)
    end
  end.

(** The line an [except] branch of [collect_user_info] prints. *)
Definition caught (username : option string) (e : event) : Prop :=
  exists x, e = Print (UserUnavailable username x) \/
            e = Print (UserUnexpected username x).

(** A lookup that needs no fetch: a deleted author, or a username the cache
    already holds. *)
Definition needs_no_fetch (author : option Redditor.t)
    (w : collect_data.world) : Prop :=
  deleted_author author \/
  exists a u, author = Some a /\ Redditor.str a = inr u /\
              is_Some (collect_data.user_info_cache w !! Some u).

(** Every cached snapshot satisfies the invariant. *)
Definition cache_consistent (w : collect_data.world) : Prop :=
  map_Forall (fun _ s => consistent s) (collect_data.user_info_cache w).

(** Every username fetched so far is a key of the cache, and none was
    fetched twice. *)
Definition fetches_cached (w : collect_data.world) : Prop :=
  NoDup (fetched (collect_data.trace w)) /\
  forall u, In u (fetched (collect_data.trace w)) ->
            is_Some (collect_data.user_info_cache w !! Some u).

(** The events a world has seen since an earlier one. *)
Definition events_since (tr tr' : list event) : list event :=
  drop (length tr) tr'.

(** What one call of [collect_user_info] can do. *)
Inductive lookup_step (author : option Redditor.t) (w : collect_data.world)
    (s : UserInfo.t) (w' : collect_data.world) : Prop :=
| lookup_deleted :
    deleted_author author -> s = UserInfo.unavailable "[deleted]" -> w' = w ->
    lookup_step author w s w'
| lookup_hit a u :
    author = Some a -> Redditor.str a = inr u -> u <> "[deleted]" ->
    collect_data.user_info_cache w !! Some u = Some s -> w' = w ->
    lookup_step author w s w'
| lookup_no_name a e m :
    author = Some a -> Redditor.str a = inl e -> caught None m ->
    s = UserInfo.unavailable "[error]" ->
    collect_data.trace w' = collect_data.trace w ++ [m] ->
    collect_data.user_info_cache w' = <[None := s]> (collect_data.user_info_cache w) ->
    lookup_step author w s w'
| lookup_fetched a u :
    author = Some a -> Redditor.str a = inr u -> u <> "[deleted]" ->
    collect_data.user_info_cache w !! Some u = None ->
    UserInfo.author_unavailable s = false ->
    is_Some (UserInfo.account_age_days s) -> is_Some (UserInfo.link_karma s) ->
    is_Some (UserInfo.comment_karma s) -> is_Some (UserInfo.total_karma s) ->
    collect_data.trace w' =
      collect_data.trace w ++ [Fetch u; Sleep collect_data.USER_PACING] ->
    collect_data.user_info_cache w' = <[Some u := s]> (collect_data.user_info_cache w) ->
    lookup_step author w s w'
| lookup_fetch_failed a u m name :
    author = Some a -> Redditor.str a = inr u -> u <> "[deleted]" ->
    collect_data.user_info_cache w !! Some u = None ->
    caught (Some u) m -> s = UserInfo.unavailable name ->
    collect_data.trace w' = collect_data.trace w ++ [Fetch u; m] ->
    collect_data.user_info_cache w' = <[Some u := s]> (collect_data.user_info_cache w) ->
    lookup_step author w s w'.

(** What [collect_post_data] returns for each post of a stream, in order,
    when the posts are processed as the loop of [collect_initial_cohort]
    does, from counter [i] and world [w]. *)
Fixpoint attempts (clock : nat -> datetime) (posts : list Submission.t)
    (i : nat) (w : collect_data.world) : list (option PostData.t) :=
  match posts with
  | [] => []
  | post :: posts =>
    let w :=
      if (i mod 100 =? 0)
      then collect_data.emit (Print (Pass1Progress i)) w else w in
    let '(post_data, w) := collect_data.collect_post_data clock post w in
    post_data :: attempts clock posts (S i) w
  end.

(** [post_fullnames[i:i+100]], the identifiers of the batch that starts at
    index [i]. *)
Definition slice (post_fullnames : list string) (i : nat) : list string :=
  take collect_data_2.BATCH_SIZE (drop i post_fullnames).

(** The post can be examined: none of the attribute reads of the loop body
    raises. *)
Definition examined_ok (post : Submission.t) : bool :=
  match collect_data_2.status_of post 0%Z with
  | Some _ => true
  | None => false
  end.

(** A batch completes when its bulk lookup does not raise and every post
    it yields can be examined. *)
Definition completes (response : attr (list Submission.t)) : bool :=
  match response with
  | None => false
  | Some posts => forallb examined_ok posts
  end.

(** The bulk lookup answers about the identifiers it was asked about. *)
Definition faithful (reddit_info : nat -> list string -> attr (list Submission.t))
    : Prop :=
  forall n ids posts p,
    reddit_info n ids = Some posts -> In p posts ->
    In (Submission.fullname p) ids.

(** The events of the batch that starts at [i], given what the bulk lookup
    answers. *)
Definition batch_events (post_fullnames : list string) (i : nat)
    (response : attr (list Submission.t)) : list event :=
  BulkInfo (slice post_fullnames i) ::
  if completes response then
    if (i + collect_data_2.BATCH_SIZE <? length post_fullnames)
    then [Sleep collect_data_2.BATCH_PACING] else []
  else [Print (Pass2BatchError i (i + collect_data_2.BATCH_SIZE))].

(** The events of the batches that start at [starts], the first of them
    making request number [call]. *)
Fixpoint run_events
    (reddit_info : nat -> list string -> attr (list Submission.t))
    (post_fullnames : list string) (starts : list nat) (call : nat)
    : list event :=
  match starts with
  | [] => []
  | i :: starts =>
    batch_events post_fullnames i (reddit_info call (slice post_fullnames i)) ++
    run_events reddit_info post_fullnames starts (S call)
  end.

(** The bulk calls and the sleeps of a trace, in order. *)
Definition pacing (tr : list event) : list event :=
  List.filter (fun e => is_bulk_info e || is_sleep e) tr.

(** A pacing discipline: a bulk call per batch, followed by the delay when
    [delay_after] says so for the batch's start index and response. *)
Fixpoint paced_calls
    (reddit_info : nat -> list string -> attr (list Submission.t))
    (delay_after : nat -> attr (list Submission.t) -> bool)
    (post_fullnames : list string) (starts : list nat) (call : nat)
    : list event :=
  match starts with
  | [] => []
  | i :: starts =>
    BulkInfo (slice post_fullnames i) ::
    (if delay_after i (reddit_info call (slice post_fullnames i))
     then [Sleep collect_data_2.BATCH_PACING] else []) ++
    paced_calls reddit_info delay_after post_fullnames starts (S call)
  end.

(** The delay follows every batch but the last. *)
Definition after_all_but_last (post_fullnames : list string) (i : nat)
    (response : attr (list Submission.t)) : bool :=
  i + collect_data_2.BATCH_SIZE <? length post_fullnames.

(** The delay follows every batch but the last, provided the batch
    completed. *)
Definition after_completed_but_last (post_fullnames : list string) (i : nat)
    (response : attr (list Submission.t)) : bool :=
  completes response && (i + collect_data_2.BATCH_SIZE <? length post_fullnames).

(** ** Sample data *)

Module Sample.

Definition clock (n : nat) : datetime :=
  (1700000000000000 + 1000000 * Z.of_nat n)%Z.

Definition alice : Redditor.t :=
  Redditor.Make (inr "alice"%string)
    (inr (Redditor.Profile (Has 1600000000000000%Z) (Has 10%Z) (Has 5%Z) (Has true))).

(** The same username on a later post, whose profile can no longer be
    fetched. *)
Definition alice_again : Redditor.t :=
  Redditor.Make (inr "alice"%string) (inl NotFound).

Definition ghost : Redditor.t :=
  Redditor.Make (inr "ghost"%string) (inl Forbidden).

Definition suspended : Redditor.t :=
  Redditor.Make (inr "bob"%string)
    (inr (Redditor.Profile Absent Absent Absent Absent)).

Definition broken : Redditor.t :=
  Redditor.Make (inl OtherException) (inl OtherException).

Definition deleted : Redditor.t :=
  Redditor.Make (inr "[deleted]"%string) (inl NotFound).

Definition post (fullname : string) (author : option Redditor.t)
    (category : option string) : Submission.t :=
  {| Submission.id := fullname;
     Submission.fullname := fullname;
     Submission.author := Some author;
     Submission.selftext := Some "text"%string;
     Submission.created_utc := Some 1699999990000000%Z;
     Submission.subreddit := Some "test"%string;
     Submission.title := Some "title"%string;
     Submission.domain := Some "self.test"%string;
     Submission.score := Some 10%Z;
     Submission.num_comments := Some 2%Z;
     Submission.upvote_ratio := Some (9 # 10);
     Submission.link_flair_text := Some None;
     Submission.removed_by_category := Some category;
     Submission.locked := Some false;
     Submission.archived := Some false;
     Submission.is_robot_indexable := Has true |}.

(** A post whose title cannot be read. *)
Definition unreadable (fullname : string) : Submission.t :=
  {| Submission.id := fullname;
     Submission.fullname := fullname;
     Submission.author := Some None;
     Submission.selftext := None;
     Submission.created_utc := Some 1699999990000000%Z;
     Submission.subreddit := Some "test"%string;
     Submission.title := None;
     Submission.domain := Some "self.test"%string;
     Submission.score := Some 10%Z;
     Submission.num_comments := Some 2%Z;
     Submission.upvote_ratio := Some (9 # 10);
     Submission.link_flair_text := Some None;
     Submission.removed_by_category := Some None;
     Submission.locked := Some false;
     Submission.archived := Some false;
     Submission.is_robot_indexable := Absent |}.

Definition listing (subreddit_name : string) (limit : nat)
    : list Submission.t :=
  take limit
    [post "t3_a" (Some alice) None; unreadable "t3_b";
     post "t3_c" (Some alice_again) None].

(** 101 distinct identifiers: two batches. *)
Definition fullname_of (n : nat) : string :=
  String.append "t3_" (String (Ascii.ascii_of_nat (48 + n)) "").

Definition cohort : list string := map fullname_of (seq 0 101).

(** A platform that answers every request with the current state of each
    identifier asked about, official removals for none. *)
Definition answers (n : nat) (fullnames : list string)
    : attr (list Submission.t) :=
  Some (map (fun f => post f (Some alice) None) fullnames).

(** A platform whose first request fails. *)
Definition first_fails (n : nat) (fullnames : list string)
    : attr (list Submission.t) :=
  match n with
  | 0 => None
  | S _ => answers n fullnames
  end.

(** The scenario of the specification: a cohort of three posts, of which
    the second has no status at the re-check and the third was removed by a
    moderator. *)
Definition row (fullname : string) : PostData.t :=
  {| PostData.post_fullname := fullname;
     PostData.created_utc := 1699999990000000%Z;
     PostData.captured_at_utc := 1700000001000000%Z;
     PostData.post_age_seconds_at_capture := 11000000 # 1000000;
     PostData.subreddit := "test";
     PostData.title := "title";
     PostData.selftext := "text";
     PostData.domain := "self.test";
     PostData.initial_score := 10%Z;
     PostData.initial_num_comments := 2%Z;
     PostData.initial_upvote_ratio := 9 # 10;
     PostData.link_flair_text := None;
     PostData.author_username := "alice";
     PostData.author_account_age_days := Some 1157%Z;
     PostData.author_total_karma := Some 15%Z;
     PostData.author_link_karma := Some 10%Z;
     PostData.author_comment_karma := Some 5%Z;
     PostData.author_is_verified := Some true;
     PostData.author_unavailable := false |}.

Definition pass1_table : list PostData.t := [row "t3_a"; row "t3_b"; row "t3_c"].

Definition scenario (n : nat) (fullnames : list string)
    : attr (list Submission.t) :=
  Some [post "t3_a" (Some alice) None;
        post "t3_c" (Some alice) (Some "moderator"%string)].

End Sample.

(** ** The scripts: the [__main__] blocks of the two files *)

(** [max(files, key=os.path.getctime)] on a non-empty list [best :: rest]:
    the running maximum is replaced only by a strictly greater key, so the
    first of several newest files wins. *)
Fixpoint max_by (key : string -> Z) (best : string) (rest : list string)
    : string :=
  match rest with
  | [] => best
  | f :: rest => max_by key (if (key best <? key f)%Z then f else best) rest
  end.

(** [d[k] = v] on a dict kept as the list of its items in insertion order:
    an existing key keeps its place. *)
Fixpoint dict_set {V : Type} (k : string) (v : V) (d : list (string * V))
    : list (string * V) :=
  match d with
  | [] => [(k, v)]
  | (k', v') :: d =>
    if String.eqb k' k then (k, v) :: d else (k', v') :: dict_set k v d
  end.

Module capture_script.
(** [collect_data.py], lines 163-217.  The console of the script is kept
    apart from the trace of the functions it calls; the elapsed time of the
    closing lines is not modelled. *)

Inductive line : Type :=
| NoDataFor (subreddit : string)
| SavedTo (filename : string)
| ErrorWith (subreddit : string)
| Pass1Complete (total : nat) (cohort_filename : string)
| NoDataCollected.

Inductive content : Type :=
| Table (rows : list PostData.t)
| Manifest (cohort_ids : list (string * list string)).

Record session : Type := Session {
  world : collect_data.world;
  console : list line;
  written : list (string * content)
}.

Definition start : session := Session collect_data.initial [] [].

Definition say (l : line) (s : session) : session :=
  Session (world s) (console s ++ [l]) (written s).

Definition write (filename : string) (c : content) (s : session) : session :=
  Session (world s) (console s) (written s ++ [(filename, c)]).

Definition set_world (w : collect_data.world) (s : session) : session :=
  Session w (console s) (written s).

(** The subreddits of the run (the other entries of the list are commented
    out in the source). *)
Definition SUBREDDITS : list string := ["AskReddit"%string].
Definition LIMIT : nat := 100.
Definition SUBREDDIT_PACING : Q := 5 # 1.

Section with_environment.
(** [listing_raises name] tells whether the stream of
    [reddit.subreddit(name).new(...)] ends with an exception after the posts
    of [subreddit_new name limit]; [to_csv filename] and [json_dump
    filename] tell whether the file can be written; [strftime t] is
    [t.strftime("%Y%m%d_%H%M")]. *)
Variable clock : nat -> datetime.
Variable subreddit_new : string -> nat -> list Submission.t.
Variable listing_raises : string -> bool.
Variable to_csv : string -> bool.
Variable json_dump : string -> bool.
Variable strftime : datetime -> string.

(** Lines 181-198: the body of the loop, for one subreddit. *)
Definition capture_subreddit (subreddit : string)
    (all_initial_data : list (list PostData.t))
    (cohort_ids : list (string * list string)) (s : session)
    : list (list PostData.t) * list (string * list string) * session :=
  if listing_raises subreddit then
    (* the exception leaves [collect_initial_cohort] from inside its loop *)
    let w := collect_data.emit (Print (Pass1Collecting subreddit)) (world s) in
    let '(_, _, w) :=
      collect_data.cohort_loop clock (subreddit_new subreddit LIMIT) 1 [] [] w in
    (all_initial_data, cohort_ids, say (ErrorWith subreddit) (set_world w s))
  else
    let '(df, post_fullnames, w) :=
      collect_data.collect_initial_cohort clock subreddit_new subreddit LIMIT
        (world s) in
    let s := set_world w s in
    match df with
    | [] => (all_initial_data, cohort_ids, say (NoDataFor subreddit) s)
    | _ :: _ =>
      let all_initial_data := all_initial_data ++ [df] in
      let cohort_ids := dict_set subreddit post_fullnames cohort_ids in
      let '(t, w) := collect_data.now clock w in
      let s := set_world w s in
      let filename :=
        String.append "data/pass1/"
          (String.append subreddit
             (String.append "_" (String.append (strftime t) ".csv"))) in
      if to_csv filename then
        let s := say (SavedTo filename) (write filename (Table df) s) in
        let w := collect_data.emit (Sleep SUBREDDIT_PACING) (world s) in
        (all_initial_data, cohort_ids, set_world w s)
      else
        (all_initial_data, cohort_ids, say (ErrorWith subreddit) s)
    end.

(** Line 180: the loop. *)
Fixpoint capture_all (subreddits : list string)
    (all_initial_data : list (list PostData.t))
    (cohort_ids : list (string * list string)) (s : session)
    : list (list PostData.t) * list (string * list string) * session :=
  match subreddits with
  | [] => (all_initial_data, cohort_ids, s)
  | subreddit :: subreddits =>
    let '(all_initial_data, cohort_ids, s) :=
      capture_subreddit subreddit all_initial_data cohort_ids s in
    capture_all subreddits all_initial_data cohort_ids s
  end.

(** Lines 200-217: the combined table and the manifest; [None] when a write
    raises, which nothing catches. *)
Definition finish (all_initial_data : list (list PostData.t))
    (cohort_ids : list (string * list string)) (s : session)
    : option session :=
  match all_initial_data with
  | [] => Some (say NoDataCollected s)
  | _ :: _ =>
    let combined_df := concat all_initial_data in
    let '(t, w) := collect_data.now clock (world s) in
    let s := set_world w s in
    let combined_filename :=
      String.append "data/combined_pass1_" (String.append (strftime t) ".csv") in
    if to_csv combined_filename then
      let s := write combined_filename (Table combined_df) s in
      let '(t, w) := collect_data.now clock (world s) in
      let s := set_world w s in
      let cohort_filename :=
        String.append "data/cohort_ids_" (String.append (strftime t) ".json") in
      if json_dump cohort_filename then
        let s := write cohort_filename (Manifest cohort_ids) s in
        Some (say (Pass1Complete (length combined_df) cohort_filename) s)
      else None
    else None
  end.

(** The script, for a list of subreddits. *)
Definition main (subreddits : list string) : option session :=
  let '(all_initial_data, cohort_ids, s) :=
    capture_all subreddits [] [] start in
  finish all_initial_data cohort_ids s.

End with_environment.
End capture_script.

Module recheck_script.
(** [collect_data_2.py], lines 92-128: the loop over the manifest.  The
    console of the script is kept apart from the trace of
    [get_final_post_status]. *)

Inductive line : Type :=
| Processing (subreddit : string)
| SkippingNoIds (subreddit : string)
| SkippingNoPass1 (subreddit : string)
| LoadingInitial (filename : string)
| SavedFinal (filepath : string)
| FailedSubreddit (subreddit : string).

Record session : Type := Session {
  platform : collect_data_2.world;
  console : list line;
  written : list (string * list Combined.t)
}.

Definition say (l : line) (s : session) : session :=
  Session (platform s) (console s ++ [l]) (written s).

Definition write (filepath : string) (rows : list Combined.t) (s : session)
    : session :=
  Session (platform s) (console s) (written s ++ [(filepath, rows)]).

Definition set_platform (w : collect_data_2.world) (s : session) : session :=
  Session w (console s) (written s).

(** [os.path.join(a, b)] on POSIX, for [a] without a trailing slash: an
    absolute [b] replaces [a]. *)
Definition path_join (a b : string) : string :=
  if String.prefix "/" b then b else String.append a (String.append "/" b).

Section with_environment.
(** [glob pattern] is [glob.glob(pattern)]; [getctime] orders the files as
    [os.path.getctime] does; [read_csv filename] is the table of the file,
    [None] when reading raises; [to_csv filepath] tells whether the file can
    be written; [strftime t] is [t.strftime('%Y%m%d_%H%M')]. *)
Variable clock : nat -> datetime.
Variable reddit_info : nat -> list string -> attr (list Submission.t).
Variable glob : string -> list string.
Variable getctime : string -> Z.
Variable read_csv : string -> attr (list PostData.t).
Variable to_csv : string -> bool.
Variable strftime : datetime -> string.

(** [f"data/pass1/{subreddit}_*.csv"]. *)
Definition pass1_pattern (subreddit : string) : string :=
  String.append "data/pass1/" (String.append subreddit "_*.csv").

(** Lines 111-118: the status of the cohort, joined to the Pass 1 table. *)
Definition recheck (df : list PostData.t) (post_fullnames : list string)
    (w : collect_data_2.world) : list Combined.t * collect_data_2.world :=
  let '(status_data, w) :=
    collect_data_2.get_final_post_status clock reddit_info post_fullnames w in
  (collect_data_2.join df status_data, w).

(** Lines 95-128: the body of the loop, for one entry of the manifest. *)
Definition process_subreddit (subreddit : string)
    (post_fullnames : list string) (all_final_data : list (list Combined.t))
    (s : session) : list (list Combined.t) * session :=
  let s := say (Processing subreddit) s in
  match post_fullnames with
  | [] => (all_final_data, say (SkippingNoIds subreddit) s)
  | _ :: _ =>
    match glob (pass1_pattern subreddit) with
    | [] => (all_final_data, say (SkippingNoPass1 subreddit) s)
    | f :: files =>
      let latest_pass1_file := max_by getctime f files in
      let s := say (LoadingInitial latest_pass1_file) s in
      match read_csv latest_pass1_file with
      | None => (all_final_data, say (FailedSubreddit subreddit) s)
      | Some df =>
        let '(final_df, w) := recheck df post_fullnames (platform s) in
        let t := clock (collect_data_2.clock_reads w) in
        let w :=
          collect_data_2.World (S (collect_data_2.clock_reads w))
            (collect_data_2.info_calls w) (collect_data_2.trace w) in
        let s := set_platform w s in
        let new_filename :=
          String.append subreddit
            (String.append "_complete_" (String.append (strftime t) ".csv")) in
        let new_filepath := path_join "data/pass2_complete" new_filename in
        if to_csv new_filepath then
          (all_final_data ++ [final_df],
           say (SavedFinal new_filepath) (write new_filepath final_df s))
        else (all_final_data, say (FailedSubreddit subreddit) s)
      end
    end
  end.

(** Line 94: the loop over the items of the manifest. *)
Fixpoint process_all (items : list (string * list string))
    (all_final_data : list (list Combined.t)) (s : session)
    : list (list Combined.t) * session :=
  match items with
  | [] => (all_final_data, s)
  | (subreddit, post_fullnames) :: items =>
    let '(all_final_data, s) :=
      process_subreddit subreddit post_fullnames all_final_data s in
    process_all items all_final_data s
  end.

(** Whether the entry gets as far as the bulk lookups. *)
Definition reaches_recheck (item : string * list string) : bool :=
  match item.2, glob (pass1_pattern item.1) with
  | _ :: _, f :: files =>
    match read_csv (max_by getctime f files) with
    | Some _ => true
    | None => false
    end
  | _, _ => false
  end.

End with_environment.
End recheck_script.

(** ** Further vocabulary *)

(** The author columns of a Post Record, read back as a snapshot. *)
Definition author_columns (r : PostData.t) : UserInfo.t :=
  {| UserInfo.username := PostData.author_username r;
     UserInfo.account_age_days := PostData.author_account_age_days r;
     UserInfo.link_karma := PostData.author_link_karma r;
     UserInfo.comment_karma := PostData.author_comment_karma r;
     UserInfo.total_karma := PostData.author_total_karma r;
     UserInfo.is_verified := PostData.author_is_verified r;
     UserInfo.author_unavailable := PostData.author_unavailable r |}.

(** An available snapshot has an age, both karma counters and their sum. *)
Definition karma_sum (s : UserInfo.t) : Prop :=
  UserInfo.author_unavailable s = false ->
  is_Some (UserInfo.account_age_days s) /\
  exists lk ck,
    UserInfo.link_karma s = Some lk /\ UserInfo.comment_karma s = Some ck /\
    UserInfo.total_karma s = Some (lk + ck)%Z.

(** The username a snapshot stored under cache key [k] carries: the key
    itself, or [[error]]. *)
Definition named_after (k : option string) (s : UserInfo.t) : Prop :=
  match k with
  | Some u => UserInfo.username s = u \/ UserInfo.username s = "[error]"%string
  | None => UserInfo.username s = "[error]"%string
  end.

(** What a call of [collect_user_info] answers, given a property [Q] of the
    entries of the cache, keyed: the deleted snapshot for a null author and
    for [[deleted]], and otherwise a snapshot fit for the key of the
    author. *)
Definition answer_for (Q : option string -> UserInfo.t -> Prop)
    (author : option Redditor.t) (s : UserInfo.t) : Prop :=
  match author with
  | None => s = UserInfo.unavailable "[deleted]"
  | Some a =>
    match Redditor.str a with
    | inl _ => Q None s
    | inr u =>
      if String.eqb u "[deleted]" then s = UserInfo.unavailable "[deleted]"
      else Q (Some u) s
    end
  end.

(** Events by kind. *)
Definition is_post_error (e : event) : bool :=
  match e with Print (PostError _) => true | _ => false end.

Definition is_progress (e : event) : bool :=
  match e with Print (Pass1Progress _) => true | _ => false end.

Definition is_batch_error (e : event) : bool :=
  match e with Print (Pass2BatchError _ _) => true | _ => false end.

(** The events [collect_user_info] can produce. *)
Definition is_user_event (e : event) : bool :=
  match e with
  | Fetch _ | Sleep _ | Print (UserUnavailable _ _)
  | Print (UserUnexpected _ _) => true
  | _ => false
  end.

(** The post with its [author] attribute replaced by one that reads as
    [author]. *)
Definition with_author (post : Submission.t) (author : option Redditor.t)
    : Submission.t :=
  {| Submission.id := Submission.id post;
     Submission.fullname := Submission.fullname post;
     Submission.author := Some author;
     Submission.selftext := Submission.selftext post;
     Submission.created_utc := Submission.created_utc post;
     Submission.subreddit := Submission.subreddit post;
     Submission.title := Submission.title post;
     Submission.domain := Submission.domain post;
     Submission.score := Submission.score post;
     Submission.num_comments := Submission.num_comments post;
     Submission.upvote_ratio := Submission.upvote_ratio post;
     Submission.link_flair_text := Submission.link_flair_text post;
     Submission.removed_by_category := Submission.removed_by_category post;
     Submission.locked := Submission.locked post;
     Submission.archived := Submission.archived post;
     Submission.is_robot_indexable := Submission.is_robot_indexable post |}.

(** The attribute reads of [collect_post_data] that the record models as
    able to raise all succeed, and the creation time is a [datetime]. *)
Definition readable (post : Submission.t) : Prop :=
  is_Some (Submission.author post) /\
  is_Some (Submission.created_utc post ≫= fromtimestamp) /\
  is_Some (Submission.subreddit post) /\ is_Some (Submission.title post) /\
  is_Some (Submission.domain post) /\ is_Some (Submission.score post) /\
  is_Some (Submission.num_comments post) /\
  is_Some (Submission.upvote_ratio post) /\
  is_Some (Submission.link_flair_text post).

(** Every entry of the manifest is the identifier column of one of the
    tables collected, and is not empty. *)
Definition manifest_ok (all_initial_data : list (list PostData.t))
    (cohort_ids : list (string * list string)) : Prop :=
  forall subreddit ids, In (subreddit, ids) cohort_ids ->
    ids <> [] /\
    exists df, In df all_initial_data /\ ids = map PostData.post_fullname df.

(** ** Sample environment of the scripts *)

Module Demo.

Definition strftime (t : datetime) : string := "20250101_1200".

Definition older : string := "data/pass1/test_20250101_1100.csv".
Definition newer : string := "data/pass1/test_20250101_1200.csv".

Definition glob (pattern : string) : list string :=
  if String.eqb pattern (recheck_script.pass1_pattern "test")
  then [older; newer] else [].

Definition getctime (f : string) : Z :=
  if String.eqb f newer then 2%Z else 1%Z.

Definition read_csv (f : string) : attr (list PostData.t) :=
  Some Sample.pass1_table.

Definition to_csv (f : string) : bool := true.
Definition json_dump (f : string) : bool := true.
Definition listing_raises (subreddit : string) : bool := false.

Definition session : recheck_script.session :=
  recheck_script.Session collect_data_2.initial [] [].

(** A platform whose every request fails. *)
Definition down (n : nat) (fullnames : list string)
    : attr (list Submission.t) := None.

(** A post by a named author whose title cannot be read. *)
Definition dropped : Submission.t :=
  {| Submission.id := "d";
     Submission.fullname := "t3_d";
     Submission.author := Some (Some Sample.alice);
     Submission.selftext := None;
     Submission.created_utc := Some 1699999990000000%Z;
     Submission.subreddit := Some "test"%string;
     Submission.title := None;
     Submission.domain := Some "self.test"%string;
     Submission.score := Some 10%Z;
     Submission.num_comments := Some 2%Z;
     Submission.upvote_ratio := Some (9 # 10);
     Submission.link_flair_text := Some None;
     Submission.removed_by_category := Some None;
     Submission.locked := Some false;
     Submission.archived := Some false;
     Submission.is_robot_indexable := Absent |}.

(** A post that carries no removal category and whose body and title are
    intact, but whose [is_robot_indexable] attribute is [False]. *)
Definition hidden : Submission.t :=
  {| Submission.id := "h";
     Submission.fullname := "t3_h";
     Submission.author := Some (Some Sample.alice);
     Submission.selftext := Some "text"%string;
     Submission.created_utc := Some 1699999990000000%Z;
     Submission.subreddit := Some "test"%string;
     Submission.title := Some "title"%string;
     Submission.domain := Some "self.test"%string;
     Submission.score := Some 10%Z;
     Submission.num_comments := Some 2%Z;
     Submission.upvote_ratio := Some (9 # 10);
     Submission.link_flair_text := Some None;
     Submission.removed_by_category := Some None;
     Submission.locked := Some false;
     Submission.archived := Some false;
     Submission.is_robot_indexable := Has false |}.

(** A platform that yields that post at every request. *)
Definition hidden_answer (n : nat) (fullnames : list string)
    : attr (list Submission.t) := Some [hidden].

(** 101 identifiers of which the last repeats the first: the identifier
    [t3_0] belongs to both batches. *)
Definition repeated : list string :=
  take 100 Sample.cohort ++ [Sample.fullname_of 0].

End Demo.

(** * Properties of Pass 1 *)

(** Closes a goal [lookup_step] on a path through an [except] branch taken
    after the fetch was issued. *)
Ltac fetch_failed :=
  eapply lookup_fetch_failed;
  [done | done | done | done | | done | |];
  [ | simpl; by rewrite <- ?app_assoc | by simpl ];
  eexists; eauto.

(** Case analysis on the attribute reads of a chain of binds, outermost
    first. *)
Ltac destruct_reads H :=
  repeat match type of H with
         | (?o ≫= _) = Some _ =>
           let E := fresh "E" in destruct o eqn:E; simpl in H; [|discriminate]
         end.

Section user_info_cache_properties.
Import collect_data.
Variable clock : nat -> datetime.

Lemma collect_user_info_step author w :
  lookup_step author w (collect_user_info clock author w).1
    (collect_user_info clock author w).2.
Proof.
  destruct author as [a|]; [|apply lookup_deleted; simpl; done].
  unfold collect_user_info, try_lookup.
  destruct (Redditor.str a) as [e|u] eqn:Hstr.
  { destruct e; simpl;
      (eapply lookup_no_name; [done|done| |done..]); eexists; eauto. }
  destruct (String.eqb_spec u "[deleted]") as [->|Hu].
  { apply lookup_deleted; simpl; done. }
  destruct (user_info_cache w !! Some u) as [cached|] eqn:Hc.
  { by eapply lookup_hit. }
  unfold fresh_lookup, now.
  destruct (Redditor.fetch a) as [e|p]; simpl.
  { destruct e; simpl; fetch_failed. }
  destruct (Redditor.created_utc p); simpl; try fetch_failed.
  destruct (fromtimestamp a0); simpl; try fetch_failed.
  destruct (Redditor.link_karma p), (Redditor.comment_karma p); simpl;
    try fetch_failed.
  eapply lookup_fetched; simpl; eauto; by rewrite <- ?app_assoc.
Qed.

Lemma fetched_app tr1 tr2 : fetched (tr1 ++ tr2) = fetched tr1 ++ fetched tr2.
Proof.
  induction tr1 as [|e tr1 IH]; [done|].
  destruct e; simpl; by rewrite IH.
Qed.

Lemma In_fetched u tr : In u (fetched tr) <-> In (Fetch u) tr.
Proof.
  induction tr as [|e tr IH]; [done|].
  destruct e; simpl; rewrite IH; intuition congruence.
Qed.

Lemma consistent_unavailable name : consistent (UserInfo.unavailable name).
Proof. by split. Qed.

Lemma collect_user_info_deleted author w :
  deleted_author author ->
  collect_user_info clock author w = (UserInfo.unavailable "[deleted]", w).
Proof.
  destruct author as [a|]; [|done]. simpl. intros Hstr.
  unfold try_lookup. by rewrite Hstr.
Qed.

Lemma collect_user_info_hit a u s w :
  Redditor.str a = inr u -> user_info_cache w !! Some u = Some s ->
  u <> "[deleted]"%string ->
  collect_user_info clock (Some a) w = (s, w).
Proof.
  intros Hstr Hc Hu. unfold collect_user_info, try_lookup. rewrite Hstr.
  destruct (String.eqb_spec u "[deleted]"); [done|]. by rewrite Hc.
Qed.

(** The step relation keeps what it found under a username. *)
Lemma lookup_step_keeps author w s w' u x :
  lookup_step author w s w' ->
  user_info_cache w !! Some u = Some x ->
  user_info_cache w' !! Some u = Some x.
Proof.
  intros Hstep Hx.
  destruct Hstep as [| | ? ? ? ? ? ? ? ? ->
                     | a' u' ? ? ? Hmiss ? ? ? ? ? ? ->
                     | a' u' ? ? ? ? ? Hmiss ? ? ? ->];
    subst; try done.
  - by rewrite lookup_insert_ne.
  - rewrite lookup_insert_ne; [done|]. intros [= ->]. congruence.
  - rewrite lookup_insert_ne; [done|]. intros [= ->]. congruence.
Qed.

(** After a lookup of a named author the cache answers for that name. *)
Lemma lookup_step_stores a u w s w' :
  lookup_step (Some a) w s w' -> Redditor.str a = inr u ->
  u <> "[deleted]"%string ->
  user_info_cache w' !! Some u = Some s.
Proof.
  intros Hstep Hstr Hu.
  destruct Hstep as [Hdel| ? ? [= <-] ? ? ? ->
                     | ? ? ? [= <-] ?
                     | ? ? [= <-] ? ? ? ? ? ? ? ? ? ->
                     | ? ? ? ? [= <-] ? ? ? ? ? ? ->];
    simpl in *; try congruence.
  - assert (u0 = u) as -> by congruence. apply lookup_insert_eq.
  - assert (u0 = u) as -> by congruence. apply lookup_insert_eq.
Qed.

Lemma lookup_step_consistent author w s w' :
  lookup_step author w s w' -> cache_consistent w ->
  consistent s /\ cache_consistent w'.
Proof.
  unfold cache_consistent.
  intros Hstep Hok.
  destruct Hstep as [? -> ->| ? ? ? ? ? Hhit ->
                     | ? ? ? ? ? ? -> ? ->
                     | ? ? ? ? ? ? Hun [? Hage] ? ? ? ? ->
                     | ? ? ? ? ? ? ? ? ? -> ? ->].
  - split; [apply consistent_unavailable | done].
  - split; [|done]. by eapply (map_Forall_lookup_1 _ _ _ _ Hok).
  - split; [apply consistent_unavailable|].
    apply map_Forall_insert_2; [apply consistent_unavailable | done].
  - assert (consistent s).
    { unfold consistent. rewrite Hun, Hage. split; [done|]. by intros [? _]. }
    split; [done|]. by apply map_Forall_insert_2.
  - split; [apply consistent_unavailable|].
    apply map_Forall_insert_2; [apply consistent_unavailable | done].
Qed.

Lemma lookup_step_fetches author w s w' :
  lookup_step author w s w' -> fetches_cached w -> fetches_cached w'.
Proof.
  unfold fetches_cached.
  intros Hstep [Hnd Hin].
  assert (Hfresh : forall u m,
    user_info_cache w !! Some u = None ->
    trace w' = trace w ++ [Fetch u; m] -> fetched [Fetch u; m] = [u] ->
    user_info_cache w' = <[Some u := s]> (user_info_cache w) ->
    NoDup (fetched (trace w')) /\
    forall v, In v (fetched (trace w')) -> is_Some (user_info_cache w' !! Some v)).
  { intros u m Hmiss -> Hm ->. rewrite fetched_app, Hm.
    split.
    - apply NoDup_app. split; [done|]. split; [|apply NoDup_singleton].
      intros v Hv ->%list_elem_of_singleton.
      apply list_elem_of_In, Hin in Hv. rewrite Hmiss in Hv. by destruct Hv.
    - intros v [Hv|[<-|[]]]%in_app_or.
      + destruct (decide (u = v)) as [->|]; [by rewrite lookup_insert_eq|].
        rewrite lookup_insert_ne by congruence. by apply Hin.
      + by rewrite lookup_insert_eq. }
  destruct Hstep as [? ? ->| ? ? ? ? ? ? ->
                     | ? ? ? ? ? [x [->| ->]] ? -> ->
                     | | ? ? ? ? ? ? ? ? [x [->| ->]]]; try done.
  - rewrite fetched_app, app_nil_r. split; [done|]. intros v Hv.
    rewrite lookup_insert_ne by done. by apply Hin.
  - rewrite fetched_app, app_nil_r. split; [done|]. intros v Hv.
    rewrite lookup_insert_ne by done. by apply Hin.
  - by eapply Hfresh.
  - by eapply Hfresh.
  - by eapply Hfresh.
Qed.

Lemma lookups_fetches authors w :
  fetches_cached w -> fetches_cached (lookups clock authors w).2.
Proof.
  revert w. induction authors as [|author authors IH]; intros w Hw; [done|].
  simpl. pose proof (collect_user_info_step author w) as Hstep.
  destruct (collect_user_info clock author w) as [s w1]. simpl in Hstep.
  apply (lookup_step_fetches _ _ _ _ Hstep), IH in Hw.
  by destruct (lookups clock authors w1).
Qed.

Lemma lookups_keep authors w u x :
  user_info_cache w !! Some u = Some x ->
  user_info_cache (lookups clock authors w).2 !! Some u = Some x.
Proof.
  revert w. induction authors as [|author authors IH]; intros w Hw; [done|].
  simpl. pose proof (collect_user_info_step author w) as Hstep.
  destruct (collect_user_info clock author w) as [s w1]. simpl in Hstep.
  apply (lookup_step_keeps _ _ _ _ _ _ Hstep), IH in Hw.
  by destruct (lookups clock authors w1).
Qed.

Lemma lookups_consistent authors w :
  cache_consistent w ->
  Forall consistent (lookups clock authors w).1 /\
  cache_consistent (lookups clock authors w).2.
Proof.
  revert w. induction authors as [|author authors IH]; intros w Hw; [done|].
  simpl. pose proof (collect_user_info_step author w) as Hstep.
  destruct (collect_user_info clock author w) as [s w1]. simpl in Hstep.
  destruct (lookup_step_consistent _ _ _ _ Hstep Hw) as [Hs Hw1].
  destruct (IH _ Hw1) as [Hrest Hw2].
  destruct (lookups clock authors w1). simpl in *. by split; [constructor|].
Qed.

(** The trace only grows, and a step adds the events listed in its case. *)
Lemma lookup_step_events author w s w' :
  lookup_step author w s w' ->
  trace w' = trace w ++ events_since (trace w) (trace w').
Proof.
  unfold events_since.
  intros [? ? ->| ? ? ? ? ? ? ->| ? ? ? ? ? ? ? -> ?
          | ? ? ? ? ? ? ? ? ? ? ? -> ?| ? ? ? ? ? ? ? ? ? ? -> ?];
    by rewrite ?drop_app_length, ?drop_all, ?app_nil_r.
Qed.

Lemma fetches_cached_print m w :
  fetches_cached w -> fetches_cached (emit (Print m) w).
Proof.
  unfold fetches_cached, emit. simpl.
  by rewrite fetched_app, app_nil_r.
Qed.

Lemma collect_post_data_fetches post w :
  fetches_cached w -> fetches_cached (collect_post_data clock post w).2.
Proof.
  intros Hw. unfold collect_post_data, post_failed.
  destruct (Submission.author post) as [author|];
    [|by apply fetches_cached_print].
  pose proof (collect_user_info_step author w) as Hstep.
  destruct (collect_user_info clock author w) as [author_info w1].
  apply (lookup_step_fetches _ _ _ _ Hstep) in Hw.
  destruct (Submission.created_utc post ≫= fromtimestamp);
    [|by apply fetches_cached_print].
  simpl. destruct (post_record _ _ _ _ _); [done|].
  by apply fetches_cached_print.
Qed.

Lemma cohort_loop_fetches posts i posts_data post_fullnames w :
  fetches_cached w ->
  fetches_cached (cohort_loop clock posts i posts_data post_fullnames w).2.
Proof.
  revert i posts_data post_fullnames w.
  induction posts as [|post posts IH]; intros i recs ids w Hw; [done|].
  simpl.
  assert (fetches_cached
            (if i mod 100 =? 0 then emit (Print (Pass1Progress i)) w else w))
    as Hw1.
  { destruct (i mod 100 =? 0); [by apply fetches_cached_print|done]. }
  apply (collect_post_data_fetches post) in Hw1.
  destruct (collect_post_data clock post _) as [[r|] w2]; by apply IH.
Qed.

Lemma collect_initial_cohort_fetches subreddit_new subreddit_name limit w :
  fetches_cached w ->
  fetches_cached
    (collect_initial_cohort clock subreddit_new subreddit_name limit w).2.
Proof.
  intros Hw. unfold collect_initial_cohort.
  pose proof (cohort_loop_fetches (subreddit_new subreddit_name limit) 1 [] []
                _ (fetches_cached_print (Pass1Collecting subreddit_name) w Hw))
    as H.
  destruct (cohort_loop clock _ 1 [] [] _) as [[recs ids] w1].
  by apply fetches_cached_print.
Qed.

(** C1. Within one run the external fetch is issued at most once per
    username: the usernames fetched since the cache was empty are pairwise
    distinct, for a sequence of lookups and for the lookups a cohort capture
    makes; and once a lookup of a username has completed (with a fetched
    snapshot or with an unavailable one), a later lookup of the same
    username, whatever lookups were made in between, returns that very
    snapshot and changes nothing: no fetch, no delay, no cache write. *)
Theorem fetch_at_most_once_per_username
    (authors between : list (option Redditor.t)) (w : world)
    (a b : Redditor.t) (u : string)
    (subreddit_new : string -> nat -> list Submission.t)
    (subreddit_name : string) (limit : nat) :
  Redditor.str a = inr u -> Redditor.str b = inr u ->
  NoDup (fetched (trace (lookups clock authors initial).2)) /\
  NoDup (fetched (trace
    (collect_initial_cohort clock subreddit_new subreddit_name limit
       initial).2)) /\
  (let w1 := (collect_user_info clock (Some a) w).2 in
   let w2 := (lookups clock between w1).2 in
   collect_user_info clock (Some b) w2 =
     ((collect_user_info clock (Some a) w).1, w2)).
Proof.
  intros Ha Hb.
  assert (fetches_cached initial) as H0.
  { split; [constructor | intros ? []]. }
  split; [by apply lookups_fetches|].
  split; [by apply collect_initial_cohort_fetches|].
  cbv zeta. destruct (decide (u = "[deleted]"%string)) as [->|Hu].
  - rewrite (collect_user_info_deleted (Some a) w) by done. cbn [fst snd].
    by rewrite (collect_user_info_deleted (Some b)).
  - pose proof (collect_user_info_step (Some a) w) as Hstep.
    destruct (collect_user_info clock (Some a) w) as [s w1]. simpl in *.
    apply (collect_user_info_hit b u); [done| |done].
    apply lookups_keep. by eapply lookup_step_stores.
Qed.

Lemma collect_user_info_unreachable author w :
  unreachable author w ->
  exists name,
    (collect_user_info clock author w).1 = UserInfo.unavailable name.
Proof.
  destruct author as [a|]; [|by eexists].
  unfold unreachable, collect_user_info, try_lookup.
  destruct (Redditor.str a) as [e|u]; [destruct e; by eexists|].
  intros [->|[Hc Hf]]; [by eexists|].
  destruct (String.eqb_spec u "[deleted]"); [by eexists|].
  rewrite Hc. unfold fresh_lookup.
  destruct (Redditor.fetch a) as [e|p]; [destruct e; by eexists|].
  destruct (Redditor.created_utc p); [by eexists..|done].
Qed.

(** C6. Every call returns a snapshot (the function is total: no exception
    escapes it, whatever the author, the outcome of [str] and of the fetch),
    and every snapshot returned in a run satisfies: [author_unavailable] is
    true if and only if the age and the three karma fields are all null.
    The cache keeps the same invariant, which is what makes it hold for the
    snapshots served from the cache.  For a null author, for [[deleted]]
    and for an author whose lookup raises, the snapshot is the unavailable
    one: the flag is true and the four fields are null. *)
Theorem snapshot_unavailable_iff_all_null
    (authors : list (option Redditor.t)) (author : option Redditor.t)
    (w : world) :
  cache_consistent w ->
  Forall consistent (lookups clock authors w).1 /\
  cache_consistent (lookups clock authors w).2 /\
  (unreachable author w ->
   let s := (collect_user_info clock author w).1 in
   UserInfo.author_unavailable s = true /\
   UserInfo.account_age_days s = None /\ UserInfo.link_karma s = None /\
   UserInfo.comment_karma s = None /\ UserInfo.total_karma s = None).
Proof.
  intros Hw. destruct (lookups_consistent authors w Hw) as [Hs Hc].
  split; [done|]. split; [done|].
  intros [name ->]%collect_user_info_unreachable. done.
Qed.

(** C8. The pacing delay of [collect_user_info] is only incurred on the
    path that fetches: a call that sleeps sleeps [USER_PACING] and has
    issued a fetch for a username the cache did not hold; a call for a null
    author, for [[deleted]] or for a cached username produces no event at
    all. *)
Theorem pacing_only_on_fresh_fetch (author : option Redditor.t) (w : world) :
  let w' := (collect_user_info clock author w).2 in
  let new := events_since (trace w) (trace w') in
  trace w' = trace w ++ new /\
  (needs_no_fetch author w -> new = []) /\
  (forall d, In (Sleep d) new ->
     d = USER_PACING /\
     exists a u, author = Some a /\ Redditor.str a = inr u /\
                 user_info_cache w !! Some u = None /\ In (Fetch u) new).
Proof.
  simpl. pose proof (collect_user_info_step author w) as Hstep.
  split; [by eapply lookup_step_events|].
  unfold events_since, needs_no_fetch. split.
  - intros Hquiet.
    assert ((collect_user_info clock author w).2 = w) as ->;
      [|by rewrite drop_all].
    destruct Hquiet as [Hdel|(a & u & -> & Hstr & s & Hs)].
    + by rewrite collect_user_info_deleted.
    + destruct (decide (u = "[deleted]"%string)) as [->|Hu].
      * by rewrite collect_user_info_deleted.
      * by rewrite (collect_user_info_hit a u s).
  - intros d.
    destruct Hstep as [? ? ->| ? ? ? ? ? ? ->| ? ? ? ? ? [x [->| ->]] ? -> ?
                       | a u ? ? ? ? ? ? ? ? ? -> ?
                       | ? ? ? ? ? ? ? ? [x [->| ->]] ? -> ?];
      rewrite ?drop_all, ?drop_app_length; simpl; intros Hin;
      try (by intuition discriminate).
    destruct Hin as [|[[= <-]|[]]]; [done|].
    split; [done|]. exists a, u. by intuition.
Qed.

(** C10. A lookup of a null author or of the username [[deleted]] returns
    the unavailable snapshot and leaves the whole world as it was: the cache
    has the same entries and no fetch is issued.  In general a call either
    leaves the cache as it is or stores the snapshot it returns under one
    key, and then it has either fetched that username successfully or
    caught an exception (and printed its line). *)
Theorem deleted_lookup_leaves_cache (author : option Redditor.t) (w : world) :
  let s := (collect_user_info clock author w).1 in
  let w' := (collect_user_info clock author w).2 in
  let new := events_since (trace w) (trace w') in
  (deleted_author author -> s = UserInfo.unavailable "[deleted]" /\ w' = w) /\
  (user_info_cache w' = user_info_cache w \/
   exists k, user_info_cache w' = <[k := s]> (user_info_cache w) /\
     ((exists u, k = Some u /\ In (Fetch u) new /\
                 UserInfo.author_unavailable s = false) \/
      (exists m, In m new /\ caught k m /\
                 UserInfo.author_unavailable s = true))).
Proof.
  simpl. split.
  - intros Hdel. by rewrite collect_user_info_deleted.
  - pose proof (collect_user_info_step author w) as Hstep.
    unfold events_since.
    destruct Hstep as [? ? ->| ? ? ? ? ? ? ->| ? ? m ? ? ? Hs -> ->
                       | a u ? ? ? ? ? ? ? ? ? -> ->
                       | ? u m ? ? ? ? ? ? Hs -> ->];
      [by left | by left | right..]; rewrite drop_app_length.
    + exists None. split; [done|]. right. exists m. rewrite Hs. simpl. by intuition.
    + exists (Some u). split; [done|]. left. exists u. simpl. by intuition.
    + exists (Some u). split; [done|]. right. exists m. rewrite Hs. simpl.
      by intuition.
Qed.

End user_info_cache_properties.

Section cohort_capture_properties.
Import collect_data.
Variable clock : nat -> datetime.
Variable subreddit_new : string -> nat -> list Submission.t.

Lemma post_record_fields post author_info body created_dt captured r :
  post_record post author_info body created_dt captured = Some r ->
  PostData.created_utc r = created_dt /\
  PostData.captured_at_utc r = captured /\
  PostData.post_fullname r = Submission.fullname post /\
  PostData.post_age_seconds_at_capture r =
    total_seconds (captured - created_dt)%Z.
Proof.
  unfold post_record. intros H. destruct_reads H. by injection H as <-.
Qed.

Lemma cohort_loop_attempts posts i posts_data post_fullnames w :
  let successes := omap id (attempts clock posts i w) in
  (cohort_loop clock posts i posts_data post_fullnames w).1 =
    (posts_data ++ successes,
     post_fullnames ++ map PostData.post_fullname successes).
Proof.
  revert i posts_data post_fullnames w.
  induction posts as [|post posts IH]; intros i recs ids w; simpl.
  { by rewrite !app_nil_r. }
  destruct (collect_post_data clock post _) as [[r|] w1]; simpl.
  - rewrite IH. simpl. by rewrite <- !app_assoc.
  - by rewrite IH.
Qed.

Lemma length_attempts posts i w : length (attempts clock posts i w) = length posts.
Proof.
  revert i w. induction posts as [|post posts IH]; intros i w; [done|].
  simpl. destruct (collect_post_data clock post _). simpl. by rewrite IH.
Qed.

(** C7. A post whose record cannot be built makes [collect_post_data]
    return [None] instead of raising, and the loop goes on: every post of
    the stream is attempted, the returned records are exactly the
    successful attempts in the order of the stream, and the returned
    identifiers are the [post_fullname] fields of those records, position
    by position. *)
Theorem cohort_records_and_identifiers_parallel
    (subreddit_name : string) (limit : nat) (w : world) :
  let posts := subreddit_new subreddit_name limit in
  let results :=
    attempts clock posts 1 (emit (Print (Pass1Collecting subreddit_name)) w) in
  let out := collect_initial_cohort clock subreddit_new subreddit_name limit w in
  length results = length posts /\
  out.1.1 = omap id results /\
  out.1.2 = map PostData.post_fullname out.1.1 /\
  length out.1.2 = length out.1.1 /\
  forall i, out.1.2 !! i = PostData.post_fullname <$> out.1.1 !! i.
Proof.
  cbv zeta. unfold collect_initial_cohort.
  pose proof (cohort_loop_attempts (subreddit_new subreddit_name limit) 1 [] []
                (emit (Print (Pass1Collecting subreddit_name)) w)) as H.
  cbv zeta in H.
  destruct (cohort_loop clock _ 1 [] [] _) as [[recs ids] w1].
  simpl in *. injection H as -> ->.
  split; [apply length_attempts|]. split; [done|]. split; [done|].
  split; [by rewrite length_map|].
  intros i. apply list_lookup_fmap.
Qed.

(** C9. In every record [collect_post_data] produces, the creation time is
    the post's creation timestamp, the capture time is a reading of the
    clock, and [post_age_seconds_at_capture] is the capture time minus the
    creation time in seconds (a million times it is their difference in
    microseconds); it is non-negative whenever the capture time is not
    earlier than the creation time. *)
Theorem post_age_is_capture_minus_creation
    (post : Submission.t) (w w' : world) (r : PostData.t) :
  collect_post_data clock post w = (Some r, w') ->
  Submission.created_utc post = Some (PostData.created_utc r) /\
  (exists n, PostData.captured_at_utc r = clock n) /\
  PostData.post_age_seconds_at_capture r =
    total_seconds (PostData.captured_at_utc r - PostData.created_utc r)%Z /\
  (PostData.post_age_seconds_at_capture r * inject_Z MICROSECONDS_PER_SECOND ==
     inject_Z (PostData.captured_at_utc r - PostData.created_utc r))%Q /\
  ((PostData.created_utc r <= PostData.captured_at_utc r)%Z ->
   (0 <= PostData.post_age_seconds_at_capture r)%Q).
Proof.
  unfold collect_post_data, post_failed.
  destruct (Submission.author post) as [author|]; [|discriminate].
  destruct (collect_user_info clock author w) as [author_info w1].
  destruct (Submission.created_utc post) as [ts|] eqn:Hts; [|discriminate].
  simpl. unfold fromtimestamp.
  destruct (_ && _); [|discriminate]. simpl.
  destruct (post_record _ _ _ _ _) as [r'|] eqn:Hr; [|discriminate].
  intros [= -> <-].
  apply post_record_fields in Hr as (-> & -> & _ & ->).
  split; [done|]. split; [by eexists|]. split; [done|].
  unfold total_seconds, MICROSECONDS_PER_SECOND, Qeq, Qle. simpl.
  split; [lia|]. intros. lia.
Qed.

End cohort_capture_properties.

(** * Properties of Pass 2 *)

Section batch_recheck_properties.
Import collect_data_2.
Variable clock : nat -> datetime.
Variable reddit_info : nat -> list string -> attr (list Submission.t).

(** Whether a post can be examined does not depend on the clock. *)
Lemma status_of_time post t t' s :
  status_of post t = Some s -> is_Some (status_of post t').
Proof.
  unfold status_of. intros H.
  destruct (Submission.removed_by_category post); simpl in *; [|discriminate].
  destruct (if body_is _ _ then _ else _); simpl in *; [|discriminate].
  destruct (Submission.author post); simpl in *; [|discriminate].
  destruct (match o0 with Some _ => _ | None => _ end); simpl in *;
    [|discriminate].
  destruct_reads H. by eexists.
Qed.

Lemma examined_ok_true post t :
  examined_ok post = true <-> is_Some (status_of post t).
Proof.
  unfold examined_ok. split.
  - destruct (status_of post 0%Z) eqn:H; [|discriminate].
    intros _. by eapply status_of_time.
  - intros [s Hs]. by destruct (status_of_time _ _ 0%Z _ Hs) as [? ->].
Qed.

(** The discoverability disjunct, on the attribute itself: the post has an
    [is_robot_indexable] attribute and its value is [False]. *)
Lemma not_indexable_true post :
  not_indexable post = true <-> Submission.is_robot_indexable post = Has false.
Proof.
  unfold not_indexable.
  destruct (Submission.is_robot_indexable post) as [| |[|]];
    split; intros H; done.
Qed.

(** The flags of a status record, in terms of one another. *)
Lemma status_of_flags post t s :
  status_of post t = Some s ->
  Status.is_removed_inferred s =
    Status.is_removed_official s || Status.is_removed_content s ||
    not_indexable post /\
  Status.is_deleted s = Status.is_deleted_author s || Status.is_deleted_content s.
Proof.
  unfold status_of. intros H.
  destruct (Submission.removed_by_category post); simpl in *; [|discriminate].
  destruct (if body_is _ _ then _ else _); simpl in *; [|discriminate].
  destruct (Submission.author post); simpl in *; [|discriminate].
  destruct (match o0 with Some _ => _ | None => _ end); simpl in *;
    [|discriminate].
  destruct_reads H. by injection H as <-.
Qed.

Lemma record_posts_world posts m w :
  trace (record_posts clock posts m w).2 = trace w /\
  info_calls (record_posts clock posts m w).2 = info_calls w.
Proof.
  revert m w. induction posts as [|post posts IH]; intros m w; [done|].
  simpl. destruct (status_of post _); [|done]. by rewrite !(proj1 (IH _ _)), !(proj2 (IH _ _)).
Qed.

Lemma record_posts_completes posts m w :
  (record_posts clock posts m w).1.1 = forallb examined_ok posts.
Proof.
  revert m w. induction posts as [|post posts IH]; intros m w; [done|].
  simpl. destruct (status_of post _) eqn:Hs.
  - rewrite IH.
    by rewrite (proj2 (examined_ok_true post (clock (clock_reads w)))).
  - simpl. destruct (examined_ok post) eqn:Hok; [|done].
    apply (examined_ok_true post (clock (clock_reads w))) in Hok as [? ?].
    congruence.
Qed.

(** Every entry of the map was there before or is the status of a post of
    the batch. *)
Lemma record_posts_provenance posts m w id s :
  (record_posts clock posts m w).1.2 !! id = Some s ->
  m !! id = Some s \/
  exists p t, In p posts /\ Submission.fullname p = id /\ status_of p t = Some s.
Proof.
  revert m w. induction posts as [|post posts IH]; intros m w; [by left|].
  simpl. destruct (status_of post _) as [st|] eqn:Hs; [|by left].
  intros [Hm|(p & t & Hp & Hid & Hst)]%IH.
  - destruct (decide (Submission.fullname post = id)) as [<-|Hne].
    + rewrite lookup_insert_eq in Hm. injection Hm as ->.
      right. eauto 10.
    + rewrite lookup_insert_ne in Hm by done. by left.
  - right. eauto 10.
Qed.

Lemma record_posts_keeps posts m w id :
  is_Some (m !! id) -> is_Some ((record_posts clock posts m w).1.2 !! id).
Proof.
  revert m w. induction posts as [|post posts IH]; intros m w Hm; [done|].
  simpl. destruct (status_of post _); [|done].
  apply IH. destruct (decide (Submission.fullname post = id)) as [<-|Hne].
  - by rewrite lookup_insert_eq.
  - by rewrite lookup_insert_ne.
Qed.

Lemma record_posts_stores posts m w p :
  (record_posts clock posts m w).1.1 = true -> In p posts ->
  is_Some ((record_posts clock posts m w).1.2 !! Submission.fullname p).
Proof.
  revert m w. induction posts as [|post posts IH]; intros m w Hok Hp; [done|].
  simpl in *. destruct (status_of post _); [|done].
  destruct Hp as [->|Hp]; [|by apply IH].
  apply record_posts_keeps. by rewrite lookup_insert_eq.
Qed.

(** One iteration of the outer loop: the request counter, the events, and
    what happens to the map. *)
Lemma check_batch_spec ids i m w :
  let response := reddit_info (info_calls w) (slice ids i) in
  let out := check_batch clock reddit_info ids i m w in
  info_calls out.2 = S (info_calls w) /\
  trace out.2 = trace w ++ batch_events ids i response /\
  (forall id s, out.1 !! id = Some s ->
     m !! id = Some s \/
     exists posts p t, response = Some posts /\ In p posts /\
       Submission.fullname p = id /\ status_of p t = Some s) /\
  (forall id, is_Some (m !! id) -> is_Some (out.1 !! id)) /\
  (forall posts p, response = Some posts -> completes response = true ->
     In p posts -> is_Some (out.1 !! Submission.fullname p)).
Proof.
  cbv zeta. unfold check_batch, batch_events. fold (slice ids i).
  destruct (reddit_info (info_calls w) (slice ids i)) as [posts|] eqn:Hresp;
    simpl.
  2:{ rewrite <- app_assoc. repeat split; auto. all: discriminate. }
  set (w1 := World (clock_reads w) (S (info_calls w))
               (trace w ++ [BulkInfo (slice ids i)])).
  pose proof (record_posts_world posts m w1) as [Htr Hcalls].
  pose proof (record_posts_completes posts m w1) as Hcompl.
  pose proof (record_posts_provenance posts m w1) as Hprov.
  pose proof (record_posts_keeps posts m w1) as Hkeep.
  pose proof (record_posts_stores posts m w1) as Hstore.
  destruct (record_posts clock posts m w1) as [[b m1] w2]. simpl in *.
  subst b. simpl in Htr, Hcalls.
  assert (forall id s, m1 !! id = Some s ->
    m !! id = Some s \/
    exists posts0 p t, Some posts = Some posts0 /\ In p posts0 /\
      Submission.fullname p = id /\ status_of p t = Some s) as Hprov'.
  { intros id s [?|(p & t & ?)]%Hprov; [by left|]. right. eauto 10. }
  destruct (forallb examined_ok posts) eqn:Hall; simpl.
  - destruct (i + BATCH_SIZE <? length ids); simpl;
      rewrite ?Htr, ?Hcalls, <- ?app_assoc; repeat split; auto;
      intros ? ? [= <-] _; auto.
  - rewrite ?Htr, ?Hcalls, <- ?app_assoc. repeat split; auto.
    intros ? ? [= <-]. discriminate.
Qed.

(** The whole outer loop, by induction on the start indices. *)
Lemma check_batches_spec ids starts m w :
  let out := check_batches clock reddit_info ids starts m w in
  info_calls out.2 = info_calls w + length starts /\
  trace out.2 = trace w ++ run_events reddit_info ids starts (info_calls w) /\
  (forall id s, out.1 !! id = Some s ->
     m !! id = Some s \/
     exists j i posts p t, starts !! j = Some i /\
       reddit_info (info_calls w + j) (slice ids i) = Some posts /\
       In p posts /\ Submission.fullname p = id /\ status_of p t = Some s) /\
  (forall id, is_Some (m !! id) -> is_Some (out.1 !! id)) /\
  (forall j i posts p, starts !! j = Some i ->
     reddit_info (info_calls w + j) (slice ids i) = Some posts ->
     completes (Some posts) = true -> In p posts ->
     is_Some (out.1 !! Submission.fullname p)).
Proof.
  revert m w. induction starts as [|i starts IH]; intros m w; cbv zeta.
  { simpl. rewrite app_nil_r, Nat.add_0_r. repeat split; auto.
    intros ? ? ? ? [=]. }
  simpl.
  pose proof (check_batch_spec ids i m w) as (Hc & Ht & Hp & Hk & Hs).
  destruct (check_batch clock reddit_info ids i m w) as [m1 w1]. simpl in *.
  specialize (IH m1 w1) as (Hc' & Ht' & Hp' & Hk' & Hs').
  rewrite Hc', Ht', Ht, <- app_assoc. rewrite Hc in *.
  split; [lia|]. split; [done|]. split; [|split].
  - intros id s [Hm1|(j & i' & posts & p & t & Hj & Hr & ?)]%Hp'.
    + apply Hp in Hm1 as [?|(posts & p & t & Hr & ?)]; [by left|].
      right. exists 0, i, posts, p, t. by rewrite Nat.add_0_r.
    + right. exists (S j), i', posts, p, t.
      by replace (info_calls w + S j) with (S (info_calls w) + j) by lia.
  - intros id Hm. by apply Hk', Hk.
  - intros [|j] i' posts p Hj Hr Hcompl Hin; simpl in Hj.
    + injection Hj as <-. rewrite Nat.add_0_r in Hr.
      apply Hk'. eapply Hs; [done| |done]. by rewrite Hr.
    + eapply Hs'; [done| |done..].
      by replace (S (info_calls w) + j) with (info_calls w + S j) by lia.
Qed.

End batch_recheck_properties.

(** ** Batching arithmetic *)

Lemma ceil_div_bounds n d : 0 < d -> n <= ceil_div n d * d < n + d.
Proof.
  intros Hd. unfold ceil_div.
  pose proof (Nat.div_mod_eq (n + (d - 1)) d) as Hq.
  pose proof (Nat.mod_upper_bound (n + (d - 1)) d) as Hr.
  rewrite (Nat.mul_comm _ d). lia.
Qed.

Lemma ceil_div_0 d : 0 < d -> ceil_div 0 d = 0.
Proof. intros Hd. unfold ceil_div. apply Nat.div_small. lia. Qed.

Lemma ceil_div_step n d : 0 < d -> 0 < n -> ceil_div n d = S (ceil_div (n - d) d).
Proof.
  intros Hd Hn. unfold ceil_div.
  destruct (le_lt_dec d n) as [Hle|Hlt].
  - replace (n + (d - 1)) with (n - d + (d - 1) + 1 * d) by lia.
    rewrite Nat.div_add by lia. lia.
  - replace (n + (d - 1)) with (n - 1 + 1 * d) by lia.
    rewrite Nat.div_add by lia.
    replace (n - d) with 0 by lia.
    rewrite !Nat.div_small by lia. lia.
Qed.

(** The fuel [stop - start] is enough: the range ends because the index
    reached [stop]. *)
Lemma range_from_spec step fuel i stop :
  0 < step -> stop - i <= fuel ->
  range_from fuel i stop step =
    map (fun k => i + k * step) (seq 0 (ceil_div (stop - i) step)).
Proof.
  intros Hstep. revert i.
  induction fuel as [|fuel IH]; intros i Hfuel; simpl.
  { replace (stop - i) with 0 by lia. by rewrite ceil_div_0. }
  destruct (Nat.ltb_spec i stop) as [Hlt|Hge].
  - rewrite (ceil_div_step (stop - i)) by lia.
    rewrite IH by lia. simpl. f_equal; [lia|].
    replace (stop - i - step) with (stop - (i + step)) by lia.
    rewrite <- seq_shift, map_map. apply map_ext. intros k. simpl. lia.
  - replace (stop - i) with 0 by lia. by rewrite ceil_div_0.
Qed.

Lemma py_range_spec n step :
  0 < step ->
  py_range 0 n step = map (fun k => k * step) (seq 0 (ceil_div n step)).
Proof.
  intros Hstep. unfold py_range.
  rewrite range_from_spec by lia. by rewrite Nat.sub_0_r.
Qed.

Lemma slices_take (ids : list string) nb :
  concat (map (fun k => slice ids (k * collect_data_2.BATCH_SIZE)) (seq 0 nb)) =
  take (nb * collect_data_2.BATCH_SIZE) ids.
Proof.
  induction nb as [|nb IH]; [done|].
  rewrite seq_S, map_app, concat_app, IH. simpl. rewrite app_nil_r.
  unfold slice. rewrite take_take_drop. f_equal.
  unfold collect_data_2.BATCH_SIZE. lia.
Qed.

Lemma slice_lookup (ids : list string) i x :
  In x (slice ids i) ->
  exists a, i <= a < i + collect_data_2.BATCH_SIZE /\ ids !! a = Some x.
Proof.
  unfold slice.
  intros [b Hb]%list_elem_of_In%list_elem_of_lookup.
  apply lookup_take_Some in Hb as [Hb Hlt]. rewrite lookup_drop in Hb.
  exists (i + b). split; [lia|done].
Qed.

(** Without duplicates, two batches that share an identifier are the same
    batch. *)
Lemma slices_disjoint (ids : list string) j k x :
  NoDup ids ->
  In x (slice ids (j * collect_data_2.BATCH_SIZE)) ->
  In x (slice ids (k * collect_data_2.BATCH_SIZE)) -> j = k.
Proof.
  intros Hnd (a & Ha & Hxa)%slice_lookup (b & Hb & Hxb)%slice_lookup.
  pose proof (NoDup_lookup _ _ _ _ Hnd Hxa Hxb) as ->.
  unfold collect_data_2.BATCH_SIZE in *. lia.
Qed.

Section batch_recheck_theorems.
Import collect_data_2.
Variable clock : nat -> datetime.
Variable reddit_info : nat -> list string -> attr (list Submission.t).

Lemma starts_lookup n k :
  k < ceil_div n BATCH_SIZE ->
  py_range 0 n BATCH_SIZE !! k = Some (k * BATCH_SIZE).
Proof.
  intros Hk. rewrite py_range_spec by (unfold BATCH_SIZE; lia).
  change (map ?f ?l) with (f <$> l).
  by rewrite list_lookup_fmap, lookup_seq_lt.
Qed.

Lemma starts_lookup_inv n j i :
  py_range 0 n BATCH_SIZE !! j = Some i ->
  i = j * BATCH_SIZE /\ j < ceil_div n BATCH_SIZE.
Proof.
  rewrite py_range_spec by (unfold BATCH_SIZE; lia).
  change (map ?f ?l) with (f <$> l).
  rewrite list_lookup_fmap.
  destruct (seq 0 _ !! j) as [k|] eqn:Hk; [|done].
  apply lookup_seq in Hk as [-> ?]. by intros [= <-].
Qed.

Lemma events_since_app (tr new : list event) : events_since tr (tr ++ new) = new.
Proof. unfold events_since. apply drop_app_length. Qed.

(** The events of a whole call, and where the entries of its result come
    from. *)
Lemma get_final_post_status_spec ids w :
  let starts := py_range 0 (length ids) BATCH_SIZE in
  let out := get_final_post_status clock reddit_info ids w in
  events_since (trace w) (trace out.2) =
    Print (Pass2Fetching (length ids)) ::
    run_events reddit_info ids starts (info_calls w) ++
    [Print (Pass2Found (size out.1))] /\
  trace out.2 = trace w ++ events_since (trace w) (trace out.2) /\
  (forall id s, out.1 !! id = Some s ->
     exists j posts p t, j < ceil_div (length ids) BATCH_SIZE /\
       reddit_info (info_calls w + j) (slice ids (j * BATCH_SIZE)) = Some posts /\
       In p posts /\ Submission.fullname p = id /\ status_of p t = Some s) /\
  (forall j posts p, j < ceil_div (length ids) BATCH_SIZE ->
     reddit_info (info_calls w + j) (slice ids (j * BATCH_SIZE)) = Some posts ->
     completes (Some posts) = true -> In p posts ->
     is_Some (out.1 !! Submission.fullname p)).
Proof.
  cbv zeta. unfold get_final_post_status.
  pose proof (check_batches_spec clock reddit_info ids
                (py_range 0 (length ids) BATCH_SIZE) ∅
                (emit (Print (Pass2Fetching (length ids))) w))
    as (_ & Ht & Hp & _ & Hs).
  destruct (check_batches _ _ _ _ _ _) as [m w1]. simpl in *.
  assert (trace w1 ++ [Print (Pass2Found (size m))] =
          trace w ++ Print (Pass2Fetching (length ids)) ::
            run_events reddit_info ids (py_range 0 (length ids) BATCH_SIZE)
              (info_calls w) ++ [Print (Pass2Found (size m))]) as Htr.
  { rewrite Ht, <- !app_assoc. done. }
  rewrite Htr, events_since_app. split; [done|]. split; [done|]. split.
  - intros id s [Hm|(j & i & posts & p & t & Hj & Hr & ?)]%Hp.
    { by rewrite lookup_empty in Hm. }
    apply starts_lookup_inv in Hj as [-> ?]. eauto 10.
  - intros j posts p Hj Hr Hc Hin.
    eapply Hs; [by apply starts_lookup|done..].
Qed.

Lemma bulk_calls_run_events ids starts call :
  List.filter is_bulk_info (run_events reddit_info ids starts call) =
  map (fun i => BulkInfo (slice ids i)) starts.
Proof.
  revert call. induction starts as [|i starts IH]; intros call; [done|].
  simpl. rewrite List.filter_app, IH. f_equal.
  destruct (completes _); [destruct (_ <? _)|]; done.
Qed.

Lemma pacing_run_events ids starts call :
  pacing (run_events reddit_info ids starts call) =
  paced_calls reddit_info (after_completed_but_last ids) ids starts call.
Proof.
  unfold pacing. revert call.
  induction starts as [|i starts IH]; intros call; [done|].
  simpl. rewrite List.filter_app, IH. f_equal. f_equal.
  unfold after_completed_but_last.
  destruct (completes _); [destruct (_ <? _)|]; done.
Qed.

Lemma paced_calls_all_complete ids starts call :
  (forall j i, starts !! j = Some i ->
     completes (reddit_info (call + j) (slice ids i)) = true) ->
  paced_calls reddit_info (after_completed_but_last ids) ids starts call =
  paced_calls reddit_info (after_all_but_last ids) ids starts call.
Proof.
  revert call. induction starts as [|i starts IH]; intros call Hall; [done|].
  simpl. rewrite IH.
  - unfold after_completed_but_last, after_all_but_last.
    specialize (Hall 0 i eq_refl). rewrite Nat.add_0_r in Hall.
    by rewrite Hall.
  - intros j i' Hj. specialize (Hall (S j) i' Hj).
    by replace (S call + j) with (call + S j) by lia.
Qed.

Lemma paced_calls_app delay ids starts1 starts2 call :
  paced_calls reddit_info delay ids (starts1 ++ starts2) call =
  paced_calls reddit_info delay ids starts1 call ++
  paced_calls reddit_info delay ids starts2 (call + length starts1).
Proof.
  revert call. induction starts1 as [|i starts1 IH]; intros call; simpl.
  { by rewrite Nat.add_0_r. }
  rewrite IH, <- app_assoc.
  by replace (S call + length starts1) with (call + S (length starts1)) by lia.
Qed.

(** The last batch is never followed by the delay. *)
Lemma paced_calls_last ids call d :
  last (paced_calls reddit_info (after_completed_but_last ids) ids
          (py_range 0 (length ids) BATCH_SIZE) call) <> Some (Sleep d).
Proof.
  rewrite py_range_spec by (unfold BATCH_SIZE; lia).
  pose proof (ceil_div_bounds (length ids) BATCH_SIZE) as Hb.
  destruct (ceil_div (length ids) BATCH_SIZE) as [|nb]; [done|].
  rewrite seq_S, map_app, paced_calls_app. simpl.
  unfold after_completed_but_last.
  replace (nb * BATCH_SIZE + BATCH_SIZE <? length ids) with false.
  - rewrite andb_false_r. simpl. by rewrite last_snoc.
  - symmetry. apply Nat.ltb_ge. unfold BATCH_SIZE in *. lia.
Qed.

Lemma run_events_failed ids starts call k i :
  starts !! k = Some i ->
  reddit_info (call + k) (slice ids i) = None ->
  In (Print (Pass2BatchError i (i + BATCH_SIZE)))
     (run_events reddit_info ids starts call).
Proof.
  revert call k. induction starts as [|i' starts IH]; intros call k Hk Hr; [done|].
  cbn [run_events]. apply in_or_app. destruct k as [|k]; simpl in Hk.
  - injection Hk as ->. rewrite Nat.add_0_r in Hr. left.
    unfold batch_events. rewrite Hr. simpl. auto.
  - right. apply (IH _ k); [done|].
    by replace (S call + k) with (call + S k) by lia.
Qed.

(** C2, as the code has it.  For [n] identifiers the call issues
    [ceil(n / 100)] bulk requests, one per consecutive slice of at most 100
    identifiers, in input order (the slices concatenate to the input).  The
    pacing delay follows a batch exactly when the batch is not the last one
    and completed without an exception; the last batch is never followed by
    a delay, there is no request and no delay when [n = 0], and when every
    batch completes the delay follows every batch but the last. *)
Theorem bulk_calls_and_pacing (post_fullnames : list string) (w : world) :
  let n := length post_fullnames in
  let starts := py_range 0 n BATCH_SIZE in
  let new :=
    events_since (trace w)
      (trace (get_final_post_status clock reddit_info post_fullnames w).2) in
  n <= ceil_div n BATCH_SIZE * BATCH_SIZE < n + BATCH_SIZE /\
  length starts = ceil_div n BATCH_SIZE /\
  List.filter is_bulk_info new =
    map (fun i => BulkInfo (slice post_fullnames i)) starts /\
  length (List.filter is_bulk_info new) = ceil_div n BATCH_SIZE /\
  concat (map (slice post_fullnames) starts) = post_fullnames /\
  Forall (fun i => length (slice post_fullnames i) <= BATCH_SIZE) starts /\
  pacing new =
    paced_calls reddit_info (after_completed_but_last post_fullnames)
      post_fullnames starts (info_calls w) /\
  (forall d, last (pacing new) <> Some (Sleep d)) /\
  (n = 0 -> pacing new = []) /\
  ((forall k, k < ceil_div n BATCH_SIZE ->
      completes (reddit_info (info_calls w + k)
                   (slice post_fullnames (k * BATCH_SIZE))) = true) ->
   pacing new =
     paced_calls reddit_info (after_all_but_last post_fullnames)
       post_fullnames starts (info_calls w)).
Proof.
  cbv zeta.
  pose proof (get_final_post_status_spec post_fullnames w) as (-> & _).
  set (starts := py_range 0 (length post_fullnames) BATCH_SIZE).
  assert (Hlen : length starts = ceil_div (length post_fullnames) BATCH_SIZE).
  { unfold starts. rewrite py_range_spec by (unfold BATCH_SIZE; lia).
    by rewrite length_map, length_seq. }
  assert (Hcalls :
    List.filter is_bulk_info
      (Print (Pass2Fetching (length post_fullnames)) ::
       run_events reddit_info post_fullnames starts (info_calls w) ++
       [Print (Pass2Found
          (size (get_final_post_status clock reddit_info post_fullnames w).1))]) =
    map (fun i => BulkInfo (slice post_fullnames i)) starts).
  { simpl. by rewrite List.filter_app, bulk_calls_run_events, app_nil_r. }
  assert (Hpacing :
    pacing
      (Print (Pass2Fetching (length post_fullnames)) ::
       run_events reddit_info post_fullnames starts (info_calls w) ++
       [Print (Pass2Found
          (size (get_final_post_status clock reddit_info post_fullnames w).1))]) =
    paced_calls reddit_info (after_completed_but_last post_fullnames)
      post_fullnames starts (info_calls w)).
  { unfold pacing. simpl. rewrite List.filter_app. simpl. rewrite app_nil_r.
    apply pacing_run_events. }
  split; [apply ceil_div_bounds; unfold BATCH_SIZE; lia|].
  split; [done|]. split; [done|].
  split; [by rewrite Hcalls, length_map|]. split; [|split].
  - unfold starts. rewrite py_range_spec by (unfold BATCH_SIZE; lia).
    rewrite map_map, slices_take. apply take_ge.
    apply (ceil_div_bounds (length post_fullnames) BATCH_SIZE).
    unfold BATCH_SIZE. lia.
  - apply Forall_forall. intros i _. unfold slice. rewrite length_take. lia.
  - rewrite Hpacing. split; [done|]. split; [|split].
    + intros d. apply paced_calls_last.
    + intros Hn. unfold starts. by rewrite Hn.
    + intros Hall. apply paced_calls_all_complete.
      intros j i [-> Hj]%starts_lookup_inv. by apply Hall.
Qed.

(** C4. Every entry of the status mapping is the status of a post some
    batch yielded under that identifier, and its flags satisfy:
    [is_removed_inferred] is true exactly when [is_removed_official] is
    true, or [is_removed_content] is true, or the attribute
    [is_robot_indexable] of that post is present with the value [False]
    (an absent attribute, [None] and [True] do not count); hence an official
    removal is an inferred removal; and [is_deleted] is [is_deleted_author]
    or [is_deleted_content]. *)
Theorem removal_and_deletion_flags
    (post_fullnames : list string) (w : world) (id : string) (s : Status.t) :
  (get_final_post_status clock reddit_info post_fullnames w).1 !! id = Some s ->
  exists post,
    Submission.fullname post = id /\
    (exists j posts t,
       j < ceil_div (length post_fullnames) BATCH_SIZE /\
       reddit_info (info_calls w + j)
         (slice post_fullnames (j * BATCH_SIZE)) = Some posts /\
       In post posts /\ status_of post t = Some s) /\
    Status.is_removed_inferred s =
      Status.is_removed_official s || Status.is_removed_content s ||
      not_indexable post /\
    (Status.is_removed_inferred s = true <->
     Status.is_removed_official s = true \/
     Status.is_removed_content s = true \/
     Submission.is_robot_indexable post = Has false) /\
    (Status.is_removed_official s = true ->
     Status.is_removed_inferred s = true) /\
    Status.is_deleted s =
      Status.is_deleted_author s || Status.is_deleted_content s.
Proof.
  intros Hs.
  pose proof (get_final_post_status_spec post_fullnames w) as (_ & _ & Hp & _).
  apply Hp in Hs as (j & posts & p & t & Hj & Hr & Hin & Hid & Hst).
  pose proof (status_of_flags _ _ _ Hst) as [Hinf Hdel].
  exists p. split; [done|]. split.
  - by exists j, posts, t.
  - split; [done|]. split; [|split; [|done]].
    + rewrite Hinf, !orb_true_iff, not_indexable_true. tauto.
    + intros Hoff. by rewrite Hinf, Hoff.
Qed.

(** C5. When the bulk lookup of a batch raises, the loop prints the error
    line with the batch's index range and goes on: all [ceil(n / 100)]
    requests are still issued, every batch that completes has the status of
    each of its posts in the result, and, the identifiers being distinct
    and the lookup answering about the identifiers it was asked about, no
    identifier of the failed batch is a key of the result. *)
Theorem failed_batch_is_skipped
    (post_fullnames : list string) (w : world) (k : nat) :
  NoDup post_fullnames -> faithful reddit_info ->
  k < ceil_div (length post_fullnames) BATCH_SIZE ->
  reddit_info (info_calls w + k) (slice post_fullnames (k * BATCH_SIZE)) = None ->
  let out := get_final_post_status clock reddit_info post_fullnames w in
  let new := events_since (trace w) (trace out.2) in
  In (Print (Pass2BatchError (k * BATCH_SIZE) (k * BATCH_SIZE + BATCH_SIZE))) new /\
  (forall id, In id (slice post_fullnames (k * BATCH_SIZE)) -> out.1 !! id = None) /\
  length (List.filter is_bulk_info new) =
    ceil_div (length post_fullnames) BATCH_SIZE /\
  (forall j posts p,
     j < ceil_div (length post_fullnames) BATCH_SIZE ->
     reddit_info (info_calls w + j) (slice post_fullnames (j * BATCH_SIZE)) =
       Some posts ->
     completes (Some posts) = true -> In p posts ->
     exists p' t, In p' posts /\
       Submission.fullname p' = Submission.fullname p /\
       out.1 !! Submission.fullname p = status_of p' t /\
       is_Some (status_of p' t)).
Proof.
  intros Hnd Hfaith Hk Hfail. cbv zeta.
  pose proof (get_final_post_status_spec post_fullnames w)
    as (Hnew & _ & Hp & Hs).
  rewrite Hnew. split; [|split; [|split]].
  - right. apply in_or_app. left.
    eapply run_events_failed; [by apply starts_lookup|done].
  - intros id Hid.
    destruct (_ !! id) as [s|] eqn:Hm; [|done]. exfalso.
    apply Hp in Hm as (j & posts & p & t & Hj & Hr & Hin & Hfn & _).
    assert (j = k) as ->; [|congruence].
    apply (slices_disjoint post_fullnames j k id); [done| |done].
    rewrite <- Hfn. by eapply Hfaith.
  - simpl. rewrite List.filter_app, bulk_calls_run_events, app_nil_r.
    rewrite length_map, py_range_spec by (unfold BATCH_SIZE; lia).
    by rewrite length_map, length_seq.
  - intros j posts p Hj Hr Hc Hin.
    destruct (Hs j posts p Hj Hr Hc Hin) as [s Hm].
    destruct (Hp _ _ Hm) as (j' & posts' & p' & t & Hj' & Hr' & Hin' & Hfn' & Hst).
    assert (j' = j) as ->.
    { apply (slices_disjoint post_fullnames j' j (Submission.fullname p));
        [done| |by eapply Hfaith].
      rewrite <- Hfn'. by eapply Hfaith. }
    assert (posts' = posts) as -> by congruence.
    exists p', t. rewrite Hm, Hst. eauto.
Qed.

End batch_recheck_theorems.

(** * The cohort join *)

Lemma filter_label_absent (right : list (string * Status.t)) k :
  ~ In k right.*1 ->
  List.filter (fun labelled => String.eqb labelled.1 k) right = [].
Proof.
  induction right as [|[k' v'] right IH]; [done|]. simpl. intros Hk.
  destruct (String.eqb_spec k' k) as [->|_]; [by destruct Hk; left|].
  apply IH. intros ?. apply Hk. by right.
Qed.

Lemma filter_label_unique (right : list (string * Status.t)) k v :
  NoDup right.*1 -> In (k, v) right ->
  List.filter (fun labelled => String.eqb labelled.1 k) right = [(k, v)].
Proof.
  induction right as [|[k' v'] right IH]; [done|]. simpl.
  intros [Hk' Hnd]%NoDup_cons [[= -> ->]|Hin].
  - rewrite String.eqb_refl, filter_label_absent; [done|].
    by rewrite <- list_elem_of_In.
  - destruct (String.eqb_spec k' k) as [->|_]; [|by apply IH].
    destruct Hk'. apply list_elem_of_In.
    by apply (in_map fst) in Hin.
Qed.

(** A frame built from a dict has one row per key, so a label matches the
    row stored under it and no other. *)
Lemma matches_from_dict (status_data : gmap string Status.t) k :
  List.filter (fun labelled => String.eqb labelled.1 k)
    (collect_data_2.from_dict status_data) =
  match status_data !! k with
  | Some v => [(k, v)]
  | None => []
  end.
Proof.
  unfold collect_data_2.from_dict.
  destruct (status_data !! k) as [v|] eqn:Hk.
  - apply filter_label_unique; [apply NoDup_fst_map_to_list|].
    by apply list_elem_of_In, elem_of_map_to_list.
  - apply filter_label_absent. intros Hin.
    apply list_elem_of_In, list_elem_of_fmap in Hin as ([k' v] & -> & Hin).
    apply elem_of_map_to_list in Hin. simpl in *. congruence.
Qed.

Lemma join_rows (df : list PostData.t) (status_data : gmap string Status.t) :
  collect_data_2.join df status_data =
  map (fun row =>
         Combined.Make row (status_data !! PostData.post_fullname row)) df.
Proof.
  unfold collect_data_2.join, collect_data_2.left_join. cbv zeta.
  induction df as [|row df IH]; [done|].
  cbn [flat_map]. rewrite IH, matches_from_dict.
  destruct (status_data !! PostData.post_fullname row) eqn:E;
    simpl; by rewrite E.
Qed.

(** C3. The join keeps the Pass 1 table as it is: the Pass 1 parts of the
    combined rows are the rows of the table, each once and in order; the
    row at each position carries the Status Record stored under its
    identifier when there is one and null final-state fields when there is
    none; and every combined row comes from a row of the table. *)
Theorem join_is_left_outer
    (df : list PostData.t) (status_data : gmap string Status.t) :
  let final_df := collect_data_2.join df status_data in
  map Combined.initial final_df = df /\
  length final_df = length df /\
  (forall i row, df !! i = Some row ->
     final_df !! i =
       Some (Combined.Make row (status_data !! PostData.post_fullname row))) /\
  (forall c, In c final_df ->
     In (Combined.initial c) df /\
     Combined.final c =
       status_data !! PostData.post_fullname (Combined.initial c)).
Proof.
  cbv zeta. rewrite join_rows. split; [|split; [|split]].
  - rewrite map_map. simpl. apply map_id.
  - apply length_map.
  - intros i row Hrow. change (map ?f ?l) with (f <$> l).
    by rewrite list_lookup_fmap, Hrow.
  - intros c (row & <- & Hin)%in_map_iff. by split.
Qed.

(** * The properties at the sample data *)

Lemma fetch_at_most_once_witness :
  NoDup (fetched (collect_data.trace
    (collect_data.lookups Sample.clock
       [Some Sample.alice; Some Sample.ghost; Some Sample.alice_again; None;
        Some Sample.ghost] collect_data.initial).2)) /\
  NoDup (fetched (collect_data.trace
    (collect_data.collect_initial_cohort Sample.clock Sample.listing "test"
       100 collect_data.initial).2)) /\
  collect_data.collect_user_info Sample.clock (Some Sample.alice_again)
    (collect_data.lookups Sample.clock [Some Sample.ghost]
       (collect_data.collect_user_info Sample.clock (Some Sample.alice)
          collect_data.initial).2).2 =
  ((collect_data.collect_user_info Sample.clock (Some Sample.alice)
      collect_data.initial).1,
   (collect_data.lookups Sample.clock [Some Sample.ghost]
      (collect_data.collect_user_info Sample.clock (Some Sample.alice)
         collect_data.initial).2).2).
Proof.
  exact (fetch_at_most_once_per_username Sample.clock
           [Some Sample.alice; Some Sample.ghost; Some Sample.alice_again; None;
            Some Sample.ghost]
           [Some Sample.ghost] collect_data.initial
           Sample.alice Sample.alice_again "alice"
           Sample.listing "test" 100 eq_refl eq_refl).
Defined.

Lemma snapshot_unavailable_iff_all_null_witness :
  cache_consistent collect_data.initial /\
  Forall consistent
    (collect_data.lookups Sample.clock
       [None; Some Sample.deleted; Some Sample.alice; Some Sample.ghost;
        Some Sample.suspended; Some Sample.broken; Some Sample.alice_again]
       collect_data.initial).1 /\
  UserInfo.author_unavailable
    (collect_data.collect_user_info Sample.clock (Some Sample.suspended)
       collect_data.initial).1 = true.
Proof.
  assert (H : cache_consistent collect_data.initial).
  { apply map_Forall_empty. }
  split; [exact H|].
  pose proof (snapshot_unavailable_iff_all_null Sample.clock
                [None; Some Sample.deleted; Some Sample.alice;
                 Some Sample.ghost; Some Sample.suspended; Some Sample.broken;
                 Some Sample.alice_again]
                (Some Sample.suspended) collect_data.initial H)
    as (Hall & _ & Hun).
  split; [exact Hall|].
  apply Hun. right. split; [reflexivity|exact I].
Defined.

Lemma pacing_only_on_fresh_fetch_witness :
  events_since (collect_data.trace collect_data.initial)
    (collect_data.trace
       (collect_data.collect_user_info Sample.clock (Some Sample.deleted)
          collect_data.initial).2) = [] /\
  exists a u, Some Sample.alice = Some a /\ Redditor.str a = inr u /\
    collect_data.user_info_cache collect_data.initial !! Some u = None /\
    In (Fetch u)
      (events_since (collect_data.trace collect_data.initial)
         (collect_data.trace
            (collect_data.collect_user_info Sample.clock (Some Sample.alice)
               collect_data.initial).2)).
Proof.
  split.
  - apply (pacing_only_on_fresh_fetch Sample.clock (Some Sample.deleted)
             collect_data.initial).
    left. reflexivity.
  - apply (pacing_only_on_fresh_fetch Sample.clock (Some Sample.alice)
             collect_data.initial) with (d := collect_data.USER_PACING).
    right. left. reflexivity.
Defined.

Lemma deleted_lookup_leaves_cache_witness :
  (collect_data.collect_user_info Sample.clock (Some Sample.deleted)
     (collect_data.collect_user_info Sample.clock (Some Sample.alice)
        collect_data.initial).2).2 =
  (collect_data.collect_user_info Sample.clock (Some Sample.alice)
     collect_data.initial).2 /\
  (collect_data.collect_user_info Sample.clock None collect_data.initial).2 =
  collect_data.initial.
Proof.
  split.
  - apply (deleted_lookup_leaves_cache Sample.clock (Some Sample.deleted)).
    reflexivity.
  - apply (deleted_lookup_leaves_cache Sample.clock None). exact I.
Defined.

Lemma post_age_is_capture_minus_creation_witness :
  (0 <= PostData.post_age_seconds_at_capture
          (Sample.row "t3_a"))%Q /\
  (collect_data.collect_post_data Sample.clock
     (Sample.post "t3_a" (Some Sample.alice) None) collect_data.initial).1 =
  Some (Sample.row "t3_a").
Proof.
  split; [|vm_compute; reflexivity].
  apply (post_age_is_capture_minus_creation Sample.clock
           (Sample.post "t3_a" (Some Sample.alice) None) collect_data.initial
           (collect_data.collect_post_data Sample.clock
              (Sample.post "t3_a" (Some Sample.alice) None)
              collect_data.initial).2).
  - vm_compute. reflexivity.
  - vm_compute. discriminate.
Defined.

Lemma sample_cohort_NoDup : NoDup Sample.cohort.
Proof. apply (bool_decide_unpack _). vm_compute. exact I. Qed.

Lemma sample_answers_faithful : faithful Sample.answers.
Proof.
  intros n ids posts p [= <-] Hin.
  apply in_map_iff in Hin as (f & <- & Hf). exact Hf.
Qed.

Lemma sample_first_fails_faithful : faithful Sample.first_fails.
Proof.
  intros [|n] ids posts p; [discriminate|]. apply sample_answers_faithful.
Qed.

Lemma sample_answers_complete n ids : completes (Sample.answers n ids) = true.
Proof. simpl. induction ids as [|f ids IH]; [done|]. simpl. exact IH. Qed.

(** C2 as the specification words it (a delay after every batch but the
    last) fails when a batch raises: with 101 identifiers and a first
    request that fails, both requests are issued and no delay separates
    them. *)
Lemma delay_skipped_after_failed_batch :
  pacing
    (events_since (collect_data_2.trace collect_data_2.initial)
       (collect_data_2.trace
          (collect_data_2.get_final_post_status Sample.clock
             Sample.first_fails Sample.cohort collect_data_2.initial).2)) <>
  paced_calls Sample.first_fails (after_all_but_last Sample.cohort)
    Sample.cohort
    (py_range 0 (length Sample.cohort) collect_data_2.BATCH_SIZE)
    (collect_data_2.info_calls collect_data_2.initial).
Proof.
  intros H.
  apply (f_equal (fun tr => length (List.filter is_sleep tr))) in H.
  vm_compute in H. discriminate H.
Qed.

Lemma bulk_calls_and_pacing_witness :
  pacing
    (events_since (collect_data_2.trace collect_data_2.initial)
       (collect_data_2.trace
          (collect_data_2.get_final_post_status Sample.clock
             Sample.answers Sample.cohort collect_data_2.initial).2)) =
  paced_calls Sample.answers (after_all_but_last Sample.cohort)
    Sample.cohort
    (py_range 0 (length Sample.cohort) collect_data_2.BATCH_SIZE)
    (collect_data_2.info_calls collect_data_2.initial).
Proof.
  apply (bulk_calls_and_pacing Sample.clock Sample.answers Sample.cohort
           collect_data_2.initial).
  intros k _. apply sample_answers_complete.
Defined.

Lemma removal_and_deletion_flags_witness :
  exists s,
    (collect_data_2.get_final_post_status Sample.clock Demo.hidden_answer
       ["t3_h"]%string collect_data_2.initial).1
      !! "t3_h"%string = Some s /\
    Status.is_removed_official s = false /\
    Status.is_removed_content s = false /\
    Status.is_removed_inferred s = true.
Proof.
  eexists. split; [vm_compute; reflexivity|].
  split; [reflexivity|]. split; [reflexivity|].
  destruct (removal_and_deletion_flags Sample.clock Demo.hidden_answer
              ["t3_h"]%string collect_data_2.initial
              "t3_h"%string _ eq_refl)
    as (p & _ & (j & posts & t & _ & Hr & Hin & _) & _ & Hiff & _).
  apply Hiff. right. right.
  injection Hr as <-. destruct Hin as [<-|[]]. reflexivity.
Defined.

(** C5 as the specification words it (the identifiers of a failed batch
    are absent from the returned mapping) fails when an identifier occurs in
    two batches: with the first of two requests failing, [t3_0] belongs to
    the failed batch and is a key of the result all the same, stored by the
    second batch. *)
Lemma failed_batch_identifier_resolved_elsewhere :
  ~ (forall k : nat,
       k < ceil_div (length Demo.repeated) collect_data_2.BATCH_SIZE ->
       Sample.first_fails
         (collect_data_2.info_calls collect_data_2.initial + k)
         (slice Demo.repeated (k * collect_data_2.BATCH_SIZE)) = None ->
       forall id,
         In id (slice Demo.repeated (k * collect_data_2.BATCH_SIZE)) ->
         (collect_data_2.get_final_post_status Sample.clock
            Sample.first_fails Demo.repeated collect_data_2.initial).1
           !! id = None).
Proof.
  intros H.
  assert (H0 : 0 < ceil_div (length Demo.repeated) collect_data_2.BATCH_SIZE).
  { vm_compute. lia. }
  specialize (H 0 H0 eq_refl (Sample.fullname_of 0) (or_introl eq_refl)).
  vm_compute in H. discriminate H.
Qed.

Lemma failed_batch_is_skipped_witness :
  NoDup Sample.cohort /\ faithful Sample.first_fails /\
  In (Print (Pass2BatchError 0 100))
    (events_since (collect_data_2.trace collect_data_2.initial)
       (collect_data_2.trace
          (collect_data_2.get_final_post_status Sample.clock
             Sample.first_fails Sample.cohort collect_data_2.initial).2)) /\
  (collect_data_2.get_final_post_status Sample.clock Sample.first_fails
     Sample.cohort collect_data_2.initial).1 !! Sample.fullname_of 0 = None.
Proof.
  split; [exact sample_cohort_NoDup|].
  split; [exact sample_first_fails_faithful|].
  assert (H0 : 0 < ceil_div (length Sample.cohort) collect_data_2.BATCH_SIZE).
  { vm_compute. lia. }
  pose proof (failed_batch_is_skipped Sample.clock Sample.first_fails
                Sample.cohort collect_data_2.initial 0
                sample_cohort_NoDup sample_first_fails_faithful H0 eq_refl)
    as (Hprint & Habsent & _).
  split; [exact Hprint|].
  apply Habsent. left. reflexivity.
Defined.

Lemma join_is_left_outer_witness :
  collect_data_2.join Sample.pass1_table
    (collect_data_2.get_final_post_status Sample.clock Sample.scenario
       ["t3_a"; "t3_b"; "t3_c"]%string collect_data_2.initial).1 !! 1 =
  Some (Combined.Make (Sample.row "t3_b") None).
Proof.
  apply (join_is_left_outer Sample.pass1_table
           (collect_data_2.get_final_post_status Sample.clock Sample.scenario
              ["t3_a"; "t3_b"; "t3_c"]%string collect_data_2.initial).1
           ).
  reflexivity.
Defined.

(** ** The scenarios of the specification, evaluated *)

Example null_author_scenario :
  collect_data.collect_user_info Sample.clock None collect_data.initial =
  ({| UserInfo.username := "[deleted]";
      UserInfo.account_age_days := None;
      UserInfo.link_karma := None;
      UserInfo.comment_karma := None;
      UserInfo.total_karma := None;
      UserInfo.is_verified := None;
      UserInfo.author_unavailable := true |},
   collect_data.initial).
Proof. reflexivity. Qed.

Example fresh_lookup_scenario :
  collect_data.trace
    (collect_data.lookups Sample.clock
       [Some Sample.alice; Some Sample.alice_again; Some Sample.ghost;
        Some Sample.ghost] collect_data.initial).2 =
  [Fetch "alice"; Sleep collect_data.USER_PACING; Fetch "ghost";
   Print (UserUnavailable (Some "ghost"%string) Forbidden)].
Proof. reflexivity. Qed.

Example cohort_scenario :
  (collect_data.collect_initial_cohort Sample.clock Sample.listing "test" 100
     collect_data.initial).1.2 = ["t3_a"; "t3_c"]%string.
Proof. vm_compute. reflexivity. Qed.

Example range_scenario : py_range 0 250 100 = [0; 100; 200].
Proof. reflexivity. Qed.

Example join_scenario :
  map (fun c => (PostData.post_fullname (Combined.initial c),
                 Status.is_removed_official <$> Combined.final c,
                 Status.is_removed_inferred <$> Combined.final c))
    (collect_data_2.join Sample.pass1_table
       (collect_data_2.get_final_post_status Sample.clock Sample.scenario
          ["t3_a"; "t3_b"; "t3_c"]%string collect_data_2.initial).1) =
  [("t3_a"%string, Some false, Some false);
   ("t3_b"%string, None, None);
   ("t3_c"%string, Some true, Some true)].
Proof. vm_compute. reflexivity. Qed.

(** * Further properties of Pass 1 *)

Section user_info_invariants.
Import collect_data.
Variable clock : nat -> datetime.

(** Any property of cache entries that the unavailable snapshots and the
    freshly fetched ones have is kept by a call, and the answer has it. *)
Lemma collect_user_info_preserves
    (Q : option string -> UserInfo.t -> Prop) author w :
  (forall k, Q k (UserInfo.unavailable (username_or_error k))) ->
  (forall k, Q k (UserInfo.unavailable "[error]")) ->
  (forall u age lk ck v,
     Q (Some u)
       (UserInfo.Make u (Some age) (Some lk) (Some ck) (Some (lk + ck)%Z) v
          false)) ->
  map_Forall Q (user_info_cache w) ->
  map_Forall Q (user_info_cache (collect_user_info clock author w).2) /\
  answer_for Q author (collect_user_info clock author w).1.
Proof.
  intros Hun Herr Hok Hw.
  destruct author as [a|]; [|done].
  unfold collect_user_info, try_lookup, answer_for.
  destruct (Redditor.str a) as [e|u].
  { destruct e; simpl; (split; [apply map_Forall_insert_2|]); auto;
      apply (Hun None). }
  destruct (String.eqb_spec u "[deleted]") as [->|Hu]; [done|].
  destruct (user_info_cache w !! Some u) as [cached|] eqn:Hc.
  { split; [done|]. by apply (map_Forall_lookup_1 _ _ _ _ Hw). }
  assert (Hraise : forall e w1,
    user_info_cache w1 = user_info_cache w ->
    map_Forall Q
      (user_info_cache
         (match e with
          | NotFound | Forbidden | AttributeError =>
            (UserInfo.unavailable (username_or_error (Some u)),
             cache_store (Some u)
               (UserInfo.unavailable (username_or_error (Some u)))
               (emit (Print (UserUnavailable (Some u) e)) w1))
          | OtherException =>
            (UserInfo.unavailable "[error]",
             cache_store (Some u) (UserInfo.unavailable "[error]")
               (emit (Print (UserUnexpected (Some u) e)) w1))
          end).2) /\
    Q (Some u)
      (match e with
       | NotFound | Forbidden | AttributeError =>
         (UserInfo.unavailable (username_or_error (Some u)),
          cache_store (Some u)
            (UserInfo.unavailable (username_or_error (Some u)))
            (emit (Print (UserUnavailable (Some u) e)) w1))
       | OtherException =>
         (UserInfo.unavailable "[error]",
          cache_store (Some u) (UserInfo.unavailable "[error]")
            (emit (Print (UserUnexpected (Some u) e)) w1))
       end).1).
  { intros e w1 Hw1.
    destruct e; simpl; rewrite Hw1;
      (split; [apply map_Forall_insert_2|]); auto. }
  unfold fresh_lookup, now.
  destruct (Redditor.fetch a) as [e|p]; [by apply Hraise|].
  destruct (Redditor.created_utc p) as [| |created];
    [by apply (Hraise AttributeError)..|].
  cbn [fst snd]. destruct (fromtimestamp created) as [created_dt|];
    [|by apply (Hraise OtherException)].
  destruct (Redditor.link_karma p) as [| |lk],
           (Redditor.comment_karma p) as [| |ck];
    try (by apply (Hraise AttributeError));
    try (by apply (Hraise OtherException)).
  simpl. split; [apply map_Forall_insert_2|]; auto.
Qed.

Lemma answer_for_any (P : UserInfo.t -> Prop) author s :
  P (UserInfo.unavailable "[deleted]") ->
  answer_for (fun _ => P) author s -> P s.
Proof.
  intros Hdel. unfold answer_for.
  destruct author as [a|]; [|by intros ->].
  destruct (Redditor.str a) as [e|u]; [done|].
  destruct (String.eqb u "[deleted]"); [by intros ->|done].
Qed.

Lemma lookups_preserves (Q : option string -> UserInfo.t -> Prop) authors w :
  (forall k, Q k (UserInfo.unavailable (username_or_error k))) ->
  (forall k, Q k (UserInfo.unavailable "[error]")) ->
  (forall u age lk ck v,
     Q (Some u)
       (UserInfo.Make u (Some age) (Some lk) (Some ck) (Some (lk + ck)%Z) v
          false)) ->
  map_Forall Q (user_info_cache w) ->
  Forall2 (answer_for Q) authors (lookups clock authors w).1 /\
  map_Forall Q (user_info_cache (lookups clock authors w).2).
Proof.
  intros Hun Herr Hok. revert w.
  induction authors as [|author authors IH]; intros w Hw; [by split|].
  simpl.
  destruct (collect_user_info_preserves Q author w Hun Herr Hok Hw) as [Hw1 Hs].
  destruct (collect_user_info clock author w) as [s w1]. simpl in *.
  destruct (IH _ Hw1) as [Hrest Hw2].
  destruct (lookups clock authors w1). simpl in *. by split; [constructor|].
Qed.

Lemma post_record_author_columns post author_info body created_dt captured r :
  post_record post author_info body created_dt captured = Some r ->
  author_columns r = author_info.
Proof.
  unfold post_record. intros H. destruct_reads H. injection H as <-.
  by destruct author_info.
Qed.

Lemma collect_post_data_preserves
    (Q : option string -> UserInfo.t -> Prop) post w :
  (forall k, Q k (UserInfo.unavailable (username_or_error k))) ->
  (forall k, Q k (UserInfo.unavailable "[error]")) ->
  (forall u age lk ck v,
     Q (Some u)
       (UserInfo.Make u (Some age) (Some lk) (Some ck) (Some (lk + ck)%Z) v
          false)) ->
  map_Forall Q (user_info_cache w) ->
  map_Forall Q (user_info_cache (collect_post_data clock post w).2) /\
  (forall r, (collect_post_data clock post w).1 = Some r ->
     exists author, Submission.author post = Some author /\
       answer_for Q author (author_columns r)).
Proof.
  intros Hun Herr Hok Hw. unfold collect_post_data, post_failed.
  destruct (Submission.author post) as [author|]; [|by split].
  destruct (collect_user_info_preserves Q author w Hun Herr Hok Hw) as [Hw1 Hs].
  destruct (collect_user_info clock author w) as [author_info w1]. simpl in *.
  destruct (Submission.created_utc post ≫= fromtimestamp); [|by split].
  simpl. destruct (post_record _ _ _ _ _) as [r|] eqn:Hr; [|by split].
  split; [done|]. intros r' [= <-]. exists author. split; [done|].
  by rewrite (post_record_author_columns _ _ _ _ _ _ Hr).
Qed.

(** Every record of a cohort capture has author columns with a property
    that the unavailable and the freshly fetched snapshots have and the
    cache had to begin with. *)
Lemma cohort_loop_preserves (P : UserInfo.t -> Prop)
    posts i posts_data post_fullnames w :
  (forall name, P (UserInfo.unavailable name)) ->
  (forall u age lk ck v,
     P (UserInfo.Make u (Some age) (Some lk) (Some ck) (Some (lk + ck)%Z) v
          false)) ->
  map_Forall (fun _ => P) (user_info_cache w) ->
  Forall (fun r => P (author_columns r)) posts_data ->
  Forall (fun r => P (author_columns r))
    (cohort_loop clock posts i posts_data post_fullnames w).1.1 /\
  map_Forall (fun _ => P)
    (user_info_cache (cohort_loop clock posts i posts_data post_fullnames w).2).
Proof.
  intros Hun Hok. revert i posts_data post_fullnames w.
  induction posts as [|post posts IH]; intros i recs ids w Hw Hrecs; [done|].
  cbn [cohort_loop].
  set (w0 := if i mod 100 =? 0 then emit (Print (Pass1Progress i)) w else w).
  assert (map_Forall (fun _ => P) (user_info_cache w0)) as Hw0.
  { unfold w0. by destruct (i mod 100 =? 0). }
  destruct (collect_post_data_preserves (fun _ => P) post w0
              (fun _ => Hun _) (fun _ => Hun _) Hok Hw0) as [Hw1 Hr].
  destruct (collect_post_data clock post w0) as [[r|] w1]; simpl in *.
  - apply IH; [done|]. apply Forall_app. split; [done|].
    constructor; [|done].
    destruct (Hr r eq_refl) as (author & _ & Hans).
    by apply (answer_for_any P author).
  - by apply IH.
Qed.

Lemma collect_initial_cohort_preserves (P : UserInfo.t -> Prop)
    subreddit_new subreddit_name limit w :
  (forall name, P (UserInfo.unavailable name)) ->
  (forall u age lk ck v,
     P (UserInfo.Make u (Some age) (Some lk) (Some ck) (Some (lk + ck)%Z) v
          false)) ->
  map_Forall (fun _ => P) (user_info_cache w) ->
  Forall (fun r => P (author_columns r))
    (collect_initial_cohort clock subreddit_new subreddit_name limit w).1.1 /\
  map_Forall (fun _ => P)
    (user_info_cache
       (collect_initial_cohort clock subreddit_new subreddit_name limit w).2).
Proof.
  intros Hun Hok Hw. unfold collect_initial_cohort.
  pose proof (cohort_loop_preserves P (subreddit_new subreddit_name limit) 1
                [] [] (emit (Print (Pass1Collecting subreddit_name)) w)
                Hun Hok Hw (Forall_nil_2 _)) as H.
  by destruct (cohort_loop clock _ 1 [] [] _) as [[recs ids] w1].
Qed.

Lemma karma_sum_unavailable name : karma_sum (UserInfo.unavailable name).
Proof. intros [=]. Qed.

Lemma karma_sum_fetched u age lk ck v :
  karma_sum
    (UserInfo.Make u (Some age) (Some lk) (Some ck) (Some (lk + ck)%Z) v false).
Proof. intros _. split; [by eexists|]. by exists lk, ck. Qed.

Lemma consistent_fetched u age lk ck v :
  consistent
    (UserInfo.Make u (Some age) (Some lk) (Some ck) (Some (lk + ck)%Z) v false).
Proof. split; [done|]. by intros [? _]. Qed.

(** X1. In every Post Record of a cohort capture whose author is
    available, the age and both karma counters are there and the total
    karma is the sum of the link and the comment karma, also when the
    snapshot came from the cache. *)
Theorem available_author_karma_adds_up
    (subreddit_new : string -> nat -> list Submission.t)
    (subreddit_name : string) (limit : nat) (w : world) :
  map_Forall (fun _ => karma_sum) (user_info_cache w) ->
  Forall (fun r => karma_sum (author_columns r))
    (collect_initial_cohort clock subreddit_new subreddit_name limit w).1.1 /\
  map_Forall (fun _ => karma_sum)
    (user_info_cache
       (collect_initial_cohort clock subreddit_new subreddit_name limit w).2).
Proof.
  apply collect_initial_cohort_preserves;
    [apply karma_sum_unavailable | apply karma_sum_fetched].
Qed.

(** X2. The author columns of every Post Record of a cohort capture keep
    the invariant of the snapshots: the author is flagged unavailable if
    and only if the age and the three karma columns are all null. *)
Theorem post_record_author_columns_consistent
    (subreddit_new : string -> nat -> list Submission.t)
    (subreddit_name : string) (limit : nat) (w : world) :
  cache_consistent w ->
  Forall (fun r => consistent (author_columns r))
    (collect_initial_cohort clock subreddit_new subreddit_name limit w).1.1 /\
  cache_consistent
    (collect_initial_cohort clock subreddit_new subreddit_name limit w).2.
Proof.
  apply (collect_initial_cohort_preserves consistent);
    [apply consistent_unavailable | apply consistent_fetched].
Qed.

(** X3. The username of a snapshot is the name of the author it was asked
    for, or [[error]] when the lookup ended in the generic handler or the
    author has no name: a null author and [[deleted]] give [[deleted]], an
    author whose [str] raises gives [[error]], and a named author gives its
    name or [[error]], also on later cache hits. *)
Theorem snapshot_username
    (authors : list (option Redditor.t)) (w : world) :
  map_Forall named_after (user_info_cache w) ->
  Forall2 (answer_for named_after) authors (lookups clock authors w).1 /\
  map_Forall named_after (user_info_cache (lookups clock authors w).2).
Proof.
  apply lookups_preserves.
  - intros [[|c u]|]; simpl; auto.
  - intros [u|]; simpl; auto.
  - intros u age lk ck v. by left.
Qed.

Lemma collect_post_data_keeps post w u x :
  user_info_cache w !! Some u = Some x ->
  user_info_cache (collect_post_data clock post w).2 !! Some u = Some x.
Proof.
  intros Hx. unfold collect_post_data, post_failed.
  destruct (Submission.author post) as [author|]; [|done].
  pose proof (collect_user_info_step clock author w) as Hstep.
  destruct (collect_user_info clock author w) as [author_info w1].
  apply (lookup_step_keeps _ _ _ _ _ _ Hstep) in Hx.
  destruct (Submission.created_utc post ≫= fromtimestamp); [|done].
  simpl. by destruct (post_record _ _ _ _ _).
Qed.

Lemma cohort_loop_keeps posts i posts_data post_fullnames w u x :
  user_info_cache w !! Some u = Some x ->
  user_info_cache (cohort_loop clock posts i posts_data post_fullnames w).2
    !! Some u = Some x.
Proof.
  revert i posts_data post_fullnames w.
  induction posts as [|post posts IH]; intros i recs ids w Hx; [done|].
  cbn [cohort_loop].
  set (w0 := if i mod 100 =? 0 then emit (Print (Pass1Progress i)) w else w).
  assert (user_info_cache w0 !! Some u = Some x) as Hw0.
  { unfold w0. by destruct (i mod 100 =? 0). }
  apply (collect_post_data_keeps post) in Hw0.
  destruct (collect_post_data clock post w0) as [[r|] w1]; by apply IH.
Qed.

(** X4. The cache never evicts and never overwrites within a run: a
    snapshot stored under a username is still stored under it, unchanged,
    after a whole cohort capture. *)
Theorem cache_keeps_named_entries
    (subreddit_new : string -> nat -> list Submission.t)
    (subreddit_name : string) (limit : nat) (w : world)
    (u : string) (x : UserInfo.t) :
  user_info_cache w !! Some u = Some x ->
  user_info_cache
    (collect_initial_cohort clock subreddit_new subreddit_name limit w).2
    !! Some u = Some x.
Proof.
  intros Hx. unfold collect_initial_cohort.
  pose proof (cohort_loop_keeps (subreddit_new subreddit_name limit) 1 [] []
                (emit (Print (Pass1Collecting subreddit_name)) w) u x Hx) as H.
  by destruct (cohort_loop clock _ 1 [] [] _) as [[recs ids] w1].
Qed.

(** X5. A call of [collect_user_info] sleeps exactly when it fetched and
    the fetch gave an available snapshot: a fetch that fails is followed by
    no delay.  Every fetch, failed or not, leaves the returned snapshot in
    the cache under the username fetched. *)
Theorem pacing_iff_fetch_succeeded (author : option Redditor.t) (w : world) :
  let s := (collect_user_info clock author w).1 in
  let w' := (collect_user_info clock author w).2 in
  let new := events_since (trace w) (trace w') in
  (In (Sleep USER_PACING) new <->
   (exists u, In (Fetch u) new) /\ UserInfo.author_unavailable s = false) /\
  (forall u, In (Fetch u) new -> user_info_cache w' !! Some u = Some s).
Proof.
  cbv zeta. pose proof (collect_user_info_step clock author w) as Hstep.
  unfold events_since.
  destruct Hstep as [? ? ->| ? ? ? ? ? ? ->| ? ? ? ? ? [x [->| ->]] -> -> ?
                     | a u ? ? ? ? Hav ? ? ? ? -> ->
                     | ? u ? ? ? ? ? ? [x [->| ->]] -> -> ->];
    rewrite ?drop_all, ?drop_app_length; simpl.
  all: split; [split; [intros Hin|intros [[v Hv] Hav']]|intros v Hv].
  all: repeat match goal with
              | H : _ \/ _ |- _ => destruct H
              | H : False |- _ => destruct H
              end; try discriminate.
  all: simplify_eq; rewrite ?lookup_insert_eq; try done.
  - split; [|done]. exists u. by left.
  - by right; left.
Qed.

(** X6. Dropping a post does not undo the lookup of its author.  Whatever
    [collect_post_data] returns, the cache it leaves is the cache the author
    lookup left, and the cache it was given when the read of [post.author]
    itself raised.  So when that read gives an author whose name is read and
    is not [[deleted]], the cache holds an entry for that name afterwards,
    also for a post that is dropped; and a post whose author is null or
    named [[deleted]] leaves the cache as it was. *)
Theorem dropped_post_still_caches_author (post : Submission.t) (w : world) :
  user_info_cache (collect_post_data clock post w).2 =
    match Submission.author post with
    | Some author => user_info_cache (collect_user_info clock author w).2
    | None => user_info_cache w
    end /\
  (forall a u,
     Submission.author post = Some (Some a) -> Redditor.str a = inr u ->
     u <> "[deleted]"%string ->
     is_Some (user_info_cache (collect_post_data clock post w).2 !! Some u)) /\
  (forall author,
     Submission.author post = Some author -> deleted_author author ->
     user_info_cache (collect_post_data clock post w).2 = user_info_cache w).
Proof.
  assert (Hcache :
    user_info_cache (collect_post_data clock post w).2 =
    match Submission.author post with
    | Some author => user_info_cache (collect_user_info clock author w).2
    | None => user_info_cache w
    end).
  { unfold collect_post_data, post_failed.
    destruct (Submission.author post) as [author|]; [|done].
    destruct (collect_user_info clock author w) as [author_info w1].
    destruct (Submission.created_utc post ≫= fromtimestamp); [|done].
    simpl. by destruct (post_record _ _ _ _ _). }
  split; [exact Hcache|]. split.
  - intros a u Hauthor Hstr Hu. rewrite Hcache, Hauthor.
    pose proof (collect_user_info_step clock (Some a) w) as Hstep.
    destruct (collect_user_info clock (Some a) w) as [author_info w1].
    pose proof (lookup_step_stores _ _ _ _ _ Hstep Hstr Hu) as Hs.
    by eexists.
  - intros author Hauthor Hdel. rewrite Hcache, Hauthor.
    by rewrite (collect_user_info_deleted clock author w Hdel).
Qed.

(** The outcome of [collect_post_data] in terms of the attribute reads of
    the post, whatever the world and the clock. *)
Lemma post_recorded_readable_iff clock' (post : Submission.t) (w' : world) :
  is_Some (collect_post_data clock' post w').1 <-> readable post.
Proof.
  unfold readable, collect_post_data, post_failed, post_record.
  destruct (Submission.author post) as [author|]; simpl.
  2:{ split; [by intros []|by intros [[] _]]. }
  destruct (collect_user_info clock' author w') as [author_info w1].
  destruct (Submission.created_utc post ≫= fromtimestamp); simpl.
  2:{ split; [by intros []|by intros (_ & [] & _)]. }
  destruct (Submission.subreddit post), (Submission.title post),
    (Submission.domain post), (Submission.score post),
    (Submission.num_comments post), (Submission.upvote_ratio post),
    (Submission.link_flair_text post); simpl;
    (split; [intros [? ?]; try discriminate; by repeat split; eexists
            |intros (_ & _ & H1 & H2 & H3 & H4 & H5 & H6 & H7);
             first [by apply is_Some_None in H1|by apply is_Some_None in H2
                   |by apply is_Some_None in H3|by apply is_Some_None in H4
                   |by apply is_Some_None in H5|by apply is_Some_None in H6
                   |by apply is_Some_None in H7|by eexists]]).
Qed.

(** X7. [collect_post_data] returns a record only for a post none of whose
    attribute reads raises and whose creation time is a [datetime]; and
    whether it returns a record or drops the post depends neither on the
    cache, nor on the clock, nor on who the author is or how the author
    lookup ends, once the read of [post.author] itself succeeds. *)
Theorem post_recorded_only_if_readable (post : Submission.t) (w : world) :
  (is_Some (collect_post_data clock post w).1 -> readable post) /\
  (forall (clock' : nat -> datetime) (w' : world)
          (author author' : option Redditor.t),
     is_Some (collect_post_data clock (with_author post author) w).1 <->
     is_Some (collect_post_data clock' (with_author post author') w').1).
Proof.
  split.
  - apply post_recorded_readable_iff.
  - intros clock' w' author author'.
    rewrite !post_recorded_readable_iff. unfold readable. simpl.
    split; intros (_ & H); (split; [by eexists|exact H]).
Qed.

End user_info_invariants.

Section cohort_trace_properties.
Import collect_data.
Variable clock : nat -> datetime.

Lemma substring_0_length n s :
  String.length (String.substring 0 n s) = min n (String.length s).
Proof.
  revert s. induction n as [|n IH]; intros [|c s]; simpl; try done.
  by rewrite IH.
Qed.

Lemma substring_0_prefix n s :
  exists rest, s = String.append (String.substring 0 n s) rest.
Proof.
  revert s. induction n as [|n IH]; intros [|c s]; simpl.
  - by exists EmptyString.
  - by exists (String c s).
  - by exists EmptyString.
  - destruct (IH s) as [rest Hrest]. exists rest.
    change (String c s = String c (String.append (String.substring 0 n s) rest)).
    by f_equal.
Qed.

Lemma substring_0_short n s :
  String.length s <= n -> String.substring 0 n s = s.
Proof.
  revert s. induction n as [|n IH]; intros [|c s]; simpl; try done.
  - lia.
  - intros Hlen. rewrite IH; [done|lia].
Qed.

Lemma collect_post_data_record post w r :
  (collect_post_data clock post w).1 = Some r ->
  PostData.post_fullname r = Submission.fullname post /\
  PostData.selftext r = truncate_body (Submission.selftext post).
Proof.
  unfold collect_post_data, post_failed.
  destruct (Submission.author post) as [author|]; [|discriminate].
  destruct (collect_user_info clock author w) as [author_info w1].
  destruct (Submission.created_utc post ≫= fromtimestamp); [|discriminate].
  simpl. destruct (post_record _ _ _ _ _) as [r'|] eqn:Hr; [|discriminate].
  intros [= ->]. unfold post_record in Hr. destruct_reads Hr.
  by injection Hr as <-.
Qed.

(** X8. The [selftext] of a Post Record is the first 500 characters of the
    post's body: a prefix of the body, of length [min 500 (len body)], the
    body itself when it has at most 500 characters, and the empty string
    when the post has no body. *)
Theorem selftext_truncated_to_500
    (post : Submission.t) (w : world) (r : PostData.t) :
  (collect_post_data clock post w).1 = Some r ->
  String.length (PostData.selftext r) <= 500 /\
  match Submission.selftext post with
  | None => PostData.selftext r = EmptyString
  | Some body =>
    (exists rest, body = String.append (PostData.selftext r) rest) /\
    String.length (PostData.selftext r) = min 500 (String.length body) /\
    (String.length body <= 500 -> PostData.selftext r = body)
  end.
Proof.
  intros [_ ->]%collect_post_data_record. unfold truncate_body.
  destruct (Submission.selftext post) as [body|]; simpl; [|split; [lia|done]].
  rewrite substring_0_length. split; [lia|].
  split; [apply substring_0_prefix|]. split; [done|].
  apply substring_0_short.
Qed.

(** The events of one call of [collect_user_info]. *)
Lemma lookup_step_user_events author w s w' :
  lookup_step author w s w' ->
  exists ev, trace w' = trace w ++ ev /\
    forallb is_user_event ev = true /\
    length (fetched ev) <= 1 /\
    length (List.filter is_sleep ev) <= length (fetched ev).
Proof.
  intros [? ? ->| ? ? ? ? ? ? ->| ? ? ? ? ? [x [->| ->]] ? -> ?
          | ? u ? ? ? ? ? ? ? ? ? -> ?
          | ? u ? ? ? ? ? ? [x [->| ->]] ? -> ?].
  1-2: exists []; rewrite app_nil_r; simpl; repeat split; (done || lia).
  all: eexists; (split; [done|]); simpl; repeat split; (done || lia).
Qed.

(** The events of one call of [collect_post_data]: those of the author
    lookup, then the error line when the post is dropped. *)
Lemma collect_post_data_events post w :
  exists ev,
    trace (collect_post_data clock post w).2 =
      trace w ++ ev ++
      match (collect_post_data clock post w).1 with
      | None => [Print (PostError (Submission.id post))]
      | Some _ => []
      end /\
    forallb is_user_event ev = true /\
    length (fetched ev) <= 1 /\
    length (List.filter is_sleep ev) <= length (fetched ev).
Proof.
  unfold collect_post_data, post_failed.
  destruct (Submission.author post) as [author|].
  2:{ exists []. simpl. repeat split; (done || lia). }
  pose proof (collect_user_info_step clock author w) as Hstep.
  destruct (collect_user_info clock author w) as [author_info w1].
  apply lookup_step_user_events in Hstep as (ev & Htr & Hev).
  exists ev. split; [|done]. simpl in Htr.
  destruct (Submission.created_utc post ≫= fromtimestamp); simpl;
    [|by rewrite Htr, <- app_assoc].
  destruct (post_record _ _ _ _ _); simpl; rewrite Htr, <- ?app_assoc;
    by rewrite ?app_nil_r.
Qed.

Lemma user_events_filters ev :
  forallb is_user_event ev = true ->
  List.filter is_post_error ev = [] /\ List.filter is_progress ev = [].
Proof.
  induction ev as [|e ev IH]; [done|]. simpl.
  intros [He Hev]%andb_prop. destruct (IH Hev) as [-> ->].
  by destruct e as [| | |[]].
Qed.

(** The events of the loop of [collect_initial_cohort]. *)
Lemma cohort_loop_events posts i posts_data post_fullnames w :
  let out := cohort_loop clock posts i posts_data post_fullnames w in
  exists ev,
    trace out.2 = trace w ++ ev /\
    length out.1.1 + length (List.filter is_post_error ev) =
      length posts_data + length posts /\
    List.filter is_progress ev =
      map (fun j => Print (Pass1Progress j))
        (List.filter (fun j => j mod 100 =? 0) (seq i (length posts))) /\
    length (fetched ev) <= length posts /\
    length (List.filter is_sleep ev) <= length (fetched ev).
Proof.
  cbv zeta. revert i posts_data post_fullnames w.
  induction posts as [|post posts IH]; intros i recs ids w.
  { exists []. simpl. rewrite app_nil_r. repeat split; auto. }
  cbn [cohort_loop length seq List.filter].
  set (w0 := if i mod 100 =? 0 then emit (Print (Pass1Progress i)) w else w).
  assert (exists ev0, trace w0 = trace w ++ ev0 /\
            List.filter is_post_error ev0 = [] /\
            List.filter is_progress ev0 =
              map (fun j => Print (Pass1Progress j))
                (if i mod 100 =? 0 then [i] else []) /\
            fetched ev0 = [] /\ List.filter is_sleep ev0 = [])
    as (ev0 & Hw0 & He0 & Hp0 & Hf0 & Hs0).
  { unfold w0. destruct (i mod 100 =? 0).
    - by exists [Print (Pass1Progress i)].
    - exists []. by rewrite app_nil_r. }
  destruct (collect_post_data_events post w0) as (ev1 & Hw1 & Hu1 & Hf1 & Hs1).
  destruct (user_events_filters ev1 Hu1) as [He1 Hp1].
  destruct (collect_post_data clock post w0) as [[r|] w1];
    cbn [fst snd] in Hw1.
  - destruct (IH (S i) (recs ++ [r])
                (ids ++ [PostData.post_fullname r]) w1)
      as (ev & Htr & Hacc & Hprog & Hfetch & Hsleep).
    exists (ev0 ++ ev1 ++ ev).
    rewrite Htr, Hw1, Hw0, app_nil_r, <- !app_assoc.
    rewrite !List.filter_app, !fetched_app, He0, He1, Hp0, Hp1, Hf0, Hs0, Hprog.
    rewrite length_app in Hacc. cbn [length app] in *.
    rewrite ?length_app.
    split; [done|]. split; [lia|]. split; [|lia].
    by destruct (i mod 100 =? 0).
  - destruct (IH (S i) recs ids w1)
      as (ev & Htr & Hacc & Hprog & Hfetch & Hsleep).
    exists (ev0 ++ ev1 ++ [Print (PostError (Submission.id post))] ++ ev).
    rewrite Htr, Hw1, Hw0, <- !app_assoc.
    rewrite !List.filter_app, !fetched_app, He0, He1, Hp0, Hp1, Hf0, Hs0, Hprog.
    cbn [length app List.filter fetched is_post_error is_progress is_sleep]
      in *.
    rewrite ?length_app. cbn [length].
    split; [done|]. split; [lia|]. split; [|lia].
    by destruct (i mod 100 =? 0).
Qed.

Lemma collect_initial_cohort_events subreddit_new subreddit_name limit w :
  let out := collect_initial_cohort clock subreddit_new subreddit_name limit w in
  let posts := subreddit_new subreddit_name limit in
  exists ev,
    events_since (trace w) (trace out.2) =
      Print (Pass1Collecting subreddit_name) :: ev ++
      [Print (Pass1Collected (length out.1.1) subreddit_name)] /\
    length out.1.1 + length (List.filter is_post_error ev) = length posts /\
    List.filter is_progress ev =
      map (fun j => Print (Pass1Progress j))
        (List.filter (fun j => j mod 100 =? 0) (seq 1 (length posts))) /\
    length (fetched ev) <= length posts /\
    length (List.filter is_sleep ev) <= length (fetched ev).
Proof.
  cbv zeta. unfold collect_initial_cohort.
  destruct (cohort_loop_events (subreddit_new subreddit_name limit) 1 [] []
              (emit (Print (Pass1Collecting subreddit_name)) w))
    as (ev & Htr & Hrest).
  destruct (cohort_loop clock _ 1 [] [] _) as [[recs ids] w1].
  cbn [fst snd emit trace] in *. exists ev. split; [|done].
  rewrite Htr, <- !app_assoc. apply events_since_app.
Qed.

Lemma count_multiples n :
  length (List.filter (fun j => j mod 100 =? 0) (seq 1 n)) = n / 100.
Proof.
  induction n as [|n IH]; [done|].
  rewrite seq_S, List.filter_app, length_app, IH.
  cbn [List.filter]. replace (1 + n) with (S n) by done.
  pose proof (Nat.div_mod_eq n 100) as Hn.
  pose proof (Nat.div_mod_eq (S n) 100) as HSn.
  pose proof (Nat.mod_upper_bound n 100) as Hr.
  pose proof (Nat.mod_upper_bound (S n) 100) as HSr.
  destruct (Nat.eqb_spec (S n mod 100) 0) as [H0|H0]; cbn [length]; lia.
Qed.

Lemma attempts_sublist posts i w :
  sublist (map PostData.post_fullname (omap id (attempts clock posts i w)))
    (map Submission.fullname posts).
Proof.
  revert i w. induction posts as [|post posts IH]; intros i w; [constructor|].
  cbn [attempts map].
  set (w0 := if i mod 100 =? 0 then emit (Print (Pass1Progress i)) w else w).
  pose proof (collect_post_data_record post w0) as Hrec.
  destruct (collect_post_data clock post w0) as [[r|] w1]; cbn [omap map].
  - destruct (Hrec r eq_refl) as [Hfn _]. simpl. rewrite Hfn.
    apply sublist_skip, IH.
  - apply sublist_cons, IH.
Qed.

(** X9. Every post of the stream is accounted for: the number of records
    returned plus the number of error lines printed is the number of posts
    the listing yielded, and the closing line reports the number of
    records. *)
Theorem every_post_recorded_or_reported
    (subreddit_new : string -> nat -> list Submission.t)
    (subreddit_name : string) (limit : nat) (w : world) :
  let out := collect_initial_cohort clock subreddit_new subreddit_name limit w in
  let new := events_since (trace w) (trace out.2) in
  length out.1.1 + length (List.filter is_post_error new) =
    length (subreddit_new subreddit_name limit) /\
  last new = Some (Print (Pass1Collected (length out.1.1) subreddit_name)).
Proof.
  cbv zeta.
  destruct (collect_initial_cohort_events subreddit_new subreddit_name limit w)
    as (ev & -> & Hacc & _).
  split.
  - cbn [List.filter is_post_error]. by rewrite List.filter_app, app_nil_r.
  - by rewrite app_comm_cons, last_snoc.
Qed.

(** X10. The progress line is printed when the counter of the loop reaches
    a multiple of 100, and only then: for a stream of [n] posts the progress
    lines are those of 100, 200, ... up to [n], [n / 100] lines in all. *)
Theorem progress_every_hundred_posts
    (subreddit_new : string -> nat -> list Submission.t)
    (subreddit_name : string) (limit : nat) (w : world) :
  let out := collect_initial_cohort clock subreddit_new subreddit_name limit w in
  let new := events_since (trace w) (trace out.2) in
  let n := length (subreddit_new subreddit_name limit) in
  List.filter is_progress new =
    map (fun j => Print (Pass1Progress j))
      (List.filter (fun j => j mod 100 =? 0) (seq 1 n)) /\
  length (List.filter is_progress new) = n / 100.
Proof.
  cbv zeta.
  destruct (collect_initial_cohort_events subreddit_new subreddit_name limit w)
    as (ev & -> & _ & Hprog & _).
  assert (List.filter is_progress
            (Print (Pass1Collecting subreddit_name) :: ev ++
             [Print (Pass1Collected
                (length (collect_initial_cohort clock subreddit_new
                           subreddit_name limit w).1.1) subreddit_name)]) =
          List.filter is_progress ev) as ->.
  { cbn [List.filter is_progress]. by rewrite List.filter_app, app_nil_r. }
  rewrite Hprog. split; [done|]. by rewrite length_map, count_multiples.
Qed.

(** X11. A cohort capture fetches at most one profile per post of the
    stream and sleeps at most once per fetch. *)
Theorem at_most_one_fetch_per_post
    (subreddit_new : string -> nat -> list Submission.t)
    (subreddit_name : string) (limit : nat) (w : world) :
  let out := collect_initial_cohort clock subreddit_new subreddit_name limit w in
  let new := events_since (trace w) (trace out.2) in
  length (fetched new) <= length (subreddit_new subreddit_name limit) /\
  length (List.filter is_sleep new) <= length (fetched new).
Proof.
  cbv zeta.
  destruct (collect_initial_cohort_events subreddit_new subreddit_name limit w)
    as (ev & -> & _ & _ & Hfetch & Hsleep).
  cbn [fetched List.filter is_sleep].
  rewrite fetched_app, List.filter_app. cbn [fetched List.filter is_sleep].
  by rewrite !app_nil_r.
Qed.

(** X12. The identifiers a cohort capture returns are a subsequence of the
    fullnames of the stream, in the order of the stream; so they are
    pairwise distinct when the stream yields no post twice. *)
Theorem identifiers_subsequence_of_stream
    (subreddit_new : string -> nat -> list Submission.t)
    (subreddit_name : string) (limit : nat) (w : world) :
  let out := collect_initial_cohort clock subreddit_new subreddit_name limit w in
  let fullnames := map Submission.fullname (subreddit_new subreddit_name limit) in
  sublist out.1.2 fullnames /\
  (NoDup fullnames -> NoDup out.1.2).
Proof.
  cbv zeta.
  assert (sublist
            (collect_initial_cohort clock subreddit_new subreddit_name limit
               w).1.2
            (map Submission.fullname (subreddit_new subreddit_name limit)))
    as Hsub.
  { unfold collect_initial_cohort.
    pose proof (cohort_loop_attempts clock
                  (subreddit_new subreddit_name limit) 1 [] []
                  (emit (Print (Pass1Collecting subreddit_name)) w)) as H.
    cbv zeta in H.
    destruct (cohort_loop clock _ 1 [] [] _) as [[recs ids] w1].
    cbn [fst snd app] in *. injection H as -> ->. apply attempts_sublist. }
  split; [done|]. intros Hnd. by eapply sublist_NoDup.
Qed.

End cohort_trace_properties.

(** * Further properties of Pass 2 *)

Section status_map_properties.
Import collect_data_2.
Variable clock : nat -> datetime.
Variable reddit_info : nat -> list string -> attr (list Submission.t).

Lemma slice_subset (ids : list string) i x : In x (slice ids i) -> In x ids.
Proof.
  intros (a & _ & Ha)%slice_lookup.
  by apply list_elem_of_lookup_2, list_elem_of_In in Ha.
Qed.

Lemma in_some_slice (ids : list string) x :
  In x ids ->
  exists k, k < ceil_div (length ids) BATCH_SIZE /\
            In x (slice ids (k * BATCH_SIZE)).
Proof.
  intros Hx.
  assert (concat (map (fun k => slice ids (k * BATCH_SIZE))
                    (seq 0 (ceil_div (length ids) BATCH_SIZE))) = ids) as Hcat.
  { rewrite slices_take. apply take_ge.
    apply (ceil_div_bounds (length ids) BATCH_SIZE). unfold BATCH_SIZE. lia. }
  rewrite <- Hcat in Hx. apply in_concat in Hx as (b & Hb & Hxb).
  apply in_map_iff in Hb as (k & <- & Hk). apply in_seq in Hk.
  exists k. split; [lia|done].
Qed.

(** The keys of the result are among the identifiers asked about. *)
Lemma status_keys_in_ids ids w id :
  faithful reddit_info ->
  is_Some ((get_final_post_status clock reddit_info ids w).1 !! id) ->
  In id ids.
Proof.
  intros Hfaith [s Hs].
  pose proof (get_final_post_status_spec clock reddit_info ids w)
    as (_ & _ & Hp & _).
  apply Hp in Hs as (j & posts & p & t & _ & Hr & Hin & <- & _).
  eapply slice_subset, Hfaith; eauto.
Qed.

(** No identifier of a batch whose lookup raised is a key of the result. *)
Lemma failed_batch_absent ids w k id :
  NoDup ids -> faithful reddit_info ->
  reddit_info (info_calls w + k) (slice ids (k * BATCH_SIZE)) = None ->
  In id (slice ids (k * BATCH_SIZE)) ->
  (get_final_post_status clock reddit_info ids w).1 !! id = None.
Proof.
  intros Hnd Hfaith Hfail Hid.
  pose proof (get_final_post_status_spec clock reddit_info ids w)
    as (_ & _ & Hp & _).
  destruct (_ !! id) as [s|] eqn:Hm; [|done]. exfalso.
  apply Hp in Hm as (j & posts & p & t & Hj & Hr & Hin & Hfn & _).
  assert (j = k) as ->; [|congruence].
  apply (slices_disjoint ids j k id); [done| |done].
  rewrite <- Hfn. by eapply Hfaith.
Qed.

(** X13. With a bulk lookup that answers about the identifiers it was asked
    about, every key of the status mapping is one of the identifiers passed
    in, so the mapping has at most as many entries as there are
    identifiers. *)
Theorem status_keys_among_identifiers (post_fullnames : list string) (w : world) :
  faithful reddit_info ->
  let status_map := (get_final_post_status clock reddit_info post_fullnames w).1 in
  (forall id, is_Some (status_map !! id) -> In id post_fullnames) /\
  size status_map <= length post_fullnames.
Proof.
  intros Hfaith. cbv zeta.
  set (m := (get_final_post_status clock reddit_info post_fullnames w).1).
  assert (forall id, is_Some (m !! id) -> In id post_fullnames) as Hkeys.
  { intros id. by apply status_keys_in_ids. }
  split; [done|].
  rewrite <- length_map_to_list, <- (length_fmap fst).
  apply submseteq_length, NoDup_submseteq; [apply NoDup_fst_map_to_list|].
  intros id ([id' s] & -> & Hin)%list_elem_of_fmap.
  apply elem_of_map_to_list in Hin. apply list_elem_of_In, Hkeys. by eexists.
Qed.

(** What the flags of a status record say about the post. *)
Lemma status_of_definitions post t s :
  status_of post t = Some s ->
  Submission.removed_by_category post = Some (Status.removed_by_category s) /\
  (Status.is_removed_official s = true <-> Status.removed_by_category s <> None) /\
  (Status.is_removed_content s = true <->
   Submission.selftext post = Some "[removed]"%string \/
   Submission.title post = Some "[removed]"%string) /\
  (Status.is_deleted_content s = true <->
   Submission.selftext post = Some "[deleted]"%string) /\
  (Status.is_deleted_author s = true <->
   Submission.author post = Some None \/
   exists a, Submission.author post = Some (Some a) /\
             Redditor.str a = inr "[deleted]"%string).
Proof.
  unfold status_of. intros H.
  destruct (Submission.removed_by_category post) as [category|] eqn:Hcat;
    simpl in H; [|discriminate].
  assert (forall literal : string,
    body_is (Submission.selftext post) literal = true <->
    Submission.selftext post = Some literal) as Hbody.
  { intros literal. unfold body_is.
    destruct (Submission.selftext post) as [b|]; [|by split].
    destruct (String.eqb_spec b literal) as [->|Hne]; [by split|].
    split; [done|]. by intros [= ->]. }
  destruct (body_is (Submission.selftext post) "[removed]") eqn:Hrem;
    simpl in H.
  - destruct (Submission.author post) as [[a|]|] eqn:Hauthor; simpl in H;
      [| |discriminate].
    + destruct (Redditor.str a) as [e|name] eqn:Hstr; simpl in H;
        [discriminate|].
      destruct_reads H. injection H as <-. simpl.
      split; [done|]. split; [by rewrite bool_decide_eq_true|].
      split; [split; [intros _; left; by apply Hbody|done]|].
      split; [apply Hbody|].
      destruct (String.eqb_spec name "[deleted]") as [->|Hne].
      * split; [|done]. intros _. right. by exists a.
      * split; [done|]. intros [[=]|(a' & [= <-] & Ha')]. congruence.
    + destruct_reads H. injection H as <-. simpl.
      split; [done|]. split; [by rewrite bool_decide_eq_true|].
      split; [split; [intros _; left; by apply Hbody|done]|].
      split; [apply Hbody|]. split; [by left|done].
  - destruct (Submission.title post) as [title|] eqn:Htitle; simpl in H;
      [|discriminate].
    assert ((title =? "[removed]")%string = true <->
            Submission.selftext post = Some "[removed]"%string \/
            Some title = Some "[removed]"%string) as Htitle'.
    { destruct (String.eqb_spec title "[removed]") as [->|Hne].
      - split; [by right|done].
      - split; [done|]. intros [Hb|[= ->]]; [|done].
        apply Hbody in Hb. congruence. }
    destruct (Submission.author post) as [[a|]|] eqn:Hauthor; simpl in H;
      [| |discriminate].
    + destruct (Redditor.str a) as [e|name] eqn:Hstr; simpl in H;
        [discriminate|].
      destruct_reads H. injection H as <-. simpl.
      split; [done|]. split; [by rewrite bool_decide_eq_true|].
      split; [done|]. split; [apply Hbody|].
      destruct (String.eqb_spec name "[deleted]") as [->|Hne].
      * split; [|done]. intros _. right. by exists a.
      * split; [done|]. intros [[=]|(a' & [= <-] & Ha')]. congruence.
    + destruct_reads H. injection H as <-. simpl.
      split; [done|]. split; [by rewrite bool_decide_eq_true|].
      split; [done|]. split; [apply Hbody|]. split; [by left|done].
Qed.

(** X14. Every entry of the status mapping is the status of a post that
    the answer to one of the run's requests yielded under its identifier,
    and its flags say what the source computes from that post:
    [is_removed_official] exactly when the stored removal category is not
    null, the stored category being the post's; [is_removed_content]
    exactly when the body or the title is [[removed]]; [is_deleted_content]
    exactly when the body is [[deleted]]; [is_deleted_author] exactly when
    the author is null or is named [[deleted]]. *)
Theorem status_flags_meaning
    (post_fullnames : list string) (w : world) (id : string) (s : Status.t) :
  (get_final_post_status clock reddit_info post_fullnames w).1 !! id = Some s ->
  (Status.is_removed_official s = true <-> Status.removed_by_category s <> None) /\
  exists post,
    Submission.fullname post = id /\
    (exists j posts t,
       j < ceil_div (length post_fullnames) BATCH_SIZE /\
       reddit_info (info_calls w + j)
         (slice post_fullnames (j * BATCH_SIZE)) = Some posts /\
       In post posts /\ status_of post t = Some s) /\
    Submission.removed_by_category post = Some (Status.removed_by_category s) /\
    (Status.is_removed_content s = true <->
     Submission.selftext post = Some "[removed]"%string \/
     Submission.title post = Some "[removed]"%string) /\
    (Status.is_deleted_content s = true <->
     Submission.selftext post = Some "[deleted]"%string) /\
    (Status.is_deleted_author s = true <->
     Submission.author post = Some None \/
     exists a, Submission.author post = Some (Some a) /\
               Redditor.str a = inr "[deleted]"%string).
Proof.
  intros Hs.
  pose proof (get_final_post_status_spec clock reddit_info post_fullnames w)
    as (_ & _ & Hp & _).
  apply Hp in Hs as (j & posts & p & t & Hj & Hr & Hin & Hid & Hst).
  destruct (status_of_definitions _ _ _ Hst) as (Hcat & Hoff & Hrest).
  split; [done|]. exists p. split; [done|]. split; [|done].
  by exists j, posts, t.
Qed.

Lemma run_events_all_fail ids starts call :
  (forall j i, starts !! j = Some i ->
     reddit_info (call + j) (slice ids i) = None) ->
  List.filter is_sleep (run_events reddit_info ids starts call) = [] /\
  length (List.filter is_batch_error (run_events reddit_info ids starts call)) =
    length starts.
Proof.
  revert call. induction starts as [|i starts IH]; intros call Hall; [done|].
  cbn [run_events]. rewrite !List.filter_app.
  pose proof (Hall 0 i eq_refl) as H0. rewrite Nat.add_0_r in H0.
  destruct (IH (S call)) as [Hs He].
  { intros j i' Hj. specialize (Hall (S j) i' Hj).
    by replace (S call + j) with (call + S j) by lia. }
  unfold batch_events. rewrite H0, Hs. simpl. by rewrite He.
Qed.

Lemma run_events_all_complete ids starts call :
  (forall j i, starts !! j = Some i ->
     completes (reddit_info (call + j) (slice ids i)) = true) ->
  List.filter is_batch_error (run_events reddit_info ids starts call) = [].
Proof.
  revert call. induction starts as [|i starts IH]; intros call Hall; [done|].
  cbn [run_events]. rewrite !List.filter_app.
  pose proof (Hall 0 i eq_refl) as H0. rewrite Nat.add_0_r in H0.
  rewrite IH.
  - unfold batch_events. rewrite H0. by destruct (_ <? _).
  - intros j i' Hj. specialize (Hall (S j) i' Hj).
    by replace (S call + j) with (call + S j) by lia.
Qed.

(** X15. When every batch completes and the bulk lookup yields a post for
    each identifier it is asked about, every identifier passed in is a key
    of the status mapping and no error line is printed. *)
Theorem all_identifiers_resolved (post_fullnames : list string) (w : world) :
  (forall k, k < ceil_div (length post_fullnames) BATCH_SIZE ->
     exists posts,
       reddit_info (info_calls w + k)
         (slice post_fullnames (k * BATCH_SIZE)) = Some posts /\
       completes (Some posts) = true /\
       forall id, In id (slice post_fullnames (k * BATCH_SIZE)) ->
         exists p, In p posts /\ Submission.fullname p = id) ->
  let out := get_final_post_status clock reddit_info post_fullnames w in
  (forall id, In id post_fullnames -> is_Some (out.1 !! id)) /\
  List.filter is_batch_error (events_since (trace w) (trace out.2)) = [].
Proof.
  intros Hall. cbv zeta.
  pose proof (get_final_post_status_spec clock reddit_info post_fullnames w)
    as (Hnew & _ & _ & Hs).
  split.
  - intros id (k & Hk & Hid)%in_some_slice.
    destruct (Hall k Hk) as (posts & Hr & Hc & Hans).
    destruct (Hans id Hid) as (p & Hp & <-). by eapply Hs.
  - rewrite Hnew. cbn [List.filter is_batch_error].
    rewrite List.filter_app, run_events_all_complete; [done|].
    intros j i [-> Hj]%starts_lookup_inv.
    destruct (Hall j Hj) as (posts & -> & Hc & _). done.
Qed.

(** X16. When the bulk lookup raises for every batch, the status mapping is
    empty, an error line is printed for each of the [ceil(n / 100)] batches
    and the call never sleeps. *)
Theorem all_batches_failed (post_fullnames : list string) (w : world) :
  (forall k, k < ceil_div (length post_fullnames) BATCH_SIZE ->
     reddit_info (info_calls w + k)
       (slice post_fullnames (k * BATCH_SIZE)) = None) ->
  let out := get_final_post_status clock reddit_info post_fullnames w in
  let new := events_since (trace w) (trace out.2) in
  out.1 = ∅ /\
  List.filter is_sleep new = [] /\
  length (List.filter is_batch_error new) =
    ceil_div (length post_fullnames) BATCH_SIZE.
Proof.
  intros Hall. cbv zeta.
  pose proof (get_final_post_status_spec clock reddit_info post_fullnames w)
    as (Hnew & _ & Hp & _).
  split.
  - apply map_empty. intros id.
    destruct (_ !! id) as [s|] eqn:Hm; [|done].
    apply Hp in Hm as (j & posts & p & t & Hj & Hr & _).
    rewrite (Hall j Hj) in Hr. discriminate.
  - rewrite Hnew. cbn [List.filter is_sleep is_batch_error].
    rewrite !List.filter_app. cbn [List.filter is_sleep is_batch_error].
    rewrite !app_nil_r.
    destruct (run_events_all_fail post_fullnames
                (py_range 0 (length post_fullnames) BATCH_SIZE) (info_calls w))
      as [Hs He].
    + intros j i [-> Hj]%starts_lookup_inv. by apply Hall.
    + split; [done|]. rewrite He.
      rewrite py_range_spec by (unfold BATCH_SIZE; lia).
      by rewrite length_map, length_seq.
Qed.

(** X17. In the table lines 111-118 build, a Pass 1 row stays unresolved,
    with null final-state fields, when its identifier is not among the
    identifiers re-checked or belongs to a batch whose lookup raised (the
    identifiers being distinct and the lookup answering about what it was
    asked). *)
Theorem unresolved_rows_have_null_status
    (df : list PostData.t) (post_fullnames : list string) (w : world)
    (i : nat) (row : PostData.t) :
  NoDup post_fullnames -> faithful reddit_info ->
  df !! i = Some row ->
  (~ In (PostData.post_fullname row) post_fullnames \/
   exists k,
     reddit_info (info_calls w + k)
       (slice post_fullnames (k * BATCH_SIZE)) = None /\
     In (PostData.post_fullname row) (slice post_fullnames (k * BATCH_SIZE))) ->
  (recheck_script.recheck clock reddit_info df post_fullnames w).1 !! i =
    Some (Combined.Make row None).
Proof.
  intros Hnd Hfaith Hrow Hwhy. unfold recheck_script.recheck.
  assert ((get_final_post_status clock reddit_info post_fullnames w).1
            !! PostData.post_fullname row = None) as Hnone.
  { destruct Hwhy as [Hnot|(k & Hfail & Hin)].
    - destruct (_ !! PostData.post_fullname row) eqn:Hm; [|done].
      destruct Hnot. eapply status_keys_in_ids; [done|]. by rewrite Hm.
    - by eapply failed_batch_absent. }
  destruct (get_final_post_status clock reddit_info post_fullnames w)
    as [status_data w1]. cbn [fst snd] in *.
  rewrite join_rows. change (map ?f ?l) with (f <$> l).
  rewrite list_lookup_fmap, Hrow. simpl. by rewrite Hnone.
Qed.

End status_map_properties.

(** * Properties of the scripts *)

Lemma max_by_split (key : string -> Z) best rest :
  exists before after,
    best :: rest = before ++ max_by key best rest :: after /\
    Forall (fun f => (key f < key (max_by key best rest))%Z) before /\
    Forall (fun f => (key f <= key (max_by key best rest))%Z) after.
Proof.
  revert best. induction rest as [|f rest IH]; intros best.
  { exists [], []. by repeat split. }
  cbn [max_by]. destruct (Z.ltb_spec (key best) (key f)) as [Hlt|Hge].
  - destruct (IH f) as (before & after & Heq & Hb & Ha).
    exists (best :: before), after. rewrite Heq. split; [done|].
    split; [|done]. constructor; [|done].
    assert (In f (before ++ max_by key f rest :: after)) as Hf.
    { rewrite <- Heq. by left. }
    apply in_app_or in Hf as [Hf|[Hf|Hf]].
    + rewrite Forall_forall in Hb. apply list_elem_of_In, Hb in Hf. lia.
    + rewrite Hf. lia.
    + rewrite Forall_forall in Ha. apply list_elem_of_In, Ha in Hf. lia.
  - destruct (IH best) as (before & after & Heq & Hb & Ha).
    destruct before as [|b before]; simpl in Heq.
    + injection Heq as Hbest ->. exists [], (f :: after).
      rewrite <- Hbest in Ha |- *. split; [done|]. split; [done|].
      constructor; [lia|exact Ha].
    + injection Heq as <- Hrest. exists (best :: f :: before), after.
      split; [simpl; by do 2 f_equal|]. split; [|done].
      apply Forall_cons in Hb as [Hbest Hb].
      constructor; [done|]. constructor; [lia|done].
Qed.

(** X18. The file the re-check takes as "the latest" among the matches of
    a pattern is one of the matches, no match has a later creation time,
    and among several matches with the latest creation time it is the first
    that [glob] lists. *)
Theorem latest_file_is_first_newest (getctime : string -> Z)
    (f : string) (files : list string) :
  let latest := max_by getctime f files in
  In latest (f :: files) /\
  (forall g, In g (f :: files) -> (getctime g <= getctime latest)%Z) /\
  exists before after,
    f :: files = before ++ latest :: after /\
    Forall (fun g => (getctime g < getctime latest)%Z) before.
Proof.
  cbv zeta. destruct (max_by_split getctime f files)
    as (before & after & Heq & Hb & Ha).
  split; [|split].
  - rewrite Heq. apply in_or_app. right. by left.
  - intros g. rewrite Heq. intros [Hg|[<-|Hg]]%in_app_or.
    + rewrite Forall_forall in Hb. apply list_elem_of_In, Hb in Hg. lia.
    + done.
    + rewrite Forall_forall in Ha. by apply list_elem_of_In, Ha in Hg.
  - by exists before, after.
Qed.

Section recheck_script_properties.
Import recheck_script.
Variable clock : nat -> datetime.
Variable reddit_info : nat -> list string -> attr (list Submission.t).
Variable glob : string -> list string.
Variable getctime : string -> Z.
Variable read_csv : string -> attr (list PostData.t).
Variable to_csv : string -> bool.
Variable strftime : datetime -> string.

Lemma get_final_post_status_calls ids w :
  collect_data_2.info_calls
    (collect_data_2.get_final_post_status clock reddit_info ids w).2 =
  collect_data_2.info_calls w + ceil_div (length ids) collect_data_2.BATCH_SIZE.
Proof.
  unfold collect_data_2.get_final_post_status.
  pose proof (check_batches_spec clock reddit_info ids
                (py_range 0 (length ids) collect_data_2.BATCH_SIZE) ∅
                (collect_data_2.emit (Print (Pass2Fetching (length ids))) w))
    as (Hc & _).
  destruct (collect_data_2.check_batches _ _ _ _ _ _) as [m w1].
  simpl in *. rewrite Hc.
  rewrite py_range_spec by (unfold collect_data_2.BATCH_SIZE; lia).
  by rewrite length_map, length_seq.
Qed.

(** What one entry of the manifest does to the session. *)
Lemma process_subreddit_spec subreddit post_fullnames all_final_data s :
  let item := (subreddit, post_fullnames) in
  let out :=
    process_subreddit clock reddit_info glob getctime read_csv to_csv strftime
      subreddit post_fullnames all_final_data s in
  collect_data_2.info_calls (platform out.2) =
    collect_data_2.info_calls (platform s) +
    (if reaches_recheck glob getctime read_csv item
     then ceil_div (length post_fullnames) collect_data_2.BATCH_SIZE else 0) /\
  (reaches_recheck glob getctime read_csv item = false ->
   out.1 = all_final_data /\ platform out.2 = platform s /\
   written out.2 = written s) /\
  exists tables,
    out.1 = all_final_data ++ tables /\
    (written out.2).*2 = (written s).*2 ++ tables /\
    length tables <= 1 /\
    Forall (fun table =>
      exists f files df,
        glob (pass1_pattern subreddit) = f :: files /\
        read_csv (max_by getctime f files) = Some df /\
        map Combined.initial table = df /\
        table = (recheck clock reddit_info df post_fullnames (platform s)).1)
      tables.
Proof.
  cbv zeta. unfold process_subreddit, reaches_recheck. cbn [fst snd].
  destruct post_fullnames as [|id ids].
  { cbn [say platform written]. rewrite Nat.add_0_r.
    split; [done|]. split; [done|]. exists [].
    rewrite !app_nil_r. repeat split; auto. }
  destruct (glob (pass1_pattern subreddit)) as [|f files] eqn:Hglob.
  { cbn [say platform written]. rewrite Nat.add_0_r.
    split; [done|]. split; [done|]. exists [].
    rewrite !app_nil_r. repeat split; auto. }
  destruct (read_csv (max_by getctime f files)) as [df|] eqn:Hread.
  2:{ cbn [say platform written]. rewrite Nat.add_0_r.
      split; [done|]. split; [done|]. exists [].
    rewrite !app_nil_r. repeat split; auto. }
  cbn [say platform].
  pose proof (get_final_post_status_calls (id :: ids) (platform s)) as Hcalls.
  assert (map Combined.initial
            (recheck clock reddit_info df (id :: ids) (platform s)).1 = df)
    as Hrows.
  { unfold recheck.
    destruct (collect_data_2.get_final_post_status _ _ _ _) as [m w1].
    cbn [fst]. rewrite join_rows, map_map. apply map_id. }
  unfold recheck in *.
  destruct (collect_data_2.get_final_post_status clock reddit_info (id :: ids)
              (platform s)) as [status_data w1].
  cbn [fst snd] in *.
  destruct (to_csv _); cbn [fst snd say write set_platform platform written
                              collect_data_2.info_calls].
  - split; [done|]. split; [done|].
    exists [collect_data_2.join df status_data].
    split; [done|]. split; [by rewrite fmap_app|]. split; [done|].
    constructor; [|done]. by exists f, files, df.
  - split; [done|]. split; [done|]. exists [].
    rewrite !app_nil_r. repeat split; auto.
Qed.

Lemma process_all_spec items all_final_data s :
  let out :=
    process_all clock reddit_info glob getctime read_csv to_csv strftime
      items all_final_data s in
  collect_data_2.info_calls (platform out.2) =
    collect_data_2.info_calls (platform s) +
    sum_list
      (map (fun item =>
              if reaches_recheck glob getctime read_csv item
              then ceil_div (length item.2) collect_data_2.BATCH_SIZE else 0)
         items) /\
  exists tables,
    out.1 = all_final_data ++ tables /\
    (written out.2).*2 = (written s).*2 ++ tables /\
    length tables <= length items /\
    Forall (fun table =>
      exists item f files df,
        In item items /\
        glob (pass1_pattern item.1) = f :: files /\
        read_csv (max_by getctime f files) = Some df /\
        map Combined.initial table = df)
      tables.
Proof.
  cbv zeta. revert all_final_data s.
  induction items as [|[subreddit ids] items IH]; intros all_final_data s.
  { cbn [process_all map sum_list fst snd]. rewrite Nat.add_0_r.
    split; [done|]. exists []. by rewrite !app_nil_r. }
  cbn [process_all map sum_list].
  pose proof (process_subreddit_spec subreddit ids all_final_data s)
    as (Hc & _ & tables1 & Hall1 & Hw1 & Hlen1 & Ht1).
  cbv zeta in Hc.
  destruct (process_subreddit _ _ _ _ _ _ _ subreddit ids all_final_data s)
    as [all1 s1]. cbn [fst snd] in *.
  destruct (IH all1 s1) as (Hc' & tables2 & Hall2 & Hw2 & Hlen2 & Ht2).
  split; [rewrite Hc', Hc; simpl; lia|].
  exists (tables1 ++ tables2).
  rewrite Hall2, Hw2, Hall1, Hw1, <- !app_assoc.
  split; [done|]. split; [done|]. split.
  - rewrite length_app. cbn [length]. lia.
  - apply Forall_app. split.
    + eapply Forall_impl; [exact Ht1|].
      intros table (f & files & df & Hg & Hr & Hrows & _).
      exists (subreddit, ids), f, files, df. by repeat split; [left|..].
    + eapply Forall_impl; [exact Ht2|].
      intros table (item & f & files & df & Hin & Hrest).
      exists item, f, files, df. split; [by right|done].
Qed.

(** X19. An entry of the manifest with no identifiers, with no Pass 1 file
    matching its subreddit, or whose latest Pass 1 file cannot be read, is
    skipped at no cost: no bulk request, no delay, no file, and the tables
    collected so far are as they were. *)
Theorem skipped_entry_makes_no_request
    (subreddit : string) (post_fullnames : list string)
    (all_final_data : list (list Combined.t)) (s : session) :
  post_fullnames = [] \/
  glob (pass1_pattern subreddit) = [] \/
  (exists f files,
     glob (pass1_pattern subreddit) = f :: files /\
     read_csv (max_by getctime f files) = None) ->
  let out :=
    process_subreddit clock reddit_info glob getctime read_csv to_csv strftime
      subreddit post_fullnames all_final_data s in
  out.1 = all_final_data /\ platform out.2 = platform s /\
  written out.2 = written s.
Proof.
  intros Hskip.
  apply (process_subreddit_spec subreddit post_fullnames all_final_data s).
  unfold reaches_recheck. cbn [fst snd].
  destruct Hskip as [->|[->|(f & files & -> & ->)]];
    [done|by destruct post_fullnames|by destruct post_fullnames].
Qed.

(** X20. The loop over the manifest issues [ceil(n / 100)] bulk requests
    for each entry with [n] identifiers that has a readable Pass 1 file,
    and none for the others, whatever the lookups answer and whether or not
    the tables can be saved. *)
Theorem bulk_requests_of_the_run
    (items : list (string * list string))
    (all_final_data : list (list Combined.t)) (s : session) :
  let out :=
    process_all clock reddit_info glob getctime read_csv to_csv strftime
      items all_final_data s in
  collect_data_2.info_calls (platform out.2) =
    collect_data_2.info_calls (platform s) +
    sum_list
      (map (fun item =>
              if reaches_recheck glob getctime read_csv item
              then ceil_div (length item.2) collect_data_2.BATCH_SIZE else 0)
         items).
Proof. apply process_all_spec. Qed.

(** X21. The tables the loop collects are exactly the tables it saved, one
    file each and in the same order, at most one per entry of the manifest;
    and each of them has the rows of the latest Pass 1 table of an entry of
    the manifest, each row once and in order. *)
Theorem collected_tables_are_saved_and_keep_rows
    (items : list (string * list string)) (s : session) :
  let out :=
    process_all clock reddit_info glob getctime read_csv to_csv strftime
      items [] s in
  (written out.2).*2 = (written s).*2 ++ out.1 /\
  length out.1 <= length items /\
  Forall (fun table =>
    exists item f files df,
      In item items /\
      glob (pass1_pattern item.1) = f :: files /\
      read_csv (max_by getctime f files) = Some df /\
      map Combined.initial table = df)
    out.1.
Proof.
  cbv zeta.
  destruct (process_all_spec items [] s) as (_ & tables & -> & Hw & Hlen & Ht).
  done.
Qed.

End recheck_script_properties.

Section capture_script_properties.
Import capture_script.
Variable clock : nat -> datetime.
Variable subreddit_new : string -> nat -> list Submission.t.
Variable listing_raises : string -> bool.
Variable to_csv : string -> bool.
Variable json_dump : string -> bool.
Variable strftime : datetime -> string.

Lemma dict_set_In {V : Type} (k k' : string) (v v' : V) d :
  In (k', v') (dict_set k v d) -> (k' = k /\ v' = v) \/ In (k', v') d.
Proof.
  induction d as [|[k0 v0] d IH]; simpl.
  { intros [[= <- <-]|[]]. by left. }
  destruct (String.eqb k0 k).
  - intros [[= <- <-]|Hin]; [by left|right; by right].
  - intros [Heq|Hin]; [right; by left|].
    destruct (IH Hin) as [?|?]; [by left|right; by right].
Qed.

Lemma collect_initial_cohort_parallel subreddit_name limit w :
  (collect_data.collect_initial_cohort clock subreddit_new subreddit_name
     limit w).1.2 =
  map PostData.post_fullname
    (collect_data.collect_initial_cohort clock subreddit_new subreddit_name
       limit w).1.1.
Proof.
  unfold collect_data.collect_initial_cohort.
  pose proof (cohort_loop_attempts clock (subreddit_new subreddit_name limit)
                1 [] []
                (collect_data.emit (Print (Pass1Collecting subreddit_name)) w))
    as H.
  cbv zeta in H.
  destruct (collect_data.cohort_loop clock _ 1 [] [] _) as [[recs ids] w1].
  cbn [fst snd app] in *. by injection H as -> ->.
Qed.

Lemma fetches_cached_sleep d w :
  fetches_cached w -> fetches_cached (collect_data.emit (Sleep d) w).
Proof.
  unfold fetches_cached, collect_data.emit. simpl.
  by rewrite fetched_app, app_nil_r.
Qed.

(** What the body of the loop keeps. *)
Lemma capture_subreddit_spec subreddit all_initial_data cohort_ids s :
  let out :=
    capture_subreddit clock subreddit_new listing_raises to_csv strftime
      subreddit all_initial_data cohort_ids s in
  (manifest_ok all_initial_data cohort_ids -> manifest_ok out.1.1 out.1.2) /\
  (forall sub ids, In (sub, ids) out.1.2 ->
     sub = subreddit \/ In (sub, ids) cohort_ids) /\
  (fetches_cached (world s) -> fetches_cached (world out.2)) /\
  (Forall (fun file => exists rows, file.2 = Table rows) (written s) ->
   Forall (fun file => exists rows, file.2 = Table rows) (written out.2)).
Proof.
  cbv zeta. unfold capture_subreddit.
  destruct (listing_raises subreddit).
  { pose proof (cohort_loop_fetches clock (subreddit_new subreddit LIMIT) 1
                  [] []
                  (collect_data.emit (Print (Pass1Collecting subreddit))
                     (world s))) as Hf.
    destruct (collect_data.cohort_loop clock _ 1 [] [] _) as [[recs ids] w1].
    cbn [fst snd say set_world world written] in *.
    split; [done|]. split; [by right|]. split; [|done].
    intros Hw. by apply Hf, fetches_cached_print. }
  pose proof (collect_initial_cohort_parallel subreddit LIMIT (world s)) as Hpar.
  pose proof (collect_initial_cohort_fetches clock subreddit_new subreddit
                LIMIT (world s)) as Hf.
  destruct (collect_data.collect_initial_cohort clock subreddit_new subreddit
              LIMIT (world s)) as [[df ids] w1].
  cbn [fst snd] in *.
  destruct df as [|row df].
  { cbn [fst snd say set_world world written].
    split; [done|]. split; [by right|]. by split. }
  assert (manifest_ok all_initial_data cohort_ids ->
          manifest_ok (all_initial_data ++ [row :: df])
            (dict_set subreddit ids cohort_ids)) as Hok.
  { intros Hok sub ids' [[-> ->]|Hin]%dict_set_In.
    - split; [by rewrite Hpar|]. exists (row :: df).
      split; [|done]. apply in_or_app. right. by left.
    - destruct (Hok _ _ Hin) as (Hne & df' & Hdf' & Hids).
      split; [done|]. exists df'. split; [|done]. apply in_or_app. by left. }
  assert (forall sub ids', In (sub, ids') (dict_set subreddit ids cohort_ids) ->
            sub = subreddit \/ In (sub, ids') cohort_ids) as Hkeys.
  { intros sub ids' [[-> _]|Hin]%dict_set_In; [by left|by right]. }
  cbn [collect_data.now fst snd set_world world].
  destruct (to_csv _);
    cbn [fst snd say write set_world world written collect_data.clock_reads
           collect_data.user_info_cache collect_data.trace].
  - split; [done|]. split; [done|]. split.
    + intros Hw. by apply fetches_cached_sleep, Hf.
    + intros Hw. apply Forall_app. split; [done|].
      constructor; [by eexists|done].
  - split; [done|]. split; [done|]. split; [|done].
    intros Hw. by apply Hf.
Qed.

Lemma capture_all_spec subreddits all_initial_data cohort_ids s :
  let out :=
    capture_all clock subreddit_new listing_raises to_csv strftime
      subreddits all_initial_data cohort_ids s in
  (manifest_ok all_initial_data cohort_ids -> manifest_ok out.1.1 out.1.2) /\
  (forall sub ids, In (sub, ids) out.1.2 ->
     In sub subreddits \/ In (sub, ids) cohort_ids) /\
  (fetches_cached (world s) -> fetches_cached (world out.2)) /\
  (Forall (fun file => exists rows, file.2 = Table rows) (written s) ->
   Forall (fun file => exists rows, file.2 = Table rows) (written out.2)).
Proof.
  cbv zeta. revert all_initial_data cohort_ids s.
  induction subreddits as [|subreddit subreddits IH];
    intros all_initial_data cohort_ids s.
  { cbn [capture_all fst snd]. split; [done|]. split; [by right|]. by split. }
  cbn [capture_all].
  pose proof (capture_subreddit_spec subreddit all_initial_data cohort_ids s)
    as (Hok1 & Hk1 & Hf1 & Hw1).
  destruct (capture_subreddit _ _ _ _ _ subreddit all_initial_data cohort_ids s)
    as [[all1 cohort1] s1]. cbn [fst snd] in *.
  destruct (IH all1 cohort1 s1) as (Hok2 & Hk2 & Hf2 & Hw2).
  split; [auto|]. split; [|split; auto].
  intros sub ids [Hsub|Hin]%Hk2; [left; by right|].
  destruct (Hk1 _ _ Hin) as [->|?]; [left; by left|by right].
Qed.

(** X22. When the script ends normally and writes a manifest, every entry
    of the manifest belongs to one of the subreddits of the run, lists at
    least one identifier, and every identifier it lists is the identifier
    of a row of the combined Pass 1 table written in the same run. *)
Theorem manifest_entries_are_captured_rows
    (subreddits : list string) (s : session) :
  main clock subreddit_new listing_raises to_csv json_dump strftime
    subreddits = Some s ->
  forall path cohort_ids, In (path, Manifest cohort_ids) (written s) ->
  forall subreddit ids, In (subreddit, ids) cohort_ids ->
    ids <> [] /\ In subreddit subreddits /\
    exists combined_filename combined_df,
      In (combined_filename, Table combined_df) (written s) /\
      forall id, In id ids ->
        exists row, In row combined_df /\ PostData.post_fullname row = id.
Proof.
  unfold main.
  pose proof (capture_all_spec subreddits [] [] start) as (Hok & Hk & _ & Hw).
  destruct (capture_all _ _ _ _ _ subreddits [] [] start)
    as [[all_initial_data cohort] s0]. cbn [fst snd] in *.
  assert (manifest_ok all_initial_data cohort) as Hok'.
  { apply Hok. intros ? ? []. }
  assert (Forall (fun file => exists rows, file.2 = Table rows) (written s0))
    as Hw'.
  { apply Hw. constructor. }
  clear Hok Hw. unfold finish.
  destruct all_initial_data as [|df0 all_initial_data].
  { intros [= <-] path m Hin. cbn [say written] in Hin.
    rewrite Forall_forall in Hw'. apply list_elem_of_In, Hw' in Hin.
    by destruct Hin as [rows [=]]. }
  cbn [collect_data.now fst snd set_world world].
  destruct (to_csv _); [|discriminate].
  cbn [write set_world world console written].
  destruct (json_dump _); [|discriminate].
  intros [= <-] path m Hin. cbn [say write written] in Hin.
  apply in_app_or in Hin as [Hin|[[= _ <-]|[]]].
  - apply in_app_or in Hin as [Hin|[[=]|[]]].
    rewrite Forall_forall in Hw'. apply list_elem_of_In, Hw' in Hin.
    by destruct Hin as [rows [=]].
  - intros subreddit ids Hentry.
    destruct (Hok' _ _ Hentry) as (Hne & df & Hdf & ->).
    split; [done|]. split.
    { destruct (Hk _ _ Hentry) as [?|[]]. done. }
    eexists _, (concat (df0 :: all_initial_data)). split.
    { apply in_or_app. left. apply in_or_app. right. by left. }
    intros id (row & <- & Hrow)%in_map_iff.
    exists row. split; [|done]. apply in_concat. by exists df.
Qed.

(** X23. The cache is shared by the whole run: over all the subreddits of
    the loop, no username is fetched twice. *)
Theorem run_fetches_each_username_once
    (subreddits : list string) :
  NoDup (fetched (collect_data.trace (world
    (capture_all clock subreddit_new listing_raises to_csv strftime
       subreddits [] [] start).2))).
Proof.
  apply (capture_all_spec subreddits [] [] start).
  split; [constructor|intros ? []].
Qed.

End capture_script_properties.

(** * The further properties at the sample data *)

Lemma available_author_karma_adds_up_witness :
  Forall (fun r => karma_sum (author_columns r))
    (collect_data.collect_initial_cohort Sample.clock Sample.listing "test"
       100 collect_data.initial).1.1.
Proof.
  apply (available_author_karma_adds_up Sample.clock Sample.listing "test" 100
           collect_data.initial).
  apply map_Forall_empty.
Defined.

Lemma post_record_author_columns_consistent_witness :
  Forall (fun r => consistent (author_columns r))
    (collect_data.collect_initial_cohort Sample.clock Sample.listing "test"
       100 collect_data.initial).1.1.
Proof.
  apply (post_record_author_columns_consistent Sample.clock Sample.listing
           "test" 100 collect_data.initial).
  apply map_Forall_empty.
Defined.

Lemma snapshot_username_witness :
  Forall2 (answer_for named_after)
    [Some Sample.alice; Some Sample.broken; None; Some Sample.alice_again]
    (collect_data.lookups Sample.clock
       [Some Sample.alice; Some Sample.broken; None; Some Sample.alice_again]
       collect_data.initial).1.
Proof.
  apply (snapshot_username Sample.clock
           [Some Sample.alice; Some Sample.broken; None;
            Some Sample.alice_again] collect_data.initial).
  apply map_Forall_empty.
Defined.

Lemma cache_keeps_named_entries_witness :
  collect_data.user_info_cache
    (collect_data.collect_initial_cohort Sample.clock Sample.listing "test"
       100
       (collect_data.collect_user_info Sample.clock (Some Sample.ghost)
          collect_data.initial).2).2 !! Some "ghost"%string =
  Some (UserInfo.unavailable "ghost").
Proof.
  apply (cache_keeps_named_entries Sample.clock Sample.listing "test" 100).
  vm_compute. reflexivity.
Defined.

Lemma pacing_iff_fetch_succeeded_witness :
  In (Sleep collect_data.USER_PACING)
    (events_since (collect_data.trace collect_data.initial)
       (collect_data.trace
          (collect_data.collect_user_info Sample.clock (Some Sample.alice)
             collect_data.initial).2)).
Proof.
  apply (pacing_iff_fetch_succeeded Sample.clock (Some Sample.alice)
           collect_data.initial).
  split; [|reflexivity]. exists "alice"%string. left. reflexivity.
Defined.

Lemma dropped_post_still_caches_author_witness :
  (collect_data.collect_post_data Sample.clock Demo.dropped
     collect_data.initial).1 = None /\
  is_Some
    (collect_data.user_info_cache
       (collect_data.collect_post_data Sample.clock Demo.dropped
          collect_data.initial).2 !! Some "alice"%string).
Proof.
  split; [reflexivity|].
  apply (proj1 (proj2 (dropped_post_still_caches_author Sample.clock
                         Demo.dropped collect_data.initial))
           Sample.alice "alice"%string);
    [reflexivity | reflexivity | discriminate].
Defined.

Lemma post_recorded_only_if_readable_witness :
  readable (Sample.post "t3_a" (Some Sample.alice) None) /\
  is_Some
    (collect_data.collect_post_data Sample.clock
       (with_author (Sample.post "t3_a" (Some Sample.alice) None)
          (Some Sample.ghost))
       collect_data.initial).1.
Proof.
  destruct (post_recorded_only_if_readable Sample.clock
              (Sample.post "t3_a" (Some Sample.alice) None)
              collect_data.initial) as [Honly Hsame].
  split.
  - apply Honly. eexists. reflexivity.
  - apply (Hsame Sample.clock collect_data.initial
             (Some Sample.ghost) (Some Sample.alice)).
    eexists. reflexivity.
Defined.

Lemma selftext_truncated_to_500_witness :
  String.length (PostData.selftext (Sample.row "t3_a")) <= 500.
Proof.
  apply (selftext_truncated_to_500 Sample.clock
           (Sample.post "t3_a" (Some Sample.alice) None) collect_data.initial
           (Sample.row "t3_a")).
  vm_compute. reflexivity.
Defined.

Lemma identifiers_subsequence_of_stream_witness :
  NoDup
    (collect_data.collect_initial_cohort Sample.clock Sample.listing "test"
       100 collect_data.initial).1.2.
Proof.
  apply (identifiers_subsequence_of_stream Sample.clock Sample.listing "test"
           100 collect_data.initial).
  apply (bool_decide_unpack _). vm_compute. exact I.
Defined.

Lemma status_keys_among_identifiers_witness :
  size
    (collect_data_2.get_final_post_status Sample.clock Sample.answers
       Sample.cohort collect_data_2.initial).1 <= length Sample.cohort.
Proof.
  apply (status_keys_among_identifiers Sample.clock Sample.answers
           Sample.cohort collect_data_2.initial).
  exact sample_answers_faithful.
Defined.

Lemma status_flags_meaning_witness :
  exists s,
    (collect_data_2.get_final_post_status Sample.clock Sample.scenario
       ["t3_a"; "t3_b"; "t3_c"]%string collect_data_2.initial).1
      !! "t3_c"%string = Some s /\
    (Status.is_removed_official s = true <->
     Status.removed_by_category s <> None) /\
    exists post,
      In post [Sample.post "t3_a" (Some Sample.alice) None;
               Sample.post "t3_c" (Some Sample.alice)
                 (Some "moderator"%string)] /\
      Submission.fullname post = "t3_c"%string /\
      Submission.removed_by_category post = Some (Status.removed_by_category s).
Proof.
  eexists. split; [vm_compute; reflexivity|].
  destruct (status_flags_meaning Sample.clock Sample.scenario
              ["t3_a"; "t3_b"; "t3_c"]%string collect_data_2.initial
              "t3_c"%string _ eq_refl)
    as (Hoff & p & Hid & (j & posts & t & _ & Hr & Hin & _) & Hcat & _).
  split; [exact Hoff|]. exists p.
  injection Hr as <-. split; [exact Hin|]. split; [exact Hid|exact Hcat].
Defined.

Lemma all_identifiers_resolved_witness :
  is_Some
    ((collect_data_2.get_final_post_status Sample.clock Sample.answers
        Sample.cohort collect_data_2.initial).1 !! Sample.fullname_of 100).
Proof.
  apply (all_identifiers_resolved Sample.clock Sample.answers Sample.cohort
           collect_data_2.initial).
  - intros k _. eexists. split; [reflexivity|].
    split; [apply (sample_answers_complete 0)|].
    intros id Hid. exists (Sample.post id (Some Sample.alice) None).
    split; [|reflexivity].
    apply in_map_iff. exists id. split; [reflexivity|exact Hid].
  - apply (in_map Sample.fullname_of (seq 0 101) 100), in_seq. lia.
Defined.

Lemma all_batches_failed_witness :
  (collect_data_2.get_final_post_status Sample.clock Demo.down Sample.cohort
     collect_data_2.initial).1 = ∅.
Proof.
  apply (all_batches_failed Sample.clock Demo.down Sample.cohort
           collect_data_2.initial).
  intros k _. reflexivity.
Defined.

Lemma unresolved_rows_have_null_status_witness :
  (recheck_script.recheck Sample.clock Sample.first_fails
     [Sample.row (Sample.fullname_of 0)] Sample.cohort
     collect_data_2.initial).1 !! 0 =
  Some (Combined.Make (Sample.row (Sample.fullname_of 0)) None).
Proof.
  apply (unresolved_rows_have_null_status Sample.clock Sample.first_fails
           [Sample.row (Sample.fullname_of 0)] Sample.cohort
           collect_data_2.initial 0 (Sample.row (Sample.fullname_of 0))
           sample_cohort_NoDup sample_first_fails_faithful eq_refl).
  right. exists 0. split; [reflexivity|]. left. reflexivity.
Defined.

Lemma latest_file_is_first_newest_witness :
  max_by Demo.getctime Demo.older [Demo.newer] = Demo.newer /\
  (Demo.getctime Demo.older <=
   Demo.getctime (max_by Demo.getctime Demo.older [Demo.newer]))%Z.
Proof.
  split; [reflexivity|].
  apply (latest_file_is_first_newest Demo.getctime Demo.older [Demo.newer]).
  left. reflexivity.
Defined.

Lemma skipped_entry_makes_no_request_witness :
  recheck_script.platform
    (recheck_script.process_subreddit Sample.clock Sample.answers Demo.glob
       Demo.getctime Demo.read_csv Demo.to_csv Demo.strftime
       "elsewhere" ["t3_a"%string] [] Demo.session).2 =
  recheck_script.platform Demo.session.
Proof.
  apply (skipped_entry_makes_no_request Sample.clock Sample.answers Demo.glob
           Demo.getctime Demo.read_csv Demo.to_csv Demo.strftime
           "elsewhere" ["t3_a"%string] [] Demo.session).
  right. left. reflexivity.
Defined.

Lemma manifest_entries_are_captured_rows_witness :
  match
    capture_script.main Sample.clock Sample.listing Demo.listing_raises
      Demo.to_csv Demo.json_dump Demo.strftime ["test"%string]
  with
  | Some s =>
    In ("data/cohort_ids_20250101_1200.json"%string,
        capture_script.Manifest [("test", ["t3_a"; "t3_c"])]%string)
      (capture_script.written s) /\
    (["t3_a"; "t3_c"]%string <> [] /\ In "test"%string ["test"%string])
  | None => False
  end.
Proof.
  destruct (capture_script.main Sample.clock Sample.listing
              Demo.listing_raises Demo.to_csv Demo.json_dump Demo.strftime
              ["test"%string]) as [s|] eqn:E.
  - assert (In ("data/cohort_ids_20250101_1200.json"%string,
                capture_script.Manifest [("test", ["t3_a"; "t3_c"])]%string)
              (capture_script.written s)) as Hin.
    { vm_compute in E. injection E as <-. right. right. left. reflexivity. }
    split; [exact Hin|].
    destruct (manifest_entries_are_captured_rows Sample.clock Sample.listing
                Demo.listing_raises Demo.to_csv Demo.json_dump Demo.strftime
                ["test"%string] s E _ _ Hin "test"%string
                ["t3_a"; "t3_c"]%string (or_introl eq_refl))
      as (Hne & Hsub & _).
    split; [exact Hne|exact Hsub].
  - vm_compute in E. discriminate E.
Defined.
